(** * BuildSmart invoice system: a shallow embedding of [main.py]

    The embedding follows the program bottom-up:
    - [Py]: the Python values, exceptions and builtins the program calls
      ([float], [str], [repr], [eval], [str.strip], the [.2f] format, [len],
      [strptime] and [strftime]);
    - [Sqlite]: the [invoices] table and the SQL statements of the program,
      the search with [LIKE] included;
    - [App]: [init_db]; [InvoiceForm] with [__init__], [add_item_row],
      [calculate_totals], [update_total], [save_invoice] and [generate_pdf];
      [InvoiceViewer] with [__init__], [print_invoice], [edit_invoice] and
      [delete_invoice]; [DashboardWidget] with [load_data],
      [open_invoice_details], [open_new_invoice], [edit_invoice] and
      [delete_invoice].

    Python floats are IEEE binary64 numbers, as are Rocq's primitive floats,
    so arithmetic on amounts is the program's own, bit for bit.  Texts are
    modelled as byte strings and read as ASCII. *)

From Stdlib Require Import ZArith List String Ascii Floats Bool Lia Sorted.
From stdpp Require Import gmap strings list pretty.

Local Open Scope string_scope.
Local Open Scope list_scope.
Local Open Scope Z_scope.
Set Warnings "-register-all".

(** * Python *)
Module Py.

(** The exceptions the program can meet, [sqlite3]'s two included. *)
Inductive exn : Set :=
  | ValueError | TypeError | NameError | SyntaxError | KeyError | IndexError
  | OverflowError | IntegrityError | OperationalError.

#[global] Instance exn_eq_dec : EqDecision exn.
Proof. solve_decision. Defined.

(** What running a piece of Python yields: a value, a raised exception, or
    [Unmodelled] when [eval] is handed text outside the modelled fragment of
    the language (see [eval_]); nothing is claimed about such runs. *)
Inductive result (A : Type) : Type :=
  | Ok (a : A)
  | Raise (e : exn)
  | Unmodelled.
Arguments Ok {A} a.
Arguments Raise {A} e.
Arguments Unmodelled {A}.

Definition bind {A B} (r : result A) (k : A -> result B) : result B :=
  match r with
  | Ok a => k a
  | Raise e => Raise e
  | Unmodelled => Unmodelled
  end.

#[global] Instance result_ret : MRet result := @Ok.
#[global] Instance result_bind : MBind result := fun A B k r => bind r k.
#[global] Instance result_fmap : FMap result :=
  fun A B f r => bind r (fun a => Ok (f a)).

(** [try: body except e: handler]. *)
Definition try_except {A} (body : result A) (e : exn) (handler : result A)
  : result A :=
  match body with
  | Raise e' => if decide (e' = e) then handler else Raise e'
  | r => r
  end.

(** ** Characters *)

Definition code (c : ascii) : Z := Z.of_N (N_of_ascii c).

Definition is_digit (c : ascii) : bool := (48 <=? code c) && (code c <=? 57).

Definition digit_val (c : ascii) : Z := code c - 48.

Definition is_alpha (c : ascii) : bool :=
  ((65 <=? code c) && (code c <=? 90)) || ((97 <=? code c) && (code c <=? 122)).

Definition lower (c : ascii) : ascii :=
  if (65 <=? code c) && (code c <=? 90)
  then ascii_of_N (Z.to_N (code c + 32)) else c.

(** C's [isspace], which [float] strips: tab, LF, VT, FF, CR and space. *)
Definition is_c_space (c : ascii) : bool :=
  ((9 <=? code c) && (code c <=? 13)) || (code c =? 32).

(** What [str.strip] strips of ASCII: the above and FS, GS, RS, US. *)
Definition is_py_space (c : ascii) : bool :=
  is_c_space c || ((28 <=? code c) && (code c <=? 31)).

Fixpoint lstrip (sp : ascii -> bool) (s : string) : string :=
  match s with
  | String c s' => if sp c then lstrip sp s' else s
  | EmptyString => EmptyString
  end.

Fixpoint rstrip (sp : ascii -> bool) (s : string) : string :=
  match s with
  | String c s' =>
      match rstrip sp s' with
      | EmptyString => if sp c then EmptyString else String c EmptyString
      | r => String c r
      end
  | EmptyString => EmptyString
  end.

(** [s.strip()]. *)
Definition strip (s : string) : string := rstrip is_py_space (lstrip is_py_space s).

(** ** Floats *)

Definition fneg (s : bool) (f : float) : float := if s then (- f)%float else f.

(** [n / d] rounded to an integer, ties to even ([0 <= n], [0 < d]). *)
Definition round_half_even (n d : Z) : Z :=
  let q := n / d in
  match 2 * (n mod d) ?= d with
  | Lt => q
  | Gt => q + 1
  | Eq => if Z.even q then q else q + 1
  end.

(** The binary64 number nearest to [n / d], ties to even ([0 < n], [0 < d]):
    the quotient is scaled to a 53-bit integer (fewer bits below the normal
    range), rounded once, and scaled back exactly. *)
Definition float_of_ratio (n d : Z) : float :=
  let scaled (e : Z) := if 0 <=? e then (n, d * 2 ^ e) else (n * 2 ^ (- e), d) in
  let e1 := Z.max (-1074) (Z.log2 n - Z.log2 d - 53) in
  let e := if 2 ^ 53 <=? fst (scaled e1) / snd (scaled e1) then e1 + 1 else e1 in
  let m := round_half_even (fst (scaled e)) (snd (scaled e)) in
  Z.ldexp (of_uint63 (Uint63.of_Z m)) e.

(** [m * 10^e] as a quotient of two positive integers. *)
Definition dec_ratio (m e : Z) : Z * Z :=
  if 0 <=? e then (m * 10 ^ e, 1) else (m, 10 ^ (- e)).

(** The binary64 number nearest to the decimal [m * 10^e], [0 <= m].  Decimals
    beyond the range of the format are settled before any power is taken. *)
Definition float_of_decimal (m e : Z) : float :=
  if m =? 0 then 0%float
  else
    let adj := e + Z.log2 m * 30103 / 100000 in
    if 400 <? adj then infinity
    else if adj <? -400 then 0%float
    else float_of_ratio (fst (dec_ratio m e)) (snd (dec_ratio m e)).

(** A run of decimal digits: its value continuing [acc], how many, the rest. *)
Fixpoint digits (acc : Z) (s : string) : Z * nat * string :=
  match s with
  | String c s' =>
      if is_digit c
      then let '(v, n, r) := digits (10 * acc + digit_val c) s' in (v, S n, r)
      else (acc, O, s)
  | EmptyString => (acc, O, s)
  end.

(** The exponent of a decimal literal, when one follows: [e], a sign, digits. *)
Definition exponent (s : string) : Z * string :=
  match s with
  | String c s' =>
      if Ascii.eqb (lower c) "e"
      then
        let '(neg, s'') :=
          match s' with
          | String "+" t => (false, t)
          | String "-" t => (true, t)
          | _ => (false, s')
          end in
        match digits 0 s'' with
        | (_, O, _) => (0, s)
        | (v, _, r) => ((if neg then - v else v), r)
        end
      else (0, s)
  | EmptyString => (0, s)
  end.

(** An unsigned decimal in whole: [digits [. digits] [exponent]] with a digit
    before or after the point, as (mantissa, power of ten, is it an integer
    literal, rest). *)
Definition decimal (s : string) : option (Z * Z * bool * string) :=
  let '(ip, ni, r1) := digits 0 s in
  let '(m, nf, r2, pt) :=
    match r1 with
    | String "." t => let '(v, n, r) := digits ip t in (v, n, r, true)
    | _ => (ip, O, r1, false)
    end in
  match ni, nf with
  | O, O => None
  | _, _ =>
      let '(ex, r3) := exponent r2 in
      let isint := negb pt && (String.length r2 =? String.length r3)%nat in
      Some (m, ex - Z.of_nat nf, isint, r3)
  end.

(** Underscores may group digits: each stands between two digits, and is
    dropped; [None] when one stands elsewhere. *)
Fixpoint ungroup (prev : ascii) (s : string) : option string :=
  match s with
  | String c s' =>
      if Ascii.eqb c "_"
      then
        match s' with
        | String c' _ =>
            if is_digit prev && is_digit c' then ungroup c s' else None
        | EmptyString => None
        end
      else option_map (String c) (ungroup c s')
  | EmptyString => Some EmptyString
  end.

Definition lower_string (s : string) : string :=
  string_of_list_ascii (List.map lower (list_ascii_of_string s)).

(** [float(s)] on a [str]: [None] stands for the [ValueError] it raises. *)
Definition parse_float (s : string) : option float :=
  match ungroup " " (rstrip is_c_space (lstrip is_c_space s)) with
  | None => None
  | Some t =>
      let '(neg, u) :=
        match t with
        | String "+" u => (false, u)
        | String "-" u => (true, u)
        | _ => (false, t)
        end in
      let w := lower_string u in
      if String.eqb w "inf" || String.eqb w "infinity" then Some (fneg neg infinity)
      else if String.eqb w "nan" then Some nan
      else
        match decimal u with
        | Some (m, e, _, EmptyString) => Some (fneg neg (float_of_decimal m e))
        | _ => None
        end
  end.

Definition float_ (s : string) : result float :=
  match parse_float s with
  | Some f => Ok f
  | None => Raise ValueError
  end.

(** ** Floats to text *)

Definition sign_text (s : bool) : string := if s then "-" else "".

Fixpoint zeros (n : nat) : string :=
  match n with
  | O => ""
  | S n' => String "0" (zeros n')
  end.

(** A natural number in decimal, at least [w] digits wide. *)
Definition zpad (w : nat) (n : Z) : string :=
  let t := pretty n in zeros (w - String.length t) +:+ t.

(** [f"{x:.2f}"] on a float: the exact binary value to two decimals, ties to
    even; the sign is kept on zero and on what rounds to zero. *)
Definition fixed2 (f : float) : string :=
  match Prim2SF f with
  | S754_nan => "nan"
  | S754_infinity s => sign_text s +:+ "inf"
  | S754_zero s => sign_text s +:+ "0.00"
  | S754_finite s m e =>
      let n := if 0 <=? e then Z.pos m * 2 ^ e * 100
               else round_half_even (Z.pos m * 100) (2 ^ (- e)) in
      sign_text s +:+ pretty (n / 100) +:+ "." +:+ zpad 2 (n mod 100)
  end.

(** [10^k <= n / d]. *)
Definition ge_pow10 (n d k : Z) : bool :=
  if 0 <=? k then d * 10 ^ k <=? n else d <=? n * 10 ^ (- k).

Fixpoint adjust_up (fuel : nat) (n d k : Z) : Z :=
  match fuel with
  | O => k
  | S fuel' => if ge_pow10 n d k then adjust_up fuel' n d (k + 1) else k
  end.

Fixpoint adjust_down (fuel : nat) (n d k : Z) : Z :=
  match fuel with
  | O => k
  | S fuel' => if ge_pow10 n d (k - 1) then k else adjust_down fuel' n d (k - 1)
  end.

(** The [k] with [10^(k-1) <= n / d < 10^k], from an estimate off by little. *)
Definition decimal_point (n d : Z) : Z :=
  adjust_down 4 n d (adjust_up 4 n d ((Z.log2 n - Z.log2 d) * 30103 / 100000)).

(** The decimals of [nd] digits next to [n / d], below and above, that read
    back as [f]; of two, the nearer. *)
Definition reads_back (f : float) (n d k nd : Z) : option Z :=
  let s := k - nd in
  let a := if 0 <=? s then n else n * 10 ^ (- s) in
  let b := if 0 <=? s then d * 10 ^ s else d in
  let lo := a / b in
  let ok (c : Z) := PrimFloat.eqb (float_of_decimal c s) f in
  match ok lo, ok (lo + 1) with
  | true, true => Some (round_half_even a b)
  | true, false => Some lo
  | false, true => Some (lo + 1)
  | false, false => None
  end.

(** The shortest decimal that reads back as [f], tried from [nd] digits up;
    seventeen digits always do. *)
Fixpoint shortest (fuel : nat) (f : float) (n d k nd : Z) : Z * Z :=
  match fuel with
  | O => (round_half_even (n * 10 ^ 400) (d * 10 ^ (400 + k - nd)), k - nd)
  | S fuel' =>
      match reads_back f n d k nd with
      | Some c => (c, k - nd)
      | None => shortest fuel' f n d k (nd + 1)
      end
  end.

Fixpoint strip_zeros (fuel : nat) (c s : Z) : Z * Z :=
  match fuel with
  | O => (c, s)
  | S fuel' => if c mod 10 =? 0 then strip_zeros fuel' (c / 10) (s + 1) else (c, s)
  end.

(** [repr]'s layout of the digits [ds] with the decimal point after the first
    [decpt] of them: plain for [-4 < decpt <= 16], with an exponent otherwise. *)
Definition repr_layout (ds : string) (decpt : Z) : string :=
  let nd := Z.of_nat (String.length ds) in
  if (decpt <=? -4) || (16 <? decpt)
  then
    let mant :=
      match ds with
      | String c (String c' r) => String c (String "." (String c' r))
      | _ => ds
      end in
    mant +:+ "e" +:+ (if decpt - 1 <? 0 then "-" else "+") +:+ zpad 2 (Z.abs (decpt - 1))
  else if decpt <=? 0 then "0." +:+ zeros (Z.to_nat (- decpt)) +:+ ds
  else if nd <=? decpt then ds +:+ zeros (Z.to_nat (decpt - nd)) +:+ ".0"
  else substring 0 (Z.to_nat decpt) ds +:+ "." +:+
       substring (Z.to_nat decpt) (Z.to_nat (nd - decpt)) ds.

(** [repr(f)], which is also [str(f)]: the shortest digits that read back. *)
Definition float_repr (f : float) : string :=
  match Prim2SF f with
  | S754_nan => "nan"
  | S754_infinity s => sign_text s +:+ "inf"
  | S754_zero s => sign_text s +:+ "0.0"
  | S754_finite s m e =>
      let n := if 0 <=? e then Z.pos m * 2 ^ e else Z.pos m in
      let d := if 0 <=? e then 1 else 2 ^ (- e) in
      let k := decimal_point n d in
      let '(c, sh) := shortest 17 (abs f) n d k 1 in
      let '(c', sh') := strip_zeros 20 c sh in
      let ds := pretty c' in
      sign_text s +:+ repr_layout ds (sh' + Z.of_nat (String.length ds))
  end.

(** ** Values *)

(** The Python objects that reach the invoice code: what SQLite hands back
    ([None], [int], [float], [str]) and what the items text evaluates to. *)
Inductive value : Type :=
  | VNone
  | VInt (z : Z)
  | VFloat (f : float)
  | VStr (s : string)
  | VTuple (l : list value)
  | VList (l : list value).

Definition squote : ascii := "'"%char.
Definition dquote : ascii := "034"%char.
Definition backslash : ascii := "\"%char.

Fixpoint has_char (c : ascii) (s : string) : bool :=
  match s with
  | String c' s' => Ascii.eqb c c' || has_char c s'
  | EmptyString => false
  end.

Definition hex_digit (n : Z) : ascii :=
  ascii_of_N (Z.to_N (if n <? 10 then 48 + n else 87 + n)).

(** One character inside a [repr] quoted by [q]. *)
Definition escape (q c : ascii) : string :=
  if Ascii.eqb c backslash then String backslash (String backslash "")
  else if Ascii.eqb c q then String backslash (String q "")
  else if code c =? 9 then String backslash "t"
  else if code c =? 10 then String backslash "n"
  else if code c =? 13 then String backslash "r"
  else if (code c <? 32) || (code c =? 127)
  then String backslash (String "x" (String (hex_digit (code c / 16))
                                       (String (hex_digit (code c mod 16)) "")))
  else String c "".

Fixpoint escape_all (q : ascii) (s : string) : string :=
  match s with
  | String c s' => escape q c +:+ escape_all q s'
  | EmptyString => ""
  end.

(** [repr(s)] of a [str]: single quotes, unless the text holds one and no
    double quote. *)
Definition str_repr (s : string) : string :=
  let q := if has_char squote s && negb (has_char dquote s) then dquote else squote in
  String q (escape_all q s) +:+ String q "".

Fixpoint join (sep : string) (l : list string) : string :=
  match l with
  | [] => ""
  | [x] => x
  | x :: l' => x +:+ sep +:+ join sep l'
  end.

Fixpoint repr (v : value) : string :=
  match v with
  | VNone => "None"
  | VInt z => pretty z
  | VFloat f => float_repr f
  | VStr s => str_repr s
  | VTuple [x] => "(" +:+ repr x +:+ ",)"
  | VTuple l => "(" +:+ join ", " (List.map repr l) +:+ ")"
  | VList l => "[" +:+ join ", " (List.map repr l) +:+ "]"
  end.

(** [str(v)], which is what [f"{v}"] inserts. *)
Definition str (v : value) : string :=
  match v with
  | VStr s => s
  | _ => repr v
  end.

(** ** [eval]

    The program stores [str(items)] and reads it back with [eval].  The model
    covers the expressions such text is made of: lists and tuples of string
    literals, decimal numbers (signed or not), [None], and the names [inf] and
    [nan] that [repr] writes for floats beyond the finite ones and that are
    bound nowhere in the program.  A [SyntaxError] is reported only where
    Python is sure to report one (no expression, a string or a bracket left
    open); any other text is [Unmodelled]. *)

Inductive token : Type :=
  | TLPar | TRPar | TLBr | TRBr | TComma | TPlus | TMinus
  | TLit (v : value)
  | TName (n : string).

Definition hex_val (c : ascii) : option Z :=
  if is_digit c then Some (digit_val c)
  else if (97 <=? code (lower c)) && (code (lower c) <=? 102)
  then Some (code (lower c) - 87) else None.

(** The body of a string literal opened by [q]: its text and what follows the
    closing quote. *)
Fixpoint string_body (q : ascii) (s : string) : result (string * string) :=
  match s with
  | EmptyString => Raise SyntaxError
  | String c s' =>
      if Ascii.eqb c q then Ok ("", s')
      else if code c =? 10 then Raise SyntaxError
      else if (code c =? 13) || (code c =? 0) then Unmodelled
      else if Ascii.eqb c backslash
      then
        match s' with
        | String e t =>
            let lit (c' : ascii) (t' : result (string * string)) :=
              '(b, r) ← t'; Ok (String c' b, r) in
            if Ascii.eqb e backslash || Ascii.eqb e squote || Ascii.eqb e dquote
            then lit e (string_body q t)
            else if Ascii.eqb e "n" then lit (ascii_of_N 10) (string_body q t)
            else if Ascii.eqb e "r" then lit (ascii_of_N 13) (string_body q t)
            else if Ascii.eqb e "t" then lit (ascii_of_N 9) (string_body q t)
            else if Ascii.eqb e "x"
            then
              match t with
              | String h1 (String h2 t') =>
                  match hex_val h1, hex_val h2 with
                  | Some a, Some b =>
                      if 16 * a + b <? 128
                      then lit (ascii_of_N (Z.to_N (16 * a + b))) (string_body q t')
                      else Unmodelled
                  | _, _ => Unmodelled
                  end
              | _ => Unmodelled
              end
            else Unmodelled
        | EmptyString => Raise SyntaxError
        end
      else '(b, r) ← string_body q s'; Ok (String c b, r)
  end.

Definition is_name_start (c : ascii) : bool := is_alpha c || Ascii.eqb c "_".
Definition is_name_char (c : ascii) : bool := is_name_start c || is_digit c.

Fixpoint name_chars (s : string) : string * string :=
  match s with
  | String c s' =>
      if is_name_char c then let '(n, r) := name_chars s' in (String c n, r)
      else ("", s)
  | EmptyString => ("", s)
  end.

(** A number literal: an [int] (no point, no exponent; no leading zero unless
    it is zero in one digit) or a [float]; what may not follow a number is
    left unmodelled, as is an integer too long for Python to read. *)
Definition number (s : string) : result (value * string) :=
  match decimal s with
  | None => Unmodelled
  | Some (m, e, isint, r) =>
      let follows :=
        match r with
        | String c _ => is_name_char c || Ascii.eqb c "." || (127 <? code c)
        | EmptyString => false
        end in
      if follows then Unmodelled
      else if isint
      then
        match s with
        | String "0" (String c _) => if is_digit c then Unmodelled else Ok (VInt m, r)
        | _ =>
            if (4300 <? String.length s - String.length r)%nat then Unmodelled
            else Ok (VInt m, r)
        end
      else Ok (VFloat (float_of_decimal m e), r)
  end.

Fixpoint tokens (fuel : nat) (s : string) : result (list token) :=
  match fuel with
  | O => Unmodelled
  | S fuel' =>
      match s with
      | EmptyString => Ok []
      | String c s' =>
          let one (t : token) := ts ← tokens fuel' s'; Ok (t :: ts) in
          if (code c =? 32) || (code c =? 9) then tokens fuel' s'
          else if Ascii.eqb c "(" then one TLPar
          else if Ascii.eqb c ")" then one TRPar
          else if Ascii.eqb c "[" then one TLBr
          else if Ascii.eqb c "]" then one TRBr
          else if Ascii.eqb c "," then one TComma
          else if Ascii.eqb c "+" then one TPlus
          else if Ascii.eqb c "-" then one TMinus
          else if Ascii.eqb c squote || Ascii.eqb c dquote
          then
            let triple :=
              match s' with
              | String c1 (String c2 _) => Ascii.eqb c1 c && Ascii.eqb c2 c
              | _ => false
              end in
            if triple then Unmodelled
            else '(b, r) ← string_body c s';
                 ts ← tokens fuel' r; Ok (TLit (VStr b) :: ts)
          else if is_digit c || Ascii.eqb c "."
          then '(v, r) ← number s; ts ← tokens fuel' r; Ok (TLit v :: ts)
          else if is_name_start c
          then
            let '(n, r) := name_chars s in
            let follows :=
              match r with
              | String c' _ => Ascii.eqb c' squote || Ascii.eqb c' dquote || (127 <? code c')
              | EmptyString => false
              end in
            if follows then Unmodelled
            else if String.eqb n "None" then ts ← tokens fuel' r; Ok (TLit VNone :: ts)
            else if String.eqb n "inf" || String.eqb n "nan"
            then ts ← tokens fuel' r; Ok (TName n :: ts)
            else Unmodelled
          else Unmodelled
      end
  end.

Inductive expr : Type :=
  | ELit (v : value)
  | EName (n : string)
  | ETuple (l : list expr)
  | EList (l : list expr).

Definition negate (v : value) : option value :=
  match v with
  | VInt z => Some (VInt (- z))
  | VFloat f => Some (VFloat (- f)%float)
  | _ => None
  end.

Definition is_number (v : value) : bool :=
  match v with
  | VInt _ | VFloat _ => true
  | _ => false
  end.

Definition same_bracket (a b : token) : bool :=
  match a, b with
  | TRPar, TRPar | TRBr, TRBr => true
  | _, _ => false
  end.

(** One expression off the front of [ts], with the tokens after it.  Inside a
    display, [elements] reads up to the bracket [close] and tells whether a
    comma came last. *)
Fixpoint expression (fuel : nat) (ts : list token) : result (expr * list token) :=
  match fuel with
  | O => Unmodelled
  | S fuel' =>
      let elements :=
        fix elements (n : nat) (close : token) (acc : list expr) (ts : list token)
          : result (list expr * bool * list token) :=
          match n with
          | O => Unmodelled
          | S n' =>
              '(e, r) ← expression fuel' ts;
              match r with
              | [] | [TComma] => Raise SyntaxError
              | TComma :: (TRPar | TRBr) as c :: r' =>
                  if same_bracket c close then Ok (acc ++ [e], true, r') else Unmodelled
              | TComma :: r' => elements n' close (acc ++ [e]) r'
              | (TRPar | TRBr) as c :: r' =>
                  if same_bracket c close then Ok (acc ++ [e], false, r') else Unmodelled
              | _ => Unmodelled
              end
          end in
      match ts with
      | [] | [TMinus] | [TPlus] | [TLBr] | [TLPar] => Raise SyntaxError
      | TLit v :: r => Ok (ELit v, r)
      | TName n :: r => Ok (EName n, r)
      | TMinus :: TLit v :: r =>
          match negate v with
          | Some v' => Ok (ELit v', r)
          | None => Unmodelled
          end
      | TPlus :: TLit v :: r => if is_number v then Ok (ELit v, r) else Unmodelled
      | TLBr :: TRBr :: r => Ok (EList [], r)
      | TLBr :: r => '(es, _, r') ← elements fuel' TRBr [] r; Ok (EList es, r')
      | TLPar :: TRPar :: r => Ok (ETuple [], r)
      | TLPar :: r =>
          '(es, comma, r') ← elements fuel' TRPar [] r;
          match es, comma with
          | [e], false => Ok (e, r')
          | _, _ => Ok (ETuple es, r')
          end
      | _ => Unmodelled
      end
  end.

Fixpoint eval_all (ev : expr -> result value) (l : list expr) : result (list value) :=
  match l with
  | [] => Ok []
  | e :: l' => v ← ev e; vs ← eval_all ev l'; Ok (v :: vs)
  end.

Fixpoint eval_expr (e : expr) : result value :=
  match e with
  | ELit v => Ok v
  | EName _ => Raise NameError
  | ETuple l => vs ← eval_all eval_expr l; Ok (VTuple vs)
  | EList l => vs ← eval_all eval_expr l; Ok (VList vs)
  end.

(** [eval(s)] on a [str]. *)
Definition eval_str (s : string) : result value :=
  ts ← tokens (S (String.length s)) s;
  '(e, r) ← expression (S (List.length ts)) ts;
  match r with
  | [] => eval_expr e
  | _ => Unmodelled
  end.

(** [eval(v)]: only text can be evaluated. *)
Definition eval_ (v : value) : result value :=
  match v with
  | VStr s => eval_str s
  | _ => Raise TypeError
  end.


(** ** Dates

    [datetime.datetime.strptime(s, '%Y-%m-%d %H:%M:%S')] and [strftime] with
    the same format, which the dashboard applies to the [date_added] it
    shows.  [strptime] matches the text against the pattern of the format,
    directive by directive:
    [%Y] is [\d\d\d\d], [%m] is [1[0-2]|0[1-9]|[1-9]],
    [%d] is [3[0-1]|[1-2]\d|0[1-9]|[1-9]| [1-9]], [%H] is [2[0-3]|[0-1]\d|\d],
    [%M] is [[0-5]\d|\d], [%S] is [6[0-1]|[0-5]\d|\d], and the blank of the
    format is [\s+].  Every field is followed by a character that is no
    digit, or by the end, so the alternatives of a field never compete: two
    digits are taken when the pattern has them, one otherwise. *)

Record datetime : Type := Datetime {
  year : Z; month : Z; day : Z; hour : Z; minute : Z; second : Z
}.

(** A field of one or two digits: [two a b] tells which pairs of digits the
    pattern takes, [one a] which single digits. *)
Definition digits12 (two : Z -> Z -> bool) (one : Z -> bool) (s : string)
  : option (Z * string) :=
  match s with
  | String a r =>
      if is_digit a
      then
        match r with
        | String b r' =>
            if is_digit b && two (digit_val a) (digit_val b)
            then Some (10 * digit_val a + digit_val b, r')
            else if one (digit_val a) then Some (digit_val a, r) else None
        | EmptyString => if one (digit_val a) then Some (digit_val a, r) else None
        end
      else None
  | EmptyString => None
  end.

Definition year_field (s : string) : option (Z * string) :=
  match s with
  | String a (String b (String c (String d r))) =>
      if is_digit a && is_digit b && is_digit c && is_digit d
      then Some (1000 * digit_val a + 100 * digit_val b + 10 * digit_val c
                 + digit_val d, r)
      else None
  | _ => None
  end.

Definition month_field : string -> option (Z * string) :=
  digits12 (fun a b => ((a =? 1) && (b <=? 2)) || ((a =? 0) && (1 <=? b)))
           (fun a => 1 <=? a).

Definition day_field (s : string) : option (Z * string) :=
  match s with
  | String " " (String a r) =>
      if is_digit a && (1 <=? digit_val a) then Some (digit_val a, r) else None
  | _ =>
      digits12 (fun a b => ((a =? 3) && (b <=? 1)) || ((1 <=? a) && (a <=? 2))
                           || ((a =? 0) && (1 <=? b)))
               (fun a => 1 <=? a) s
  end.

Definition hour_field : string -> option (Z * string) :=
  digits12 (fun a b => ((a =? 2) && (b <=? 3)) || (a <=? 1)) (fun _ => true).

Definition minute_field : string -> option (Z * string) :=
  digits12 (fun a _ => a <=? 5) (fun _ => true).

Definition second_field : string -> option (Z * string) :=
  digits12 (fun a b => ((a =? 6) && (b <=? 1)) || (a <=? 5)) (fun _ => true).

(** The character [c], then the rest. *)
Definition expect (c : ascii) (s : string) : option string :=
  match s with
  | String c' r => if Ascii.eqb c c' then Some r else None
  | EmptyString => None
  end.

(** [\s+]: one blank or more. *)
Definition blanks (s : string) : option string :=
  match s with
  | String c r => if is_py_space c then Some (lstrip is_py_space r) else None
  | EmptyString => None
  end.

Definition is_leap (y : Z) : bool :=
  (y mod 4 =? 0) && (negb (y mod 100 =? 0) || (y mod 400 =? 0)).

Definition days_in_month (y m : Z) : Z :=
  if m =? 2 then (if is_leap y then 29 else 28)
  else if (m =? 4) || (m =? 6) || (m =? 9) || (m =? 11) then 30
  else 31.

(** [strptime]: the fields read, when the whole text matches and they make a
    date and a time; [None] stands for the [ValueError] it raises. *)
Definition strptime (s : string) : option datetime :=
  '(y, s1) ← year_field s;
  s2 ← expect "-" s1;
  '(m, s3) ← month_field s2;
  s4 ← expect "-" s3;
  '(d, s5) ← day_field s4;
  s6 ← blanks s5;
  '(hh, s7) ← hour_field s6;
  s8 ← expect ":" s7;
  '(mi, s9) ← minute_field s8;
  s10 ← expect ":" s9;
  '(ss, s11) ← second_field s10;
  if String.eqb s11 "" && (1 <=? y) && (d <=? days_in_month y m) && (ss <=? 59)
  then Some (Datetime y m d hh mi ss)
  else None.

(** [dt.strftime('%Y-%m-%d %H:%M:%S')].  How a year below 1000 is written
    depends on the platform's C library, and is left unmodelled. *)
Definition strftime (dt : datetime) : result string :=
  if year dt <? 1000 then Unmodelled
  else Ok (pretty (year dt) +:+ "-" +:+ zpad 2 (month dt) +:+ "-" +:+ zpad 2 (day dt)
           +:+ " " +:+ zpad 2 (hour dt) +:+ ":" +:+ zpad 2 (minute dt)
           +:+ ":" +:+ zpad 2 (second dt)).

(** [len(v)]. *)
Definition len (v : value) : result nat :=
  match v with
  | VStr s => Ok (String.length s)
  | VTuple l | VList l => Ok (List.length l)
  | VNone | VInt _ | VFloat _ => Raise TypeError
  end.

End Py.

(** * SQLite: the [invoices] table *)
Module Sqlite.
Import Py.

(** The table as SQLite holds it: the columns in declaration order, one value
    per column in every row, and the largest rowid handed out so far (what
    [AUTOINCREMENT] keeps in [sqlite_sequence]).  Column names are kept in one
    spelling.  In every version of the table [id] is the integer primary key
    and [invoice_number] is declared [UNIQUE]. *)
Record invoices : Type := Table {
  columns : list string;
  rows : list (list value);
  sequence : Z
}.

(** The database file: [None] until the table is created. *)
Definition store : Type := option invoices.

(** [CREATE TABLE] of [init_db], in its order. *)
Definition invoices_columns : list string :=
  ["id"; "invoice_number"; "client_name"; "client_address"; "client_number";
   "description"; "items"; "subtotal"; "tax"; "total"; "email";
   "company_name"; "company_address"; "company_contact"; "date_added"; "date"].

Fixpoint index_of (c : string) (cols : list string) : option nat :=
  match cols with
  | [] => None
  | c' :: cols' => if String.eqb c c' then Some O else S <$> index_of c cols'
  end.

Definition has_column (c : string) (t : invoices) : bool :=
  match index_of c (columns t) with
  | Some _ => true
  | None => false
  end.

(** The value a row holds in column [c] ([NULL] is [None]). *)
Definition field (t : invoices) (c : string) (r : list value) : value :=
  match index_of c (columns t) with
  | Some i => default VNone (r !! i)
  | None => VNone
  end.

Definition set_field (t : invoices) (c : string) (v : value) (r : list value)
  : list value :=
  match index_of c (columns t) with
  | Some i => <[i := v]> r
  | None => r
  end.

(** A Python value as SQLite stores it and hands it back.  The program
    binds text to [TEXT] columns, which keep it, and floats to [REAL]
    columns: there a NaN is stored as [NULL], and a zero is read back as
    [0.0] whatever its sign was (a [REAL] column keeps a float without
    fraction as an integer); every other float comes back as it went in. *)
Definition bind_param (v : value) : value :=
  match v with
  | VFloat f =>
      if is_nan f then VNone
      else if is_zero f then VFloat 0%float
      else v
  | _ => v
  end.

(** [=] of SQL between two stored values of one type; [NULL] equals nothing. *)
Definition sql_eq (a b : value) : bool :=
  match a, b with
  | VInt x, VInt y => x =? y
  | VStr x, VStr y => String.eqb x y
  | VFloat x, VFloat y => PrimFloat.eqb x y
  | _, _ => false
  end.

Definition rowid (t : invoices) (r : list value) : Z :=
  match field t "id" r with
  | VInt i => i
  | _ => 0
  end.

Definition next_rowid (t : invoices) : Z :=
  1 + fold_right Z.max (sequence t) (rowid t <$> rows t).

(** [CREATE TABLE IF NOT EXISTS invoices (...)]. *)
Definition create_table (s : store) : result store :=
  match s with
  | Some _ => Ok s
  | None => Ok (Some (Table invoices_columns [] 0))
  end.

(** [ALTER TABLE invoices ADD COLUMN c TEXT]: a column of that name already
    there is an [OperationalError]; a new one is [NULL] in every row. *)
Definition add_column (c : string) (s : store) : result store :=
  match s with
  | None => Raise OperationalError
  | Some t =>
      if has_column c t then Raise OperationalError
      else Ok (Some (Table (columns t ++ [c])
                           ((fun r => r ++ [VNone]) <$> rows t)
                           (sequence t)))
  end.

Fixpoint assoc (c : string) (bs : list (string * value)) : option value :=
  match bs with
  | [] => None
  | (c', v) :: bs' => if String.eqb c c' then Some v else assoc c bs'
  end.

Definition known (t : invoices) (cs : list string) : bool :=
  forallb (fun c => has_column c t) cs.

(** Does a row already hold [v] in the unique column? *)
Definition taken (t : invoices) (v : value) : bool :=
  existsb (fun r => sql_eq (field t "invoice_number" r) v) (rows t).

(** [INSERT INTO invoices (c1, ..., cn) VALUES (?, ..., ?)]: a column the
    table lacks is an [OperationalError], an invoice number already stored an
    [IntegrityError]; the new row takes the next rowid as its [id] and [NULL]
    in the columns not named. *)
Definition insert (bs : list (string * value)) (s : store) : result store :=
  match s with
  | None => Raise OperationalError
  | Some t =>
      if negb (known t (fst <$> bs)) then Raise OperationalError
      else if taken t (bind_param (default VNone (assoc "invoice_number" bs)))
      then Raise IntegrityError
      else
        let i := next_rowid t in
        let r := (fun c => if String.eqb c "id" then VInt i
                           else bind_param (default VNone (assoc c bs)))
                 <$> columns t in
        Ok (Some (Table (columns t) (rows t ++ [r]) i))
  end.

(** The [SET] clause on one row, binding after binding. *)
Definition assign (t : invoices) (bs : list (string * value)) (r : list value)
  : list value :=
  fold_left (fun r' '(c, v) => set_field t c (bind_param v) r') bs r.

(** [UPDATE invoices SET c1=?, ..., cn=? WHERE invoice_number=?]. *)
Definition update (bs : list (string * value)) (number : value) (s : store)
  : result store :=
  match s with
  | None => Raise OperationalError
  | Some t =>
      if negb (known t ("invoice_number" :: (fst <$> bs))) then Raise OperationalError
      else
        Ok (Some (Table (columns t)
                        ((fun r => if sql_eq (field t "invoice_number" r) (bind_param number)
                                   then assign t bs r else r) <$> rows t)
                        (sequence t)))
  end.

(** [SELECT * FROM invoices WHERE id = ?] and [fetchone()]: the first row of
    that id, its values in column order. *)
Definition select_by_id (i : Z) (s : store) : result (option (list value)) :=
  match s with
  | None => Raise OperationalError
  | Some t =>
      if negb (has_column "id" t) then Raise OperationalError
      else Ok (List.find (fun r => sql_eq (field t "id" r) (VInt i)) (rows t))
  end.

(** [DELETE FROM invoices WHERE id = ?]. *)
Definition delete_by_id (i : Z) (s : store) : result store :=
  match s with
  | None => Raise OperationalError
  | Some t =>
      if negb (has_column "id" t) then Raise OperationalError
      else Ok (Some (Table (columns t)
                           (List.filter (fun r => negb (sql_eq (field t "id" r) (VInt i))) (rows t))
                           (sequence t)))
  end.


(** ** The listing of the dashboard *)

(** [text LIKE pattern]: [%] in the pattern stands for any run of
    characters, [_] for any one character, and a letter of ASCII matches in
    either case. *)
Fixpoint like (pattern text : string) : bool :=
  match pattern with
  | EmptyString =>
      match text with
      | EmptyString => true
      | String _ _ => false
      end
  | String c pattern' =>
      if Ascii.eqb c "%"
      then
        (fix from (text : string) : bool :=
           like pattern' text
           || match text with
              | String _ text' => from text'
              | EmptyString => false
              end) text
      else
        match text with
        | String d text' =>
            (Ascii.eqb c "_" || Ascii.eqb (lower c) (lower d)) && like pattern' text'
        | EmptyString => false
        end
  end.

(** A text of ASCII with no NUL character in it. *)
Definition plain_text (s : string) : bool :=
  forallb (fun c => (1 <=? code c) && (code c <=? 127)) (list_ascii_of_string s).

(** [LOWER(v) LIKE ?] on a stored value, as a [WHERE] clause takes it: [NULL]
    selects nothing.  The two columns searched have [TEXT] affinity, so what
    they hold is text or [NULL].  Left unmodelled are a pattern longer than
    the 50000 bytes SQLite accepts, which it refuses before it looks at the
    value, and a pattern or a text that is not plain: SQLite reads a text as
    ended at a NUL character, it matches a character of several bytes as one,
    and [str.lower] changes letters beyond ASCII, which [LOWER] does not. *)
Definition lower_like (pattern : string) (v : value) : result bool :=
  if negb (plain_text pattern) || (50000 <? Z.of_nat (String.length pattern))
  then Unmodelled
  else
    match v with
    | VNone => Ok false
    | VStr s => if plain_text s then Ok (like pattern (lower_string s)) else Unmodelled
    | VInt _ | VFloat _ | VTuple _ | VList _ => Unmodelled
    end.

(** [LOWER(invoice_number) LIKE ? OR LOWER(client_name) LIKE ?] on a row,
    with both parameters bound to [pattern]. *)
Definition matches (t : invoices) (pattern : string) (r : list value) : result bool :=
  by_number ← lower_like pattern (field t "invoice_number" r);
  by_name ← lower_like pattern (field t "client_name" r);
  Ok (by_number || by_name).

(** The rows a [WHERE] clause keeps, in the order of the table. *)
Fixpoint where_ (cond : list value -> result bool) (rs : list (list value))
  : result (list (list value)) :=
  match rs with
  | [] => Ok []
  | r :: rs' =>
      keep ← cond r;
      kept ← where_ cond rs';
      Ok (if (keep : bool) then r :: kept else kept)
  end.

(** [ORDER BY id DESC]: [id] is the integer primary key, so every row holds
    an integer there and no two rows the same one. *)
Fixpoint insert_desc (t : invoices) (r : list value) (sorted : list (list value))
  : list (list value) :=
  match sorted with
  | [] => [r]
  | r' :: sorted' =>
      if rowid t r' <? rowid t r then r :: sorted
      else r' :: insert_desc t r sorted'
  end.

Definition order_by_id_desc (t : invoices) (rs : list (list value))
  : list (list value) :=
  fold_right (insert_desc t) [] rs.

Definition listed_columns : list string :=
  ["id"; "invoice_number"; "client_name"; "total"; "email"; "date_added"; "id"].

(** [SELECT id, invoice_number, client_name, total, email, date_added, id
    FROM invoices [WHERE LOWER(invoice_number) LIKE ? OR LOWER(client_name)
    LIKE ?] ORDER BY id DESC], with both parameters bound to [pattern], and
    [fetchall()]. *)
Definition select_listing (pattern : option string) (s : store)
  : result (list (list value)) :=
  match s with
  | None => Raise OperationalError
  | Some t =>
      if negb (known t listed_columns) then Raise OperationalError
      else
        kept ← match pattern with
               | None => Ok (rows t)
               | Some p => where_ (matches t p) (rows t)
               end;
        Ok ((fun r => (fun c => field t c r) <$> listed_columns)
              <$> order_by_id_desc t kept)
  end.

(** [DELETE FROM invoices WHERE id = ?] with the parameter bound to a Python
    value: an [int] is compared as it is, [None] equals no id; what SQLite
    makes of any other value under the column's affinity is left
    unmodelled. *)
Definition delete_by_value (v : value) (s : store) : result store :=
  match v with
  | VInt i => delete_by_id i s
  | VNone =>
      match s with
      | None => Raise OperationalError
      | Some t => if negb (has_column "id" t) then Raise OperationalError else Ok s
      end
  | VFloat _ | VStr _ | VTuple _ | VList _ => Unmodelled
  end.

End Sqlite.

(** * The application *)
Module App.
Import Py Sqlite.

(** ** More of Python: what the renderers do with values *)

(** [d[k]] and [d.get(k, v)] on a [dict] with [str] keys. *)
Definition getitem (d : gmap string value) (k : string) : result value :=
  match d !! k with
  | Some v => Ok v
  | None => Raise KeyError
  end.

Definition get (d : gmap string value) (k : string) (dflt : value) : value :=
  default dflt (d !! k).

(** [bool(v)], as [if v:] and [v or w] test it. *)
Definition truthy (v : value) : bool :=
  match v with
  | VNone => false
  | VInt z => negb (z =? 0)
  | VFloat f => negb (is_zero f)
  | VStr s => negb (String.eqb s "")
  | VTuple l | VList l => negb (Nat.eqb (List.length l) 0)
  end.

(** [float(z)] of an [int]: the nearest float, or [OverflowError]. *)
Definition float_of_int (z : Z) : result float :=
  if z =? 0 then Ok 0%float
  else
    let f := float_of_ratio (Z.abs z) 1 in
    if is_infinity f then Raise OverflowError else Ok (fneg (z <? 0) f).

(** [a * b].  Numbers multiply; a sequence times an [int] repeats it, which
    is left unmodelled (it is as large as memory allows); no other pair has a
    product. *)
Definition mul (a b : value) : result value :=
  match a, b with
  | VInt x, VInt y => Ok (VInt (x * y))
  | VFloat x, VFloat y => Ok (VFloat (x * y))
  | VInt x, VFloat y => x' ← float_of_int x; Ok (VFloat (x' * y))
  | VFloat x, VInt y => y' ← float_of_int y; Ok (VFloat (x * y'))
  | (VStr _ | VTuple _ | VList _), VInt _ => Unmodelled
  | VInt _, (VStr _ | VTuple _ | VList _) => Unmodelled
  | _, _ => Raise TypeError
  end.

(** [f"{v:.2f}"]. *)
Definition format2 (v : value) : result string :=
  match v with
  | VFloat f => Ok (fixed2 f)
  | VInt z => f ← float_of_int z; Ok (fixed2 f)
  | VStr _ => Raise ValueError
  | _ => Raise TypeError
  end.

(** [f"{v}"]: [format(v, "")], which for these types is [str(v)]. *)
Definition format_ (v : value) : string :=
  match v with
  | VStr s => s
  | VNone | VInt _ | VFloat _ | VTuple _ | VList _ => repr v
  end.

Fixpoint chars (s : string) : list value :=
  match s with
  | String c s' => VStr (String c "") :: chars s'
  | EmptyString => []
  end.

(** What a [for] loop, or an unpacking, runs over. *)
Definition iterate (v : value) : result (list value) :=
  match v with
  | VList l | VTuple l => Ok l
  | VStr s => Ok (chars s)
  | _ => Raise TypeError
  end.

(** [a, b, c = v]. *)
Definition unpack3 (v : value) : result (value * value * value) :=
  l ← iterate v;
  match l with
  | [a; b; c] => Ok (a, b, c)
  | _ => Raise ValueError
  end.

(** ** The calls made on an [FPDF] object, in order *)
Inductive pdf_cmd : Type :=
  | AddPage
  | SetFont (family style : string) (size : Z)
  | SetTextColor (r g b : Z)
  | SetFillColor (r g b : Z)
  | Cell (w h : Z) (txt : value) (border ln : Z) (align : string) (fill : bool)
  | Ln (h : Z)
  | Output (dir file : string).

Definition OUTPUT_DIR : string := "output".

(** ** [init_db] *)

Definition upgrades : list string :=
  ["date_added"; "date"; "client_address"; "client_number"].

(** The [for] loop over the columns to add: each [ALTER TABLE] in a [try]
    whose [OperationalError] is passed over. *)
Fixpoint add_missing (cols : list string) (s : store) : result store :=
  match cols with
  | [] => Ok s
  | col :: cols' =>
      s' ← try_except (add_column col s) OperationalError (Ok s);
      add_missing cols' s'
  end.

Definition init_db (s : store) : result store :=
  s1 ← create_table s;
  add_missing upgrades s1.

(** ** [InvoiceForm] *)

(** [self.table.item(row, col)]: [None] for a cell never filled in, else the
    item's text. *)
Definition cell : Type := option string.

Record form : Type := Form {
  edit_mode : bool;
  company_name : string;
  company_address : string;
  company_contact : string;
  invoice_number : string;
  client_name : string;
  client_address : string;
  client_number : string;
  description : string;
  table : list (cell * cell * cell);
  tax_input : string;
  email : string;
  date : string
}.

Definition item : Type := string * float * float.

(** The body of the loop of [calculate_totals] for one row, on the running
    [subtotal] and [items]. *)
Definition totals_row (acc : float * list item) (row : cell * cell * cell)
  : result (float * list item) :=
  match row with
  | (Some desc_text, Some qty_text, Some price_text) =>
      try_except
        (qty ← float_ qty_text;
         price ← float_ price_text;
         let total := (qty * price)%float in
         Ok ((fst acc + total)%float, snd acc ++ [(desc_text, qty, price)]))
        ValueError
        (Ok acc)
  | _ => Ok acc
  end.

Fixpoint totals_rows (rows : list (cell * cell * cell)) (acc : float * list item)
  : result (float * list item) :=
  match rows with
  | [] => Ok acc
  | row :: rows' => acc' ← totals_row acc row; totals_rows rows' acc'
  end.

(** [float(self.tax_input.text() or 0)], and [0] on [ValueError]. *)
Definition tax_rate (text : string) : result float :=
  try_except
    (if String.eqb text "" then Ok 0%float else float_ text)
    ValueError
    (Ok 0%float).

Definition calculate_totals (f : form)
  : result (list item * float * float * float) :=
  '(subtotal, items) ← totals_rows (table f) (0%float, []);
  rate ← tax_rate (tax_input f);
  let tax := (subtotal * (rate / 100))%float in
  let total := (subtotal + tax)%float in
  Ok (items, subtotal, tax, total).

Definition item_value (it : item) : value :=
  let '(desc, qty, price) := it in VTuple [VStr desc; VFloat qty; VFloat price].

(** [str(items)]. *)
Definition items_str (items : list item) : string :=
  str (VList (item_value <$> items)).

Definition pdf_item (it : item) : list pdf_cmd :=
  let '(desc, qty, price) := it in
  let total_item := (qty * price)%float in
  [Cell 80 10 (VStr (str (VStr desc))) 1 0 "" false;
   Cell 30 10 (VStr (str (VFloat qty))) 1 0 "C" false;
   Cell 40 10 (VStr ("$" +:+ fixed2 price)) 1 0 "R" false;
   Cell 40 10 (VStr ("$" +:+ fixed2 total_item)) 1 1 "R" false].

(** ** Writing a document

    [pdf.output(os.path.join(OUTPUT_DIR, file))] opens the file for writing
    once everything is drawn, and nothing around it catches what it raises.
    A name that every file system takes for a file of the folder is made of
    printable ASCII without the characters [reserved_chars] and has at most
    255 bytes; with such a name the document is written, the folder being
    the program's own to write in.  With any other name the call can fail:
    a slash names a folder that [output] need not hold (the
    [FileNotFoundError] of [open]), a name too long is an [OSError], and
    what the other characters do depends on the platform.  Such runs are
    left unmodelled.  The texts drawn are of ASCII, as every text here is,
    and the core fonts of [FPDF] draw them all. *)
Definition reserved_chars : list ascii :=
  ["/"; backslash; ":"; "*"; "?"; dquote; "<"; ">"; "|"]%char.

Definition file_name_ok (file : string) : bool :=
  forallb (fun c => (32 <=? code c) && (code c <=? 126)
                    && negb (existsb (Ascii.eqb c) reserved_chars))
          (list_ascii_of_string file)
  && (Z.of_nat (String.length file) <=? 255).

(** The calls [drawn] so far, then [pdf.output] of the file. *)
Definition pdf_output (drawn : list pdf_cmd) (dir file : string)
  : result (list pdf_cmd) :=
  if file_name_ok file then Ok (drawn ++ [Output dir file]) else Unmodelled.

(** What [InvoiceForm.generate_pdf] draws before it writes the file;
    [email_text] is [self.email.text()]. *)
Definition generate_pdf_page (email_text : string)
    (number name client_address client_number desc : string)
    (items : list item) (subtotal tax total : float)
    (comp_name comp_addr comp_contact date : string) : list pdf_cmd :=
  [AddPage;
   SetFont "Arial" "B" 16; SetTextColor 32 100 106;
   Cell 0 10 (VStr comp_name) 0 1 "" false;
   SetFont "Arial" "I" 10; SetTextColor 100 100 100;
   Cell 0 6 (VStr "Experts in earning trusts") 0 1 "" false;
   SetFont "Arial" "" 12; SetTextColor 34 34 34;
   Cell 0 6 (VStr comp_addr) 0 1 "" false;
   Cell 0 6 (VStr comp_contact) 0 1 "" false;
   Ln 2;
   SetFont "Arial" "B" 24; SetTextColor 0 136 136;
   Cell 0 12 (VStr "INVOICE") 0 1 "R" false;
   SetFont "Arial" "" 12; SetTextColor 34 34 34;
   Cell 0 6 (VStr ("INVOICE: " +:+ number)) 0 1 "R" false;
   Cell 0 6 (VStr ("DATE: " +:+ date)) 0 1 "R" false;
   Ln 2;
   SetFont "Arial" "B" 12;
   Cell 0 8 (VStr ("TO: " +:+ name)) 0 1 "" false]
  ++ (if String.eqb client_address "" then []
      else [SetFont "Arial" "" 12;
            Cell 0 6 (VStr ("Address: " +:+ client_address)) 0 1 "" false])
  ++ (if String.eqb client_number "" then []
      else [SetFont "Arial" "" 12;
            Cell 0 6 (VStr ("Number: " +:+ client_number)) 0 1 "" false])
  ++ [SetFont "Arial" "" 12;
      Cell 0 6 (VStr email_text) 0 1 "" false;
      SetFont "Arial" "B" 12;
      Cell 0 8 (VStr ("FOR: " +:+ desc)) 0 1 "" false;
      Ln 2;
      SetFillColor 230 242 242; SetTextColor 32 100 106; SetFont "Arial" "B" 12;
      Cell 80 10 (VStr "DESCRIPTION") 1 0 "L" true;
      Cell 30 10 (VStr "QTY") 1 0 "C" true;
      Cell 40 10 (VStr "RATE") 1 0 "R" true;
      Cell 40 10 (VStr "AMOUNT") 1 1 "R" true;
      SetFont "Arial" "" 12; SetTextColor 34 34 34]
  ++ concat (pdf_item <$> items)
  ++ [SetFont "Arial" "B" 12;
      Cell 150 10 (VStr "Subtotal") 1 0 "" false;
      Cell 40 10 (VStr ("$" +:+ fixed2 subtotal)) 1 1 "R" false;
      Cell 150 10 (VStr "Tax") 1 0 "" false;
      Cell 40 10 (VStr ("$" +:+ fixed2 tax)) 1 1 "R" false;
      Cell 150 10 (VStr "Total") 1 0 "" false;
      Cell 40 10 (VStr ("$" +:+ fixed2 total)) 1 1 "R" false;
      Ln 10;
      SetFont "Arial" "B" 12; SetTextColor 34 34 34;
      Cell 0 10 (VStr "THANK YOU FOR YOUR BUSINESS!") 0 1 "" false].

(** [InvoiceForm.generate_pdf]: the calls made on the [FPDF] object, the
    last of which writes the file. *)
Definition generate_pdf (email_text : string)
    (number name client_address client_number desc : string)
    (items : list item) (subtotal tax total : float)
    (comp_name comp_addr comp_contact date : string) : result (list pdf_cmd) :=
  pdf_output
    (generate_pdf_page email_text number name client_address client_number desc
       items subtotal tax total comp_name comp_addr comp_contact date)
    OUTPUT_DIR ("invoice_" +:+ number +:+ ".pdf").

(** The message box a handler ends on. *)
Inductive message : Set :=
  | MissingInfo | MissingItems | Updated | Saved | Duplicate
  | NotFound | Exported | Deleted.

(** [InvoiceForm.save_invoice].  [today] and [now] are the two readings of
    the clock, as the program formats them.  The result is the message shown,
    the store afterwards and the document written, if any.  An exception
    raised by the statement leaves the store as it was (the [with] block
    rolls back).  The document is written after the commit, and before the
    message: a run in which that fails has stored the invoice and shown
    nothing, and is left unmodelled (see [pdf_output]). *)
Definition save_invoice (today now : string) (f : form) (s : store)
  : result (message * store * option (list pdf_cmd)) :=
  let email_text := email f in
  let number := strip (invoice_number f) in
  let name := strip (client_name f) in
  let client_address := strip (client_address f) in
  let client_number := strip (client_number f) in
  let desc := strip (description f) in
  let email := strip (email f) in
  let date := if String.eqb (strip (date f)) "" then today else strip (date f) in
  if String.eqb number "" || String.eqb name "" || String.eqb desc ""
  then Ok (MissingInfo, s, None)
  else
    '(items, subtotal, tax, total) ← calculate_totals f;
    match items with
    | [] => Ok (MissingItems, s, None)
    | _ :: _ =>
        let items_str := items_str items in
        let company_name := strip (company_name f) in
        let company_address := strip (company_address f) in
        let company_contact := strip (company_contact f) in
        let self_generate_pdf :=
          generate_pdf email_text number name client_address client_number desc
            items subtotal tax total company_name company_address company_contact
            date in
        if edit_mode f
        then
          s' ← update
                 [("client_name", VStr name); ("client_address", VStr client_address);
                  ("client_number", VStr client_number); ("description", VStr desc);
                  ("items", VStr items_str); ("subtotal", VFloat subtotal);
                  ("tax", VFloat tax); ("total", VFloat total); ("email", VStr email);
                  ("company_name", VStr company_name);
                  ("company_address", VStr company_address);
                  ("company_contact", VStr company_contact);
                  ("date_added", VStr date)]
                 (VStr number) s;
          pdf ← self_generate_pdf;
          Ok (Updated, s', Some pdf)
        else
          try_except
            (s' ← insert
                   [("invoice_number", VStr number); ("client_name", VStr name);
                    ("client_address", VStr client_address);
                    ("client_number", VStr client_number); ("description", VStr desc);
                    ("items", VStr items_str); ("subtotal", VFloat subtotal);
                    ("tax", VFloat tax); ("total", VFloat total); ("email", VStr email);
                    ("company_name", VStr company_name);
                    ("company_address", VStr company_address);
                    ("company_contact", VStr company_contact);
                    ("date_added", VStr now); ("date", VStr date)]
                   s;
             pdf ← self_generate_pdf;
             Ok (Saved, s', Some pdf))
            IntegrityError
            (Ok (Duplicate, s, None))
    end.

(** ** [InvoiceViewer] *)

Definition nl : string := String (ascii_of_N 10) "".

(** One pass of the loop of [InvoiceViewer.__init__] that builds
    [items_html]: unpack the element, multiply, format the table row. *)
Definition preview_item (items_html : string) (elem : value) : result string :=
  '(desc, qty, price) ← unpack3 elem;
  total ← mul qty price;
  price_text ← format2 price;
  total_text ← format2 total;
  Ok (items_html +:+ "<tr><td>" +:+ format_ desc +:+ "</td><td align='center'>"
        +:+ format_ qty +:+ "</td><td align='right'>$" +:+ price_text
        +:+ "</td><td align='right'>$" +:+ total_text +:+ "</td></tr>").

Fixpoint preview_items (elems : list value) (items_html : string) : result string :=
  match elems with
  | [] => Ok items_html
  | elem :: elems' =>
      items_html' ← preview_item items_html elem;
      preview_items elems' items_html'
  end.

(** The page of the preview around its fields, line by line. *)
Definition preview_page
    (company_name company_address company_contact invoice_number date
     client_name client_address_html client_number_html email description
     items_html subtotal tax total : string) : string :=
  nl +:+ join nl
  ["        <div style='font-family: Arial; color: #222;'>";
   "        <table width='100%'><tr>";
   "        <td><h2 style='color:#20646a;margin-bottom:0'>" +:+ company_name +:+ "</h2>";
   "        <span style='font-size:11px;font-style:italic;'>Experts in earning trusts</span><br>";
   "        <span style='font-size:13px'>" +:+ company_address +:+ "<br>"
     +:+ company_contact +:+ "</span></td>";
   "        <td align='right'><span style='font-size:32px;color:#008080;font-weight:bold;'>INVOICE</span><br><br>";
   "        <b>INVOICE:</b> " +:+ invoice_number +:+ "<br>";
   "        <b>DATE:</b> " +:+ date;
   "        </td></tr></table>";
   "        <br>";
   "        <table width='100%'><tr>";
   "        <td valign='top'><b>TO:</b><br>" +:+ client_name +:+ client_address_html
     +:+ client_number_html +:+ "<br>" +:+ email +:+ "</td>";
   "        <td valign='top'><b>FOR:</b><br>" +:+ description +:+ "</td>";
   "        </tr></table>";
   "        <br>";
   "        <table width='100%' border='1' cellspacing='0' cellpadding='4' style='border-collapse:collapse;'>";
   "        <tr style='background:#e6f2f2;'><th align='left'>DESCRIPTION</th><th>QTY</th><th>RATE</th><th>AMOUNT</th></tr>";
   "        " +:+ items_html;
   "        <tr><td colspan='3' align='right'><b>Subtotal</b></td><td align='right'>$"
     +:+ subtotal +:+ "</td></tr>";
   "        <tr><td colspan='3' align='right'><b>Tax</b></td><td align='right'>$"
     +:+ tax +:+ "</td></tr>";
   "        <tr><td colspan='3' align='right'><b>Total</b></td><td align='right'>$"
     +:+ total +:+ "</td></tr>";
   "        </table>";
   "        <br><br>";
   "        <b>THANK YOU FOR YOUR BUSINESS!</b>";
   "        </div>";
   "        "].

(** [f"<br>{d.get(k, '')}" if d.get(k) else ''] *)
Definition optional_line (d : gmap string value) (k : string) : string :=
  if truthy (get d k VNone)
  then "<br>" +:+ format_ (get d k (VStr ""))
  else "".

(** [InvoiceViewer.__init__]: the markup handed to [preview.setHtml]. *)
Definition InvoiceViewer_init (invoice_data : gmap string value) : result string :=
  title ← getitem invoice_data "invoice_number";
  blob ← getitem invoice_data "items";
  evaluated ← eval_ blob;
  elems ← iterate evaluated;
  items_html ← preview_items elems "";
  let client_address_html := optional_line invoice_data "client_address" in
  let client_number_html := optional_line invoice_data "client_number" in
  company_name ← format_ <$> getitem invoice_data "company_name";
  company_address ← format_ <$> getitem invoice_data "company_address";
  company_contact ← format_ <$> getitem invoice_data "company_contact";
  invoice_number ← format_ <$> getitem invoice_data "invoice_number";
  let date := format_ (get invoice_data "date" (VStr "")) in
  client_name ← format_ <$> getitem invoice_data "client_name";
  email ← format_ <$> getitem invoice_data "email";
  description ← format_ <$> getitem invoice_data "description";
  subtotal ← getitem invoice_data "subtotal" ≫= format2;
  tax ← getitem invoice_data "tax" ≫= format2;
  total ← getitem invoice_data "total" ≫= format2;
  Ok (preview_page company_name company_address company_contact invoice_number
        date client_name client_address_html client_number_html email
        description items_html subtotal tax total).

(** One pass of the loop of [print_invoice] over the items: the four cells of
    a table row, after those drawn so far. *)
Definition print_item (drawn : list pdf_cmd) (elem : value) : result (list pdf_cmd) :=
  '(item, qty, price) ← unpack3 elem;
  total_item ← mul qty price;
  price_text ← format2 price;
  total_text ← format2 total_item;
  Ok (drawn ++
      [Cell 80 10 (VStr (str item)) 1 0 "" false;
       Cell 30 10 (VStr (str qty)) 1 0 "C" false;
       Cell 40 10 (VStr ("$" +:+ price_text)) 1 0 "R" false;
       Cell 40 10 (VStr ("$" +:+ total_text)) 1 1 "R" false]).

Fixpoint print_items (elems : list value) (drawn : list pdf_cmd)
  : result (list pdf_cmd) :=
  match elems with
  | [] => Ok drawn
  | elem :: elems' => drawn' ← print_item drawn elem; print_items elems' drawn'
  end.

(** What [print_invoice] draws before the items. *)
Definition print_head
    (number name desc comp_name comp_addr comp_contact date client_address
     client_number email : value) : list pdf_cmd :=
  [AddPage;
   SetFont "Arial" "B" 16; SetTextColor 32 100 106;
   Cell 0 10 comp_name 0 1 "" false;
   SetFont "Arial" "I" 10; SetTextColor 100 100 100;
   Cell 0 6 (VStr "Experts in earning trusts") 0 1 "" false;
   SetFont "Arial" "" 12; SetTextColor 34 34 34;
   Cell 0 6 comp_addr 0 1 "" false;
   Cell 0 6 comp_contact 0 1 "" false;
   Ln 2;
   SetFont "Arial" "B" 24; SetTextColor 0 136 136;
   Cell 0 12 (VStr "INVOICE") 0 1 "R" false;
   SetFont "Arial" "" 12; SetTextColor 34 34 34;
   Cell 0 6 (VStr ("INVOICE: " +:+ str number)) 0 1 "R" false;
   Cell 0 6 (VStr ("DATE: " +:+ str date)) 0 1 "R" false;
   Ln 2;
   SetFont "Arial" "B" 12;
   Cell 0 8 (VStr ("TO: " +:+ str name)) 0 1 "" false;
   SetFont "Arial" "" 12]
  ++ (if truthy client_address
      then [Cell 0 6 (VStr ("Address: " +:+ str client_address)) 0 1 "" false]
      else [])
  ++ (if truthy client_number
      then [Cell 0 6 (VStr ("Number: " +:+ str client_number)) 0 1 "" false]
      else [])
  ++ (if truthy email then [Cell 0 6 email 0 1 "" false] else [])
  ++ [SetFont "Arial" "B" 12;
      Cell 0 8 (VStr ("FOR: " +:+ str desc)) 0 1 "" false;
      Ln 2;
      SetFillColor 230 242 242; SetTextColor 32 100 106; SetFont "Arial" "B" 12;
      Cell 80 10 (VStr "DESCRIPTION") 1 0 "L" true;
      Cell 30 10 (VStr "QTY") 1 0 "C" true;
      Cell 40 10 (VStr "RATE") 1 0 "R" true;
      Cell 40 10 (VStr "AMOUNT") 1 1 "R" true;
      SetFont "Arial" "" 12; SetTextColor 34 34 34].

(** What it draws after them: the three figures and the closing line. *)
Definition print_tail (subtotal tax total : string) : list pdf_cmd :=
  [SetFont "Arial" "B" 12;
   Cell 150 10 (VStr "Subtotal") 1 0 "" false;
   Cell 40 10 (VStr ("$" +:+ subtotal)) 1 1 "R" false;
   Cell 150 10 (VStr "Tax") 1 0 "" false;
   Cell 40 10 (VStr ("$" +:+ tax)) 1 1 "R" false;
   Cell 150 10 (VStr "Total") 1 0 "" false;
   Cell 40 10 (VStr ("$" +:+ total)) 1 1 "R" false;
   Ln 10;
   SetFont "Arial" "B" 12; SetTextColor 34 34 34;
   Cell 0 10 (VStr "THANK YOU FOR YOUR BUSINESS!") 0 1 "" false].

(** [InvoiceViewer.print_invoice]: the calls made on the [FPDF] object, the
    last of which writes the file. *)
Definition print_invoice (invoice_data : gmap string value)
  : result (list pdf_cmd) :=
  blob ← getitem invoice_data "items";
  items ← eval_ blob;
  number ← getitem invoice_data "invoice_number";
  name ← getitem invoice_data "client_name";
  desc ← getitem invoice_data "description";
  subtotal ← getitem invoice_data "subtotal";
  tax ← getitem invoice_data "tax";
  total ← getitem invoice_data "total";
  comp_name ← getitem invoice_data "company_name";
  comp_addr ← getitem invoice_data "company_address";
  comp_contact ← getitem invoice_data "company_contact";
  let date := get invoice_data "date" (VStr "") in
  let client_address := get invoice_data "client_address" (VStr "") in
  let client_number := get invoice_data "client_number" (VStr "") in
  let email := get invoice_data "email" (VStr "") in
  elems ← iterate items;
  drawn ← print_items elems
            (print_head number name desc comp_name comp_addr comp_contact date
               client_address client_number email);
  subtotal_text ← format2 subtotal;
  tax_text ← format2 tax;
  total_text ← format2 total;
  pdf_output (drawn ++ print_tail subtotal_text tax_text total_text)
    OUTPUT_DIR ("invoice_" +:+ format_ number +:+ "_preview.pdf").

(** ** [DashboardWidget] *)

(** [data[i]] on the fetched tuple. *)
Definition index (data : list value) (i : nat) : result value :=
  match data !! i with
  | Some v => Ok v
  | None => Raise IndexError
  end.

(** The keys of the [invoice_data] literal, in the order it gives them:
    the key at position [i] is bound to [data[i]]. *)
Definition invoice_data_keys : list string :=
  ["id"; "invoice_number"; "client_name"; "description"; "items"; "subtotal";
   "tax"; "total"; "email"; "company_name"; "company_address"; "company_contact"].

Fixpoint dict_of (keys : list string) (i : nat) (data : list value)
  : result (gmap string value) :=
  match keys with
  | [] => Ok ∅
  | k :: keys' =>
      v ← index data i;
      d ← dict_of keys' (S i) data;
      Ok (<[k := v]> d)
  end.

(** What [open_invoice_details] ends on: the warning, or the viewer built
    from the record. *)
Inductive opened : Type :=
  | Warned (m : message)
  | Viewer (invoice_data : gmap string value) (html : string).

Definition open_invoice_details (invoice_id : Z) (s : store) : result opened :=
  data ← select_by_id invoice_id s;
  match data with
  | None => Ok (Warned NotFound)
  | Some data =>
      invoice_data ← dict_of invoice_data_keys 0 data;
      html ← InvoiceViewer_init invoice_data;
      Ok (Viewer invoice_data html)
  end.

Definition delete_invoice (invoice_id : Z) (s : store) : result (message * store) :=
  s' ← delete_by_id invoice_id s;
  Ok (Deleted, s').


(** ** [InvoiceForm]: the form as it opens *)

(** [InvoiceForm.add_item_row]: one more row, with no cell filled in. *)
Definition add_item_row (f : form) : form :=
  Form (edit_mode f) (company_name f) (company_address f) (company_contact f)
    (invoice_number f) (client_name f) (client_address f) (client_number f)
    (description f) (table f ++ [(None, None, None)]) (tax_input f) (email f)
    (date f).

(** [InvoiceForm.update_total]: the text it puts in [total_display]. *)
Definition update_total (f : form) : result string :=
  '(_, subtotal, tax, total) ← calculate_totals f;
  Ok ("Total: $" +:+ fixed2 total).

(** [QLineEdit(v)] and [QTableWidgetItem(v)] hold the text they are built
    with.  Which of Qt's constructors takes a value that is no [str] is left
    unmodelled, as is a text beyond the 32767 characters of a line edit. *)
Definition QLineEdit (v : value) : result string :=
  match v with
  | VStr s => if Z.of_nat (String.length s) <=? 32767 then Ok s else Unmodelled
  | _ => Unmodelled
  end.

Definition QTableWidgetItem (v : value) : result string :=
  match v with
  | VStr s => Ok s
  | _ => Unmodelled
  end.

(** Words of printable ASCII with one space between them and none of the
    characters that mean something in markup. *)
Fixpoint plain_words (after_space : bool) (s : string) : bool :=
  match s with
  | EmptyString => negb after_space
  | String c s' =>
      if code c =? 32 then negb after_space && plain_words true s'
      else (33 <=? code c) && (code c <=? 126)
           && negb (Ascii.eqb c "<" || Ascii.eqb c ">" || Ascii.eqb c "&")
           && plain_words false s'
  end.

(** [QTextEdit(v)] reads its text as rich text; [toPlainText()] gives back a
    text of plain words as it was, and nothing is modelled of any other. *)
Definition QTextEdit (v : value) : result string :=
  match v with
  | VStr s => if String.eqb s "" || plain_words true s then Ok s else Unmodelled
  | _ => Unmodelled
  end.

(** [self.table.setRowCount(n)]: rows beyond [n] go, empty rows come. *)
Definition set_row_count (n : nat) (rows : list (cell * cell * cell))
  : list (cell * cell * cell) :=
  take n rows ++ replicate (n - length rows) (None, None, None).

(** [self.table.setItem(row, col, QTableWidgetItem(text))]. *)
Definition set_item (row col : nat) (text : string) (rows : list (cell * cell * cell))
  : list (cell * cell * cell) :=
  alter (fun '(a, b, c) =>
           match col with
           | O => (Some text, b, c)
           | S O => (a, Some text, c)
           | _ => (a, b, Some text)
           end) row rows.

(** The loop that fills the grid from the evaluated items, from row [row]
    on. *)
Fixpoint prefill_rows (row : nat) (elems : list value)
    (rows : list (cell * cell * cell)) : result (list (cell * cell * cell)) :=
  match elems with
  | [] => Ok rows
  | elem :: elems' =>
      '(desc, qty, price) ← unpack3 elem;
      desc_text ← QTableWidgetItem desc;
      prefill_rows (S row) elems'
        (set_item row 2 (str price)
           (set_item row 1 (str qty) (set_item row 0 desc_text rows)))
  end.

(** [InvoiceForm.__init__]: the form as it opens, and what [total_display]
    shows.  [today] is the date of the day, as the program formats it. *)
Definition InvoiceForm_init (today : string) (prefill : option (gmap string value))
    (edit_mode : bool) : result (form * string) :=
  let prefill := default ∅ prefill in
  company_name ← QLineEdit (get prefill "company_name" (VStr "BuildSmart Construction Inc."));
  company_address ← QLineEdit (get prefill "company_address" (VStr "123 Innovation Blvd, Suite 500"));
  company_contact ← QLineEdit (get prefill "company_contact"
                      (VStr "Toronto, ON M1X 1A1 | (416) 555-0199 | info@buildsmart.ca"));
  invoice_number ← QLineEdit (get prefill "invoice_number" (VStr ""));
  client_name ← QLineEdit (get prefill "client_name" (VStr ""));
  client_address ← QLineEdit (get prefill "client_address" (VStr ""));
  client_number ← QLineEdit (get prefill "client_number" (VStr ""));
  description ← QTextEdit (get prefill "description" (VStr ""));
  let table := replicate 5 (None, None, None) in
  tax_input ← QLineEdit (VStr (str (get prefill "tax_rate" (VStr "0"))));
  email ← QLineEdit (get prefill "email" (VStr ""));
  date ← QLineEdit (get prefill "date" (VStr today));
  table ← match prefill !! "items" with
          | Some blob =>
              items ← eval_ blob;
              n ← len items;
              elems ← iterate items;
              prefill_rows 0 elems (set_row_count n table)
          | None => Ok table
          end;
  let f := Form edit_mode company_name company_address company_contact
             invoice_number client_name client_address client_number
             description table tax_input email date in
  total_display ← update_total f;
  Ok (f, total_display).

(** ** [InvoiceViewer]: the two other buttons *)

(** [InvoiceViewer.edit_invoice]: the form it opens. *)
Definition InvoiceViewer_edit_invoice (today : string)
    (invoice_data : gmap string value) : result (form * string) :=
  InvoiceForm_init today (Some invoice_data) true.

(** [InvoiceViewer.delete_invoice]; [reply] is the answer to its question.
    The message shown, if any, and the store afterwards. *)
Definition InvoiceViewer_delete_invoice (reply : bool)
    (invoice_data : gmap string value) (s : store)
  : result (option message * store) :=
  if reply
  then
    id ← getitem invoice_data "id";
    s' ← delete_by_value id s;
    Ok (Some Deleted, s')
  else Ok (None, s).

(** ** [DashboardWidget]: the listing and its buttons *)

(** The text of the Date Added cell: the date and time read and written
    again when the text is one, the text itself when it is not. *)
Definition date_added_text (val : value) : result string :=
  match val with
  | VStr s =>
      match strptime s with
      | Some dt => strftime dt
      | None => Ok (str val)
      end
  | _ => Ok (str val)
  end.

(** The text of the cell in column [col_idx] of a listed row. *)
Definition listing_cell (col_idx : nat) (val : value) : result string :=
  if (col_idx =? 3)%nat then total_text ← format2 val; Ok ("$" +:+ total_text)
  else if (col_idx =? 5)%nat && truthy val then date_added_text val
  else Ok (str val).

(** The cells of a row from column [col_idx] on; column 6 holds the three
    buttons and no text. *)
Fixpoint listing_cells (col_idx : nat) (vals : list value) : result (list string) :=
  match vals with
  | [] => Ok []
  | val :: vals' =>
      if (col_idx =? 6)%nat then listing_cells (S col_idx) vals'
      else
        text ← listing_cell col_idx val;
        texts ← listing_cells (S col_idx) vals';
        Ok (text :: texts)
  end.

Fixpoint listing (rows : list (list value)) : result (list (list string * list value)) :=
  match rows with
  | [] => Ok []
  | row :: rows' =>
      texts ← listing_cells 0 row;
      shown ← listing rows';
      Ok ((texts, row) :: shown)
  end.

(** [DashboardWidget.load_data]: the rows of the table it shows, each with
    the texts of its cells and the fetched row its buttons are bound to.
    [search_input] is the text of the search field. *)
Definition load_data (search_input : string) (s : store)
  : result (list (list string * list value)) :=
  let filter_text := lower_string (strip search_input) in
  rows ← select_listing
           (if String.eqb filter_text "" then None
            else Some ("%" +:+ filter_text +:+ "%")) s;
  listing rows.

(** What [edit_invoice] ends on: the warning, or the form it opens. *)
Inductive editing : Type :=
  | EditWarned (m : message)
  | EditForm (f : form) (total_display : string).

(** [DashboardWidget.edit_invoice]. *)
Definition DashboardWidget_edit_invoice (today : string) (invoice_id : Z) (s : store)
  : result editing :=
  data ← select_by_id invoice_id s;
  match data with
  | None => Ok (EditWarned NotFound)
  | Some data =>
      invoice_data ← dict_of invoice_data_keys 0 data;
      '(f, total_display) ← InvoiceForm_init today (Some invoice_data) true;
      Ok (EditForm f total_display)
  end.

(** [DashboardWidget.open_new_invoice]: the form it opens. *)
Definition open_new_invoice (today : string) : result (form * string) :=
  InvoiceForm_init today None false.

(** [DashboardWidget.delete_invoice]; [reply] is the answer to its
    question. *)
Definition DashboardWidget_delete_invoice (reply : bool) (invoice_id : Z) (s : store)
  : result (option message * store) :=
  if reply
  then '(m, s') ← delete_invoice invoice_id s; Ok (Some m, s')
  else Ok (None, s).

End App.

(** * The vocabulary of the specification

    What the specification says of the calculator, in its words: the rows it
    retains, the amounts it sums and the rate it applies. *)
Module Spec.
Import Py Sqlite App.

(** Line amount: quantity times unit price. *)
Definition amount (it : item) : float := (it.1.2 * it.2)%float.

(** The sum of the line amounts, taken in row order from [0.0]. *)
Definition sum_amounts (items : list item) : float :=
  fold_left (fun acc it => (acc + amount it)%float) items 0%float.

(** The line item a grid row stands for: all three cells present, quantity
    and unit price both read by [float]. *)
Definition retained_item (row : cell * cell * cell) : option item :=
  match row with
  | (Some desc, Some qty_text, Some price_text) =>
      qty ← parse_float qty_text;
      price ← parse_float price_text;
      Some (desc, qty, price)
  | _ => None
  end.

Definition valid_row (row : cell * cell * cell) : bool :=
  match row with
  | (Some _, Some qty_text, Some price_text) =>
      bool_decide (is_Some (parse_float qty_text))
      && bool_decide (is_Some (parse_float price_text))
  | _ => false
  end.

Definition retained (rows : list (cell * cell * cell)) : list item :=
  omap retained_item rows.

(** The tax rate in force: the text of the field as a number, [0] when the
    field is blank or not a number. *)
Definition rate_of (text : string) : float :=
  if String.eqb text "" then 0%float else default 0%float (parse_float text).

(** The form with another grid. *)
Definition with_table (f : form) (rows : list (cell * cell * cell)) : form :=
  Form (edit_mode f) (company_name f) (company_address f) (company_contact f)
    (invoice_number f) (client_name f) (client_address f) (client_number f)
    (description f) rows (tax_input f) (email f) (date f).

(** The table with one more column, [NULL] in every row. *)
Definition extended (c : string) (t : invoices) : invoices :=
  Table (columns t ++ [c]) ((fun r => r ++ [VNone]) <$> rows t) (sequence t).

(** The table once each column of [cols] it lacks has been added, in order. *)
Fixpoint upgraded (cols : list string) (t : invoices) : invoices :=
  match cols with
  | [] => t
  | c :: cols' => upgraded cols' (if has_column c t then t else extended c t)
  end.

(** What an upgrade leaves in place: the columns stay first and in order, no
    name comes twice if none did, the counter stands, and every row keeps its
    value in every column it had. *)
Definition preserved (t t' : invoices) : Prop :=
  columns t `prefix_of` columns t'
  /\ (NoDup (columns t) -> NoDup (columns t'))
  /\ sequence t' = sequence t
  /\ Forall2 (fun r r' => forall c, has_column c t = true -> field t' c r' = field t c r)
       (rows t) (rows t').

(** ** The repository *)

(** The first check of [save_invoice] that the form fails, if any. *)
Definition validation (f : form) : option message :=
  if String.eqb (strip (invoice_number f)) ""
     || String.eqb (strip (client_name f)) ""
     || String.eqb (strip (description f)) ""
  then Some MissingInfo
  else match retained (table f) with
       | [] => Some MissingItems
       | _ :: _ => None
       end.

(** The invoice date a form submits: its date field, today when blank. *)
Definition submitted_date (today : string) (f : form) : string :=
  if String.eqb (strip (date f)) "" then today else strip (date f).

(** The three derived figures of a form, as stored. *)
Definition subtotal_of (f : form) : float := sum_amounts (retained (table f)).
Definition tax_of (f : form) : float :=
  (subtotal_of f * (rate_of (tax_input f) / 100))%float.
Definition total_of (f : form) : float := (subtotal_of f + tax_of f)%float.

(** The columns every statement of [save_invoice] sets, with their values. *)
Definition payload (f : form) : list (string * value) :=
  [("client_name", VStr (strip (client_name f)));
   ("client_address", VStr (strip (client_address f)));
   ("client_number", VStr (strip (client_number f)));
   ("description", VStr (strip (description f)));
   ("items", VStr (items_str (retained (table f))));
   ("subtotal", VFloat (subtotal_of f));
   ("tax", VFloat (tax_of f));
   ("total", VFloat (total_of f));
   ("email", VStr (strip (email f)));
   ("company_name", VStr (strip (company_name f)));
   ("company_address", VStr (strip (company_address f)));
   ("company_contact", VStr (strip (company_contact f)))].

(** What the [UPDATE] sets, and what the [INSERT] gives. *)
Definition update_bindings (today : string) (f : form) : list (string * value) :=
  payload f ++ [("date_added", VStr (submitted_date today f))].

Definition insert_bindings (today now : string) (f : form) : list (string * value) :=
  ("invoice_number", VStr (strip (invoice_number f)))
  :: payload f
  ++ [("date_added", VStr now); ("date", VStr (submitted_date today f))].

(** The file [save_invoice] writes the document of a form to, and the
    document: what [generate_pdf] draws, then the file written. *)
Definition document_file (f : form) : string :=
  "invoice_" +:+ strip (invoice_number f) +:+ ".pdf".

Definition document (today : string) (f : form) : list pdf_cmd :=
  generate_pdf_page (email f) (strip (invoice_number f)) (strip (client_name f))
    (strip (client_address f)) (strip (client_number f)) (strip (description f))
    (retained (table f)) (subtotal_of f) (tax_of f) (total_of f)
    (strip (company_name f)) (strip (company_address f))
    (strip (company_contact f)) (submitted_date today f)
  ++ [Output OUTPUT_DIR (document_file f)].

(** The invoice number a row holds, and how many rows hold the number [n]. *)
Definition number_in (t : invoices) (r : list value) : value :=
  field t "invoice_number" r.

Definition count_number (t : invoices) (n : string) : nat :=
  length (List.filter (fun r => sql_eq (number_in t r) (VStr n)) (rows t)).

(** The [UNIQUE] constraint on the rows of a table: no two hold equal
    invoice numbers. *)
Fixpoint distinct_numbers (t : invoices) (rs : list (list value)) : bool :=
  match rs with
  | [] => true
  | r :: rs' =>
      negb (existsb (fun r' => sql_eq (number_in t r) (number_in t r')) rs')
      && distinct_numbers t rs'
  end.

(** The values of column [c], row by row. *)
Definition column_values (c : string) (t : invoices) : list value :=
  field t c <$> rows t.

(** The shape SQLite keeps every row in: one value per column. *)
Definition well_formed (t : invoices) : Prop :=
  Forall (fun r => length r = length (columns t)) (rows t).

(** ** The renderer *)

(** A line of the itemized table as displayed: description, quantity, rate
    and amount. *)
Definition line : Type := string * string * string * string.

(** The line an element of the evaluated items stands for. *)
Definition line_of (elem : value) : result line :=
  '(desc, qty, price) ← unpack3 elem;
  total ← mul qty price;
  price_text ← format2 price;
  total_text ← format2 total;
  Ok (str desc, str qty, price_text, total_text).

Fixpoint lines_of (elems : list value) : result (list line) :=
  match elems with
  | [] => Ok []
  | elem :: elems' => l ← line_of elem; ls ← lines_of elems'; Ok (l :: ls)
  end.

(** The figures of a record: its lines, then subtotal, tax and total to two
    decimals. *)
Definition figures (d : gmap string value)
  : result (list line * string * string * string) :=
  blob ← getitem d "items";
  items ← eval_ blob;
  elems ← iterate items;
  lines ← lines_of elems;
  subtotal ← getitem d "subtotal" ≫= format2;
  tax ← getitem d "tax" ≫= format2;
  total ← getitem d "total" ≫= format2;
  Ok (lines, subtotal, tax, total).


Definition print_line (l : line) : list pdf_cmd :=
  [Cell 80 10 (VStr l.1.1.1) 1 0 "" false;
   Cell 30 10 (VStr l.1.1.2) 1 0 "C" false;
   Cell 40 10 (VStr ("$" +:+ l.1.2)) 1 0 "R" false;
   Cell 40 10 (VStr ("$" +:+ l.2)) 1 1 "R" false].








(** ** More of the repository *)

(** The twelve columns the table had before the four upgrades, in their
    order. *)
Definition original_columns : list string :=
  ["id"; "invoice_number"; "client_name"; "description"; "items"; "subtotal";
   "tax"; "total"; "email"; "company_name"; "company_address"; "company_contact"].

(** The three required fields are filled in. *)
Definition filled_in (f : form) : Prop :=
  strip (invoice_number f) <> "" /\ strip (client_name f) <> ""
  /\ strip (description f) <> "".

(** The columns both statements of [save_invoice] write. *)
Definition written_columns : list string :=
  ["invoice_number"; "client_name"; "client_address"; "client_number";
   "description"; "items"; "subtotal"; "tax"; "total"; "email"; "company_name";
   "company_address"; "company_contact"; "date_added"].

(** ** The dashboard *)

(** What the listing fetches of a stored row. *)
Definition listed (t : invoices) (r : list value) : list value :=
  (fun c => field t c r) <$> listed_columns.

(** The text [p] occurs in the text [s]. *)
Definition occurs (p s : string) : Prop :=
  exists before after, s = before +:+ p +:+ after.

(** Does [ok] hold of some end of [s]? *)
Fixpoint some_suffix (ok : string -> bool) (s : string) : bool :=
  ok s || match s with
          | String _ s' => some_suffix ok s'
          | EmptyString => false
          end.

(** A date and a time of the calendar, as a [datetime] holds them. *)
Definition valid_datetime (dt : datetime) : Prop :=
  1 <= year dt <= 9999 /\ 1 <= month dt <= 12
  /\ 1 <= day dt <= days_in_month (year dt) (month dt)
  /\ 0 <= hour dt <= 23 /\ 0 <= minute dt <= 59 /\ 0 <= second dt <= 59.

End Spec.

(** * A worked invoice

    The end-to-end example of the specification: two line items, "Labor"
    10 at 50.0 and "Materials" 5 at 20.0, taxed at 13 percent. *)
Module Scenario.
Import Py Sqlite App.

Definition blank : cell * cell * cell := (None, None, None).

(** The "New Invoice" form as filled in: the grid has its five rows. *)
Definition acme_form : form :=
  Form false
    "BuildSmart Construction Inc." "123 Innovation Blvd, Suite 500"
    "Toronto, ON M1X 1A1 | (416) 555-0199 | info@buildsmart.ca"
    "INV-001" "Acme Ltd" "1 Main St" "" "Roof repair"
    [(Some "Labor", Some "10", Some "50.0");
     (Some "Materials", Some "5", Some "20.0"); blank; blank; blank]
    "13" "billing@acme.test" "2025-06-01".

(** The table [init_db] creates in an empty database file. *)
Definition fresh : invoices := Table invoices_columns [] 0.

(** The row the program stores for the form, saved on 1 June at ten. *)
Definition acme_row : list value :=
  [VInt 1; VStr "INV-001"; VStr "Acme Ltd"; VStr "1 Main St"; VStr "";
   VStr "Roof repair";
   VStr "[('Labor', 10.0, 50.0), ('Materials', 5.0, 20.0)]";
   VFloat 600; VFloat 78; VFloat 678; VStr "billing@acme.test";
   VStr "BuildSmart Construction Inc."; VStr "123 Innovation Blvd, Suite 500";
   VStr "Toronto, ON M1X 1A1 | (416) 555-0199 | info@buildsmart.ca";
   VStr "2025-06-01 10:00:00"; VStr "2025-06-01"].

Definition stored : invoices := Table invoices_columns [acme_row] 1.

(** The same invoice in the "Edit Invoice" form a month later: twelve hours
    of labour, and 7 July in the date field. *)
Definition acme_edit : form :=
  Form true
    "BuildSmart Construction Inc." "123 Innovation Blvd, Suite 500"
    "Toronto, ON M1X 1A1 | (416) 555-0199 | info@buildsmart.ca"
    "INV-001" "Acme Ltd" "1 Main St" "" "Roof repair"
    [(Some "Labor", Some "12", Some "50.0");
     (Some "Materials", Some "5", Some "20.0")]
    "13" "billing@acme.test" "2025-07-07".

Definition edited_row : list value :=
  [VInt 1; VStr "INV-001"; VStr "Acme Ltd"; VStr "1 Main St"; VStr "";
   VStr "Roof repair";
   VStr "[('Labor', 12.0, 50.0), ('Materials', 5.0, 20.0)]";
   VFloat 700; VFloat 91; VFloat 791; VStr "billing@acme.test";
   VStr "BuildSmart Construction Inc."; VStr "123 Innovation Blvd, Suite 500";
   VStr "Toronto, ON M1X 1A1 | (416) 555-0199 | info@buildsmart.ca";
   VStr "2025-07-07"; VStr "2025-06-01"].

Definition edited : invoices := Table invoices_columns [edited_row] 1.

(** A table from before the four upgrade columns, after [init_db] has added
    them: they come last.  Its one invoice was cut off in storage. *)
Definition legacy_columns : list string :=
  ["id"; "invoice_number"; "client_name"; "description"; "items"; "subtotal";
   "tax"; "total"; "email"; "company_name"; "company_address";
   "company_contact"; "date_added"; "date"; "client_address"; "client_number"].

Definition legacy_row (items : string) : list value :=
  [VInt 1; VStr "INV-001"; VStr "Acme Ltd"; VStr "Roof repair"; VStr items;
   VFloat 600; VFloat 78; VFloat 678; VStr "billing@acme.test";
   VStr "BuildSmart Construction Inc."; VStr "123 Innovation Blvd, Suite 500";
   VStr "Toronto, ON M1X 1A1 | (416) 555-0199 | info@buildsmart.ca";
   VNone; VNone; VNone; VNone].

Definition legacy : invoices :=
  Table legacy_columns
    [legacy_row "[('Labor', 10.0, 50.0), ('Materials', 5.0, 20.0)]"] 1.


(** A form whose quantity reads [inf], which [float] accepts. *)
Definition endless_form : form :=
  Form false "BuildSmart Construction Inc." "" "" "INV-002" "Acme Ltd" "" ""
    "Standby" [(Some "On call", Some "inf", Some "1")] "" "" "2025-06-01".

(** The record [open_invoice_details] builds from the one row of [legacy] or
    of [damaged]: the first twelve values of the row under the twelve keys,
    [items] being the row's items text. *)
Definition legacy_record (items : string) : gmap string value :=
  list_to_map
    [("id", VInt 1); ("invoice_number", VStr "INV-001");
     ("client_name", VStr "Acme Ltd"); ("description", VStr "Roof repair");
     ("items", VStr items);
     ("subtotal", VFloat 600); ("tax", VFloat 78); ("total", VFloat 678);
     ("email", VStr "billing@acme.test");
     ("company_name", VStr "BuildSmart Construction Inc.");
     ("company_address", VStr "123 Innovation Blvd, Suite 500");
     ("company_contact",
      VStr "Toronto, ON M1X 1A1 | (416) 555-0199 | info@buildsmart.ca")].

Definition legacy_data : gmap string value :=
  legacy_record "[('Labor', 10.0, 50.0), ('Materials', 5.0, 20.0)]".

(** The preview of that record. *)
Definition legacy_html : string :=
  Eval vm_compute in
    match InvoiceViewer_init legacy_data with
    | Ok html => html
    | _ => EmptyString
    end.


(** The record [open_invoice_details] builds from [acme_row], the one row of
    [stored]: the first twelve values of the row under the twelve keys. *)
Definition stored_data : gmap string value :=
  list_to_map
    [("id", VInt 1); ("invoice_number", VStr "INV-001");
     ("client_name", VStr "Acme Ltd"); ("description", VStr "1 Main St");
     ("items", VStr ""); ("subtotal", VStr "Roof repair");
     ("tax", VStr "[('Labor', 10.0, 50.0), ('Materials', 5.0, 20.0)]");
     ("total", VFloat 600); ("email", VFloat 78); ("company_name", VFloat 678);
     ("company_address", VStr "billing@acme.test");
     ("company_contact", VStr "BuildSmart Construction Inc.")].


(** The "New Invoice" form with the client's name left out. *)
Definition nameless_form : form :=
  Form false
    "BuildSmart Construction Inc." "123 Innovation Blvd, Suite 500"
    "Toronto, ON M1X 1A1 | (416) 555-0199 | info@buildsmart.ca"
    "INV-002" "   " "" "" "Roof repair"
    [(Some "Labor", Some "10", Some "50.0")] "13" "" "".

(** The form the dashboard opens on 7 July to edit the one invoice of
    [legacy]. *)
Definition legacy_edit_form : form :=
  Form true
    "BuildSmart Construction Inc." "123 Innovation Blvd, Suite 500"
    "Toronto, ON M1X 1A1 | (416) 555-0199 | info@buildsmart.ca"
    "INV-001" "Acme Ltd" "" "" "Roof repair"
    [(Some "Labor", Some "10.0", Some "50.0");
     (Some "Materials", Some "5.0", Some "20.0")]
    "0" "billing@acme.test" "2025-07-07".


(** A second form, saved on 2 June at half past nine with the date field
    left empty, and the row the program stores for it. *)
Definition bolt_form : form :=
  Form false
    "BuildSmart Construction Inc." "123 Innovation Blvd, Suite 500"
    "Toronto, ON M1X 1A1 | (416) 555-0199 | info@buildsmart.ca"
    "INV-002" "Bolt & Co" "" "" "Fence"
    [(Some "Posts", Some "4", Some "25")] "13" "" "".

Definition bolt_row : list value :=
  [VInt 2; VStr "INV-002"; VStr "Bolt & Co"; VStr ""; VStr ""; VStr "Fence";
   VStr "[('Posts', 4.0, 25.0)]";
   VFloat 100; VFloat 13; VFloat 113; VStr "";
   VStr "BuildSmart Construction Inc."; VStr "123 Innovation Blvd, Suite 500";
   VStr "Toronto, ON M1X 1A1 | (416) 555-0199 | info@buildsmart.ca";
   VStr "2025-06-02 09:30:00"; VStr "2025-06-02"].

(** The table with both invoices, and their lines on the dashboard. *)
Definition both : invoices := Table invoices_columns [acme_row; bolt_row] 2.

Definition acme_line : list string * list value :=
  (["1"; "INV-001"; "Acme Ltd"; "$678.00"; "billing@acme.test"; "2025-06-01 10:00:00"],
   [VInt 1; VStr "INV-001"; VStr "Acme Ltd"; VFloat 678; VStr "billing@acme.test";
    VStr "2025-06-01 10:00:00"; VInt 1]).

Definition bolt_line : list string * list value :=
  (["2"; "INV-002"; "Bolt & Co"; "$113.00"; ""; "2025-06-02 09:30:00"],
   [VInt 2; VStr "INV-002"; VStr "Bolt & Co"; VFloat 113; VStr "";
    VStr "2025-06-02 09:30:00"; VInt 2]).

(** The table after [endless_form] was saved on 2 June: the tax and the
    total, which are not numbers, are stored as [NULL]. *)
Definition endless_row : list value :=
  [VInt 2; VStr "INV-002"; VStr "Acme Ltd"; VStr ""; VStr ""; VStr "Standby";
   VStr "[('On call', inf, 1.0)]";
   VFloat infinity; VNone; VNone; VStr "";
   VStr "BuildSmart Construction Inc."; VStr ""; VStr "";
   VStr "2025-06-02 09:30:00"; VStr "2025-06-01"].

Definition endless_saved : invoices :=
  Table invoices_columns [acme_row; endless_row] 2.

(** The form "New Invoice" opens on 1 June. *)
Definition opened_form : form :=
  Form false
    "BuildSmart Construction Inc." "123 Innovation Blvd, Suite 500"
    "Toronto, ON M1X 1A1 | (416) 555-0199 | info@buildsmart.ca"
    "" "" "" "" "" [blank; blank; blank; blank; blank] "0" "" "2025-06-01".

(** The line of the dashboard for the invoice after the edit. *)
Definition edited_line : list string * list value :=
  (["1"; "INV-001"; "Acme Ltd"; "$791.00"; "billing@acme.test"; "2025-07-07"],
   [VInt 1; VStr "INV-001"; VStr "Acme Ltd"; VFloat 791; VStr "billing@acme.test";
    VStr "2025-07-07"; VInt 1]).

End Scenario.

Import Py Sqlite App Spec.

(** * Runs that return *)

Lemma ok_bind {A B} (a : A) (g : A -> result B) : Ok a ≫= g = g a.
Proof. reflexivity. Qed.

(** Run the calls that have returned. *)
Ltac run := rewrite ?ok_bind; cbv beta.

Lemma bind_Ok {A B} (m : result A) (g : A -> result B) (b : B) :
  m ≫= g = Ok b -> exists a, m = Ok a /\ g a = Ok b.
Proof. destruct m as [a| |]; try discriminate. intros H. now exists a. Qed.


(** One step of a run that ends well: the next call returned. *)
Ltac next H E :=
  apply bind_Ok in H as (? & E & H).

(** * The totals calculator *)
Section Calculator.

Implicit Types (row : cell * cell * cell) (rows : list (cell * cell * cell)).
Implicit Types (acc : float * list item) (it : item) (f : form).

Lemma float_parse (s : string) :
  float_ s = match parse_float s with Some x => Ok x | None => Raise ValueError end.
Proof. reflexivity. Qed.

(** One row either adds its item and amount, or leaves everything as it was:
    the [ValueError] of [float] never leaves the loop body. *)
Lemma totals_row_retained acc row :
  totals_row acc row =
  Ok (match retained_item row with
      | Some it => ((acc.1 + amount it)%float, acc.2 ++ [it])
      | None => acc
      end).
Proof.
  destruct row as [[[desc|] [qty_text|]] [price_text|]]; try reflexivity.
  unfold totals_row, retained_item, float_.
  destruct (parse_float qty_text) as [qty|]; [|reflexivity].
  destruct (parse_float price_text) as [price|]; reflexivity.
Qed.

Lemma totals_rows_retained rows acc :
  totals_rows rows acc =
  Ok (fold_left (fun a it => (a + amount it)%float) (retained rows) acc.1,
      acc.2 ++ retained rows).
Proof.
  revert acc; induction rows as [|row rows IH]; intros acc.
  - cbn. rewrite app_nil_r. now destruct acc.
  - cbn [totals_rows]. rewrite totals_row_retained.
    change (Ok ?a ≫= ?k) with (k a). cbv beta. rewrite IH.
    unfold retained. cbn [omap list_omap].
    destruct (retained_item row) as [it|]; cbn; [|reflexivity].
    now rewrite <- app_assoc.
Qed.

Lemma tax_rate_total (text : string) : tax_rate text = Ok (rate_of text).
Proof.
  unfold tax_rate, rate_of, float_.
  destruct (String.eqb text ""); [reflexivity|].
  destruct (parse_float text); reflexivity.
Qed.

Lemma calculate_totals_eq f :
  calculate_totals f =
  let subtotal := sum_amounts (retained (table f)) in
  let tax := (subtotal * (rate_of (tax_input f) / 100))%float in
  Ok (retained (table f), subtotal, tax, (subtotal + tax)%float).
Proof.
  unfold calculate_totals. rewrite totals_rows_retained, tax_rate_total.
  reflexivity.
Qed.

Lemma valid_row_retained row :
  valid_row row = true <-> is_Some (retained_item row).
Proof.
  destruct row as [[[d|] [q|]] [p|]]; cbn;
    try (split; [discriminate | intros [? [=]]]).
  destruct (parse_float q) as [qty|], (parse_float p) as [price|]; cbn;
    (split; [try discriminate; eauto | try (intros [? [=]]); reflexivity]).
Qed.

Lemma invalid_row_dropped row :
  valid_row row = false -> retained_item row = None.
Proof.
  intros E. destruct (retained_item row) as [it|] eqn:R; [|reflexivity].
  assert (valid_row row = true) by (apply valid_row_retained; eauto).
  congruence.
Qed.

Lemma retained_filter_valid rows :
  retained (List.filter valid_row rows) = retained rows.
Proof.
  unfold retained.
  induction rows as [|row rows IH]; [reflexivity|].
  cbn [List.filter].
  destruct (valid_row row) eqn:E; cbn [omap list_omap].
  - now rewrite IH.
  - now rewrite (invalid_row_dropped _ E).
Qed.

Lemma retained_valid rows :
  Forall2 (fun row it => retained_item row = Some it)
    (List.filter valid_row rows) (retained rows).
Proof.
  unfold retained.
  induction rows as [|row rows IH]; [constructor|].
  cbn [List.filter omap list_omap].
  destruct (valid_row row) eqn:E.
  - apply valid_row_retained in E as [it Hit]. rewrite Hit.
    now constructor.
  - now rewrite (invalid_row_dropped _ E).
Qed.

(** C1.  For every item grid and every text in the tax-rate field,
    [calculate_totals] returns: as subtotal the sum of quantity times unit
    price over exactly the retained rows (added in row order from [0.0], as
    the loop does), as tax the subtotal times the rate over a hundred, and as
    total the subtotal plus the tax.  Equality is that of binary64 values. *)
Theorem calculate_totals_sums f :
  exists items subtotal tax total,
    calculate_totals f = Ok (items, subtotal, tax, total)
    /\ items = retained (table f)
    /\ subtotal = sum_amounts items
    /\ tax = (subtotal * (rate_of (tax_input f) / 100))%float
    /\ total = (subtotal + tax)%float.
Proof.
  rewrite calculate_totals_eq. cbv zeta.
  do 4 eexists. repeat split; reflexivity.
Qed.

(** C7.  For every item grid, [calculate_totals] always returns (it raises
    nothing) and keeps exactly the rows whose three cells are present and
    whose quantity and unit price both parse, in their order; every other row
    is dropped from the item list and from the totals alike (the result is
    that of the grid without them), and the rows kept are summed as they
    stand. *)
Theorem calculate_totals_drops_invalid_rows f :
  exists items subtotal tax total,
    calculate_totals f = Ok (items, subtotal, tax, total)
    /\ Forall2 (fun row it => retained_item row = Some it)
         (List.filter valid_row (table f)) items
    /\ calculate_totals (with_table f (List.filter valid_row (table f)))
       = calculate_totals f
    /\ subtotal = sum_amounts items.
Proof.
  rewrite !calculate_totals_eq. cbv zeta. cbn [table tax_input with_table].
  rewrite retained_filter_valid.
  do 4 eexists. repeat split; auto using retained_valid.
Qed.

End Calculator.

(** * The schema migration *)
Section Migration.

Implicit Types (c : string) (cols : list string) (t : invoices) (s : store).
Implicit Types (r : list value).



Lemma index_of_lt c cols i : index_of c cols = Some i -> (i < length cols)%nat.
Proof.
  revert i; induction cols as [|c' cols IH]; intros i; cbn; [discriminate|].
  destruct (String.eqb c c').
  - intros [= <-]. lia.
  - destruct (index_of c cols) as [j|]; [|discriminate].
    intros [= <-]. specialize (IH j eq_refl). lia.
Qed.

Lemma index_of_app_l c cols l i :
  index_of c cols = Some i -> index_of c (cols ++ l) = Some i.
Proof.
  revert i; induction cols as [|c' cols IH]; intros i; cbn; [discriminate|].
  destruct (String.eqb c c'); [trivial|].
  destruct (index_of c cols) as [j|]; [|discriminate].
  intros [= <-]. now rewrite (IH j eq_refl).
Qed.

Lemma index_of_app_new c cols :
  index_of c cols = None -> index_of c (cols ++ [c]) = Some (length cols).
Proof.
  induction cols as [|c' cols IH]; cbn.
  - now rewrite String.eqb_refl.
  - destruct (String.eqb c c'); [discriminate|].
    destruct (index_of c cols); [discriminate|].
    intros _. now rewrite IH.
Qed.

Lemma index_of_None c cols : index_of c cols = None <-> ~ In c cols.
Proof.
  induction cols as [|c' cols IH]; cbn.
  - split; [intros _ [] | reflexivity].
  - destruct (String.eqb_spec c c') as [->|Hne].
    + split; [discriminate | intros H; exfalso; apply H; now left].
    + destruct (index_of c cols) as [j|]; cbn.
      * split; [discriminate|]. intros H. exfalso.
        assert (Hnot : ~ In c cols) by (intros HI; apply H; now right).
        apply IH in Hnot. discriminate.
      * split; [|reflexivity]. intros _ [E|HI]; [congruence|].
        now apply (proj1 IH).
Qed.

Lemma has_column_extended c c' t :
  has_column c t = true -> has_column c (extended c' t) = true.
Proof.
  unfold has_column, extended; cbn.
  destruct (index_of c (columns t)) as [i|] eqn:E; [|discriminate].
  now rewrite (index_of_app_l _ _ _ _ E).
Qed.

Lemma has_column_extended_new c t : has_column c (extended c t) = true.
Proof.
  unfold has_column, extended; cbn.
  destruct (index_of c (columns t)) as [i|] eqn:E.
  - now rewrite (index_of_app_l _ _ _ _ E).
  - now rewrite (index_of_app_new _ _ E).
Qed.

Lemma has_column_upgraded c cols t :
  has_column c t = true -> has_column c (upgraded cols t) = true.
Proof.
  revert t; induction cols as [|c' cols IH]; intros t H; cbn; [assumption|].
  apply IH. destruct (has_column c' t); auto using has_column_extended.
Qed.

Lemma upgraded_has_columns cols t :
  Forall (fun c => has_column c (upgraded cols t) = true) cols.
Proof.
  revert t; induction cols as [|c cols IH]; intros t; cbn; constructor; [|apply IH].
  apply has_column_upgraded.
  destruct (has_column c t) eqn:E; auto using has_column_extended_new.
Qed.

Lemma upgraded_present cols t :
  Forall (fun c => has_column c t = true) cols -> upgraded cols t = t.
Proof.
  induction 1 as [|c cols Hc _ IH]; cbn; [reflexivity|].
  now rewrite Hc.
Qed.

(** The value of an old column is the same in the lengthened row. *)
Lemma field_extended c c' t r :
  has_column c t = true -> field (extended c' t) c (r ++ [VNone]) = field t c r.
Proof.
  unfold has_column, field, extended; cbn.
  destruct (index_of c (columns t)) as [i|] eqn:E; [|discriminate].
  intros _. rewrite (index_of_app_l _ _ _ _ E).
  destruct (decide (i < length r)%nat) as [Hlt|Hge].
  - now rewrite lookup_app_l.
  - rewrite lookup_app_r by lia. rewrite (lookup_ge_None_2 r i) by lia.
    now destruct (i - length r)%nat as [|[|k]].
Qed.


Lemma preserved_refl t : preserved t t.
Proof.
  repeat split; auto.
  induction (rows t); constructor; auto.
Qed.

Lemma preserved_extended c t :
  has_column c t = false -> preserved t (extended c t).
Proof.
  intros Hc. repeat split; cbn.
  - now exists [c].
  - intros Hnd. apply NoDup_app. repeat split.
    + assumption.
    + intros x Hx Hxc%list_elem_of_singleton. subst x.
      apply list_elem_of_In in Hx. unfold has_column in Hc.
      destruct (index_of c (columns t)) eqn:E; [discriminate|].
      now apply index_of_None in E.
    + apply NoDup_singleton.
  - induction (rows t) as [|r rs IH]; cbn; constructor; [|exact IH].
    intros c'. apply field_extended.
Qed.

Lemma preserved_trans t1 t2 t3 :
  preserved t1 t2 -> preserved t2 t3 -> preserved t1 t3.
Proof.
  intros (P1 & N1 & S1 & F1) (P2 & N2 & S2 & F2). repeat split.
  - etransitivity; eassumption.
  - auto.
  - congruence.
  - assert (Hcol : forall c, has_column c t1 = true -> has_column c t2 = true).
    { intros c. unfold has_column. destruct P1 as [k ->].
      destruct (index_of c (columns t1)) as [i|] eqn:E; [|discriminate].
      now rewrite (index_of_app_l _ _ _ _ E). }
    revert F2. generalize (rows t3). induction F1 as [|r r' rs rs' Hr _ IH];
      intros rs3 F2; inversion F2 as [|? r3 ? rs3' Hr3 F3]; subst; constructor.
    + intros c Hc. rewrite Hr3 by auto. auto.
    + auto.
Qed.

Lemma preserved_upgraded cols t : preserved t (upgraded cols t).
Proof.
  revert t; induction cols as [|c cols IH]; intros t; cbn.
  - apply preserved_refl.
  - destruct (has_column c t) eqn:E; [apply IH|].
    eapply preserved_trans; [apply preserved_extended, E | apply IH].
Qed.

(** An [ALTER TABLE] under its [try]: the column is added if it is missing,
    and the "duplicate column" error is passed over if it is not. *)
Lemma add_column_guarded c t :
  try_except (add_column c (Some t)) OperationalError (Ok (Some t))
  = Ok (Some (if has_column c t then t else extended c t)).
Proof.
  unfold add_column. destruct (has_column c t); reflexivity.
Qed.

Lemma add_missing_upgraded cols t :
  add_missing cols (Some t) = Ok (Some (upgraded cols t)).
Proof.
  revert t; induction cols as [|c cols IH]; intros t; cbn [add_missing upgraded].
  - reflexivity.
  - rewrite add_column_guarded. apply IH.
Qed.

(** C9.  The migration never fails and is idempotent.  Run on any store it
    yields a table that has the four upgrade columns; run again on its own
    result it returns that result unchanged.  On a store whose table already
    has the four columns it is a no-op.  Whatever table was there keeps its
    columns (first, in order, none twice), and every row keeps its value in
    every one of them. *)
Theorem init_db_idempotent s :
  exists t',
    init_db s = Ok (Some t')
    /\ init_db (Some t') = Ok (Some t')
    /\ Forall (fun c => has_column c t' = true) upgrades
    /\ forall t, s = Some t ->
         (Forall (fun c => has_column c t = true) upgrades -> t' = t)
         /\ preserved t t'.
Proof.
  assert (Hrun : forall t, init_db (Some t) = Ok (Some (upgraded upgrades t))).
  { intros t. unfold init_db. cbn [create_table].
    change (Ok ?a ≫= ?k) with (k a). cbv beta. apply add_missing_upgraded. }
  assert (Hnew : init_db None = Ok (Some (upgraded upgrades (Table invoices_columns [] 0)))).
  { unfold init_db. cbn [create_table].
    change (Ok ?a ≫= ?k) with (k a). cbv beta. apply add_missing_upgraded. }
  assert (Hagain : forall t,
            init_db (Some (upgraded upgrades t)) = Ok (Some (upgraded upgrades t))).
  { intros t. rewrite Hrun. do 2 f_equal.
    apply upgraded_present, upgraded_has_columns. }
  destruct s as [t|].
  - exists (upgraded upgrades t).
    split; [apply Hrun|]. split; [apply Hagain|].
    split; [apply upgraded_has_columns|].
    intros t0 [= <-]. split; [|apply preserved_upgraded].
    intros Hall. now apply upgraded_present.
  - eexists. split; [apply Hnew|]. split; [apply Hagain|].
    split; [apply upgraded_has_columns|]. discriminate.
Qed.

End Migration.

(** * The repository: create and update *)
Section Repository.

Implicit Types (c : string) (t : invoices) (s : store) (f : form).
Implicit Types (r : list value) (v : value) (bs : list (string * value)).

(** ** [save_invoice], check by check *)

Lemma validation_message f m :
  validation f = Some m -> m = MissingInfo \/ m = MissingItems.
Proof.
  unfold validation.
  destruct (_ || _); [intros [= <-]; now left|].
  destruct (retained (table f)); [intros [= <-]; now right | discriminate].
Qed.

Lemma save_invoice_rejected today now f s m :
  validation f = Some m -> save_invoice today now f s = Ok (m, s, None).
Proof.
  unfold validation, save_invoice. cbv zeta.
  destruct (_ || _); [now intros [= <-]|].
  rewrite calculate_totals_eq. cbv zeta.
  change (Ok ?a ≫= ?k) with (k a). cbv beta iota.
  destruct (retained (table f)); [now intros [= <-] | discriminate].
Qed.

(** A save that passes validation: the statement, then the document, which
    is written when its file name allows. *)
Lemma save_invoice_validated today now f s :
  validation f = None ->
  save_invoice today now f s =
  if edit_mode f
  then s' ← update (update_bindings today f) (VStr (strip (invoice_number f))) s;
       pdf ← (if file_name_ok (document_file f) then Ok (document today f)
              else Unmodelled);
       Ok (Updated, s', Some pdf)
  else try_except
         (s' ← insert (insert_bindings today now f) s;
          pdf ← (if file_name_ok (document_file f) then Ok (document today f)
                 else Unmodelled);
          Ok (Saved, s', Some pdf))
         IntegrityError
         (Ok (Duplicate, s, None)).
Proof.
  unfold validation, save_invoice, update_bindings, insert_bindings, payload,
    document, document_file, generate_pdf, pdf_output, total_of, tax_of,
    subtotal_of, submitted_date.
  cbv zeta.
  destruct (_ || _); [discriminate|].
  rewrite calculate_totals_eq. cbv zeta.
  change (Ok ?a ≫= ?k) with (k a). cbv beta iota.
  destruct (retained (table f)) eqn:E; [discriminate|].
  reflexivity.
Qed.

(** The same when the document can be written. *)
Lemma save_invoice_written today now f s :
  validation f = None ->
  file_name_ok (document_file f) = true ->
  save_invoice today now f s =
  if edit_mode f
  then s' ← update (update_bindings today f) (VStr (strip (invoice_number f))) s;
       Ok (Updated, s', Some (document today f))
  else try_except
         (s' ← insert (insert_bindings today now f) s;
          Ok (Saved, s', Some (document today f)))
         IntegrityError
         (Ok (Duplicate, s, None)).
Proof.
  intros Hvalid Hfile. rewrite save_invoice_validated, Hfile by assumption.
  destruct (edit_mode f).
  - now destruct (update _ _ s).
  - now destruct (insert _ s).
Qed.

(** A save that returned with the document written had a file name to
    write it to. *)
Lemma save_invoice_document today now f s m s' pdf :
  save_invoice today now f s = Ok (m, s', Some pdf) ->
  validation f = None /\ file_name_ok (document_file f) = true
  /\ pdf = document today f.
Proof.
  intros H. destruct (validation f) as [m0|] eqn:V.
  - rewrite (save_invoice_rejected _ _ _ _ _ V) in H. discriminate.
  - split; [reflexivity|]. rewrite save_invoice_validated in H by assumption.
    destruct (file_name_ok (document_file f)).
    + split; [reflexivity|]. destruct (edit_mode f).
      * destruct (update _ _ s); [|discriminate..]. now injection H as _ _ <-.
      * destruct (insert _ s) as [s1|e|]; cbn in H; [now injection H as _ _ <-| |discriminate].
        destruct (decide (e = IntegrityError)); discriminate.
    + exfalso. destruct (edit_mode f).
      * destruct (update _ _ s); discriminate.
      * destruct (insert _ s) as [s1|e|]; cbn in H; [discriminate| |discriminate].
        destruct (decide (e = IntegrityError)); discriminate.
Qed.

(** ** Columns and fields *)

Lemma index_of_lookup c cols i : index_of c cols = Some i -> cols !! i = Some c.
Proof.
  revert i; induction cols as [|c' cols IH]; intros i; cbn; [discriminate|].
  destruct (String.eqb_spec c c') as [->|_].
  - now intros [= <-].
  - destruct (index_of c cols) as [j|]; [|discriminate].
    intros [= <-]. now apply IH.
Qed.

Lemma length_set_field t c v r : length (set_field t c v r) = length r.
Proof.
  unfold set_field. destruct (index_of c (columns t)); [apply length_insert | reflexivity].
Qed.

Lemma field_set_field_other t c c' v r :
  c <> c' -> field t c (set_field t c' v r) = field t c r.
Proof.
  intros Hne. unfold field, set_field.
  destruct (index_of c (columns t)) as [i|] eqn:Ei; [|reflexivity].
  destruct (index_of c' (columns t)) as [j|] eqn:Ej; [|reflexivity].
  rewrite list_lookup_insert_ne; [reflexivity|].
  intros <-. apply index_of_lookup in Ei, Ej. congruence.
Qed.

Lemma field_set_field_same t c v r :
  has_column c t = true -> length r = length (columns t) ->
  field t c (set_field t c v r) = v.
Proof.
  unfold has_column, field, set_field.
  destruct (index_of c (columns t)) as [i|] eqn:Ei; [|discriminate].
  intros _ Hlen. apply index_of_lt in Ei.
  rewrite list_lookup_insert_eq by lia. reflexivity.
Qed.

Lemma length_assign t bs r : length (assign t bs r) = length r.
Proof.
  unfold assign. revert r; induction bs as [|[c v] bs IH]; intros r; cbn; [reflexivity|].
  now rewrite IH, length_set_field.
Qed.

Lemma field_assign_other t c bs r :
  Forall (fun b => c <> b.1) bs -> field t c (assign t bs r) = field t c r.
Proof.
  unfold assign. intros H; revert r.
  induction H as [|[c' v] bs Hc _ IH]; intros r; cbn; [reflexivity|].
  rewrite IH. now apply field_set_field_other.
Qed.

Lemma sql_eq_text v n : sql_eq v (VStr n) = true -> v = VStr n.
Proof.
  destruct v; cbn; try discriminate.
  now intros ->%String.eqb_eq.
Qed.

(** ** Exactly one record per number *)

Lemma count_distinct t n rs :
  distinct_numbers t rs = true ->
  existsb (fun r => sql_eq (number_in t r) (VStr n)) rs = true ->
  length (List.filter (fun r => sql_eq (number_in t r) (VStr n)) rs) = 1%nat.
Proof.
  induction rs as [|r rs IH]; cbn; [discriminate|].
  intros [Hr Hrs]%andb_prop Hex.
  destruct (sql_eq (number_in t r) (VStr n)) eqn:E; cbn.
  - f_equal. apply sql_eq_text in E.
    rewrite E in Hr. apply negb_true_iff in Hr.
    clear IH Hex Hrs. induction rs as [|r' rs IH]; cbn; [reflexivity|].
    cbn in Hr. apply orb_false_elim in Hr as [Hr' Hrs].
    destruct (sql_eq (number_in t r') (VStr n)) eqn:E'.
    + apply sql_eq_text in E'. rewrite E' in Hr'. cbn in Hr'.
      now rewrite String.eqb_refl in Hr'.
    + now apply IH.
  - apply IH; assumption.
Qed.

Lemma known_incl t cs cs' :
  incl cs' cs -> known t cs = true -> known t cs' = true.
Proof.
  unfold known. rewrite !forallb_forall. intros Hincl H c Hc. apply H, Hincl, Hc.
Qed.

(** C5.  In a store that already holds an invoice of some number, a create
    (a save outside edit mode, of a form that passes validation) with the
    same number ends on the "Duplicate" warning, which is neither the
    "Saved" message nor a raised storage error; the store is left exactly as
    it was, and it holds exactly one record of that number. *)
Theorem duplicate_create_rejected today now f t :
  edit_mode f = false ->
  validation f = None ->
  known t invoices_columns = true ->
  distinct_numbers t (rows t) = true ->
  taken t (VStr (strip (invoice_number f))) = true ->
  save_invoice today now f (Some t) = Ok (Duplicate, Some t, None)
  /\ count_number t (strip (invoice_number f)) = 1%nat.
Proof.
  intros Hmode Hvalid Hknown Hdistinct Htaken. split.
  - rewrite save_invoice_validated, Hmode by assumption.
    unfold insert.
    assert (K : known t (fst <$> insert_bindings today now f) = true).
    { revert Hknown. apply known_incl. intros c Hc. cbn in Hc |- *. tauto. }
    rewrite K. cbn [negb].
    change (default VNone (assoc "invoice_number" (insert_bindings today now f)))
      with (VStr (strip (invoice_number f))).
    cbn [bind_param]. rewrite Htaken. reflexivity.
  - now apply count_distinct.
Qed.

(** C10.  An update (a save in edit mode) never touches the [date] column:
    whatever the form submits, every row holds afterwards the invoice date it
    held before.  The date submitted goes to [date_added] of the rows of
    that invoice number instead. *)
Theorem edit_keeps_date today now f t m s' pdf :
  edit_mode f = true ->
  save_invoice today now f (Some t) = Ok (m, s', pdf) ->
  exists t',
    s' = Some t'
    /\ columns t' = columns t
    /\ column_values "date" t' = column_values "date" t
    /\ (m = Updated -> well_formed t ->
        Forall2 (fun r r' =>
                   number_in t r = VStr (strip (invoice_number f)) ->
                   field t' "date_added" r' = VStr (submitted_date today f))
          (rows t) (rows t')).
Proof.
  intros Hmode Hsave.
  destruct (validation f) as [m0|] eqn:V.
  - rewrite (save_invoice_rejected _ _ _ _ _ V) in Hsave.
    injection Hsave as <- <- <-. exists t. repeat split.
    intros ->. apply validation_message in V as [|]; discriminate.
  - rewrite save_invoice_validated, Hmode in Hsave by assumption.
    unfold update in Hsave.
    destruct (known t _) eqn:K; [|discriminate].
    cbn [negb] in Hsave. change (Ok ?a ≫= ?k) with (k a) in Hsave.
    cbv beta in Hsave. destruct (file_name_ok _); [|discriminate].
    injection Hsave as <- <- <-.
    eexists. split; [reflexivity|]. split; [reflexivity|]. split.
    + unfold column_values. cbn [rows columns].
      rewrite <- list_fmap_compose. apply list_fmap_ext. intros _ r _.
      unfold compose. cbv beta.
      change (field {| columns := columns t; rows := ?rs; sequence := ?q |})
        with (field t).
      destruct (sql_eq _ _); [|reflexivity].
      refine (field_assign_other t "date" (update_bindings today f) r _).
      cbn. repeat (constructor; [discriminate|]). constructor.
    + intros _ Hwf. cbn [rows].
      change (field {| columns := columns t; rows := ?rs; sequence := ?q |})
        with (field t).
      unfold well_formed in Hwf.
      induction Hwf as [|r rs Hlen _ IH]; cbn; constructor; [|exact IH].
      intros Hnum. unfold number_in in Hnum. rewrite Hnum. cbn [bind_param sql_eq].
      rewrite String.eqb_refl.
      refine (field_set_field_same t "date_added" (VStr (submitted_date today f))
                (assign t (payload f) r) _ _).
      * cbn in K. now repeat (apply andb_prop in K as [? K]).
      * now rewrite length_assign.
Qed.

End Repository.

(** * The worked invoice, run *)
Section Worked.
Import Scenario.

(** The worked invoice created a second time, the day after. *)
Lemma duplicate_create_rejected_witness :
  save_invoice "2025-06-02" "2025-06-02 08:00:00" acme_form (Some stored)
  = Ok (Duplicate, Some stored, None)
  /\ count_number stored "INV-001" = 1%nat.
Proof.
  apply (duplicate_create_rejected "2025-06-02" "2025-06-02 08:00:00" acme_form stored);
    vm_compute; reflexivity.
Defined.

(** The worked invoice edited on 7 July. *)
Lemma edit_keeps_date_witness :
  exists t',
    Some edited = Some t'
    /\ columns t' = columns stored
    /\ column_values "date" t' = column_values "date" stored
    /\ (Updated = Updated -> well_formed stored ->
        Forall2 (fun r r' =>
                   number_in stored r = VStr "INV-001" ->
                   field t' "date_added" r' = VStr "2025-07-07")
          (rows stored) (rows t')).
Proof.
  apply (edit_keeps_date "2025-07-07" "2025-07-07 09:00:00" acme_edit stored
           Updated (Some edited) (Some (document "2025-07-07" acme_edit)));
    vm_compute; reflexivity.
Defined.

(** C6 (the code departs from it).  The worked invoice is created on 1 June
    at ten, then updated from the edit form with 7 July in its date field:
    the record's [date_added] no longer holds the time of creation but the
    date submitted.  The invoice number stands, and the figures follow the
    edited items. *)
Theorem update_overwrites_date_added :
  save_invoice "2025-06-01" "2025-06-01 10:00:00" acme_form (Some fresh)
  = Ok (Saved, Some stored, Some (document "2025-06-01" acme_form))
  /\ save_invoice "2025-07-07" "2025-07-07 09:00:00" acme_edit (Some stored)
     = Ok (Updated, Some edited, Some (document "2025-07-07" acme_edit))
  /\ column_values "date_added" stored = [VStr "2025-06-01 10:00:00"]
  /\ column_values "date_added" edited = [VStr "2025-07-07"]
  /\ column_values "invoice_number" edited = column_values "invoice_number" stored
  /\ (column_values "subtotal" edited, column_values "tax" edited,
      column_values "total" edited)
     = ([VFloat 700], [VFloat 91], [VFloat 791]).
Proof. repeat split; vm_compute; reflexivity. Qed.

End Worked.

(** * The renderer: preview and print *)
Section Renderer.

Implicit Types (d : gmap string value) (elems : list value) (v : value).
Implicit Types (k : string) (l : line).

(** An f-string inserts what [str] gives. *)
Lemma format_str v : format_ v = str v.
Proof. reflexivity. Qed.

Lemma append_nil_r (a : string) : a +:+ "" = a.
Proof.
  induction a as [|c a IH]; [reflexivity|].
  change (String c (a +:+ "") = String c a). congruence.
Qed.




Lemma print_item_line (drawn : list pdf_cmd) (elem : value) :
  print_item drawn elem = (l ← line_of elem; Ok (drawn ++ print_line l)).
Proof.
  unfold print_item, line_of.
  destruct (unpack3 elem) as [[[desc qty] price]| |]; try reflexivity.
  run; cbv iota.
  destruct (mul qty price) as [total| |]; try reflexivity.
  run.
  destruct (format2 price) as [price_text| |]; try reflexivity.
  run.
  destruct (format2 total) as [total_text| |]; reflexivity.
Qed.


Lemma print_items_lines elems (drawn : list pdf_cmd) :
  print_items elems drawn
  = (ls ← lines_of elems; Ok (drawn ++ concat (print_line <$> ls))).
Proof.
  revert drawn; induction elems as [|elem elems IH]; intros drawn;
    cbn [print_items lines_of].
  - run. cbn [fmap list_fmap concat].
    now rewrite app_nil_r.
  - rewrite print_item_line.
    destruct (line_of elem) as [l| |]; try reflexivity.
    run. rewrite IH.
    destruct (lines_of elems) as [ls| |]; try reflexivity.
    run. cbn [fmap list_fmap concat].
    now rewrite <- app_assoc.
Qed.

Lemma lines_of_length elems (ls : list line) :
  lines_of elems = Ok ls -> length ls = length elems.
Proof.
  revert ls; induction elems as [|elem elems IH]; intros ls; cbn [lines_of].
  - now intros [= <-].
  - intros (l & _ & H)%bind_Ok. apply bind_Ok in H as (ls' & E & [= <-]).
    cbn. f_equal. now apply IH.
Qed.



End Renderer.

(** * Records that cannot be read back *)
Section Reading.
Import Scenario.

Implicit Types (d : gmap string value) (data : list value) (k : string).


Lemma index_Ok data i v : index data i = Ok v <-> data !! i = Some v.
Proof.
  unfold index. destruct (data !! i); split; intros H; try discriminate;
    now injection H as ->.
Qed.

(** The record binds the key at each position to the value at that position
    of the row, and nothing else. *)
Lemma dict_of_by_position keys i data d :
  dict_of keys i data = Ok d -> NoDup keys ->
  forall j k, keys !! j = Some k ->
    d !! k = data !! (i + j)%nat /\ is_Some (data !! (i + j)%nat).
Proof.
  revert i d; induction keys as [|k0 keys IH]; intros i d; cbn [dict_of].
  - intros _ _ j k H. now rewrite lookup_nil in H.
  - intros (v & Hv & H)%bind_Ok Hnd. apply bind_Ok in H as (d' & Hd' & [= <-]).
    apply NoDup_cons in Hnd as [Hnotin Hnd]. apply index_Ok in Hv.
    intros [|j] k Hk; cbn in Hk.
    + injection Hk as <-. rewrite Nat.add_0_r, lookup_insert_eq, Hv. eauto.
    + assert (k0 <> k) by (intros <-; apply Hnotin; eapply list_elem_of_lookup_2, Hk).
      rewrite lookup_insert_ne by assumption.
      replace (i + S j)%nat with (S i + j)%nat by lia. now apply IH.
Qed.

Lemma dict_of_by_name keys i data d k j :
  dict_of keys i data = Ok d -> NoDup keys -> index_of k keys = Some j ->
  exists v, d !! k = Some v /\ data !! (i + j)%nat = Some v.
Proof.
  intros Hd Hnd Hk. apply index_of_lookup in Hk.
  destruct (dict_of_by_position _ _ _ _ Hd Hnd j k Hk) as [E [v Hv]].
  exists v. now rewrite E.
Qed.





(** The end-to-end example: the record read from [legacy] is shown with two
    lines and three figures, to two decimals. *)
Example legacy_figures :
  open_invoice_details 1 (Some legacy) = Ok (Viewer legacy_data legacy_html)
  /\ figures legacy_data
     = Ok ([("Labor", "10.0", "50.00", "500.00");
            ("Materials", "5.0", "20.00", "100.00")],
           "600.00", "78.00", "678.00").
Proof. split; [reflexivity | vm_compute; reflexivity]. Qed.

(** C3 (the code departs from it).  A quantity that reads [inf] is a number
    to the calculator, so the row is kept and the invoice saved; the text
    stored for the items then holds the bare name [inf], and evaluating it
    raises [NameError] instead of giving the items back. *)
Theorem infinite_quantity_is_not_read_back :
  calculate_totals endless_form
  = Ok ([("On call", infinity, 1%float)], infinity, nan, nan)
  /\ items_str [("On call", infinity, 1%float)] = "[('On call', inf, 1.0)]"
  /\ eval_ (VStr "[('On call', inf, 1.0)]") = Raise NameError
  /\ exists t pdf,
       save_invoice "2025-06-01" "2025-06-01 10:00:00" endless_form (Some fresh)
       = Ok (Saved, Some t, pdf)
       /\ column_values "items" t = [VStr "[('On call', inf, 1.0)]"].
Proof.
  split; [|split; [|split]]; try (vm_compute; reflexivity).
  eexists _, _. split; vm_compute; reflexivity.
Qed.

(** C8 (the code departs from it).  The worked invoice, stored in a table
    with the columns in the order [init_db] creates them, is fetched whole
    but read out under the wrong names: the record's [description] is the
    client's address, its [items] the client number, its [subtotal] the
    description, its [total] the subtotal, and so on; the dates and the
    client's address and number have no entry at all.  The empty client
    number, evaluated as the items, ends the opening in a [SyntaxError].  An
    id that is not stored does give the "Not Found" warning. *)
Theorem open_invoice_details_misnames_fields :
  select_by_id 1 (Some stored) = Ok (Some acme_row)
  /\ (exists d,
        dict_of invoice_data_keys 0 acme_row = Ok d
        /\ (d !! "description", field stored "description" acme_row)
           = (Some (VStr "1 Main St"), VStr "Roof repair")
        /\ (d !! "items", field stored "items" acme_row)
           = (Some (VStr ""),
              VStr "[('Labor', 10.0, 50.0), ('Materials', 5.0, 20.0)]")
        /\ (d !! "subtotal", field stored "subtotal" acme_row)
           = (Some (VStr "Roof repair"), VFloat 600)
        /\ (d !! "total", field stored "total" acme_row)
           = (Some (VFloat 600), VFloat 678)
        /\ (d !! "date", d !! "date_added", d !! "client_address",
            d !! "client_number") = (None, None, None, None))
  /\ open_invoice_details 1 (Some stored) = Raise SyntaxError
  /\ open_invoice_details 2 (Some stored) = Ok (Warned NotFound).
Proof.
  split; [vm_compute; reflexivity|]. split; [|split; vm_compute; reflexivity].
  exists stored_data. split; [reflexivity|].
  repeat split; vm_compute; reflexivity.
Qed.

End Reading.

(** * The form: rows and totals *)
Section Grid.

Implicit Types (f : form) (rows : list (cell * cell * cell)).

Lemma retained_app rows rows' :
  retained (rows ++ rows') = retained rows ++ retained rows'.
Proof. unfold retained. apply omap_app. Qed.

(** X1.  A row added with [add_item_row] is empty, so it changes nothing of
    what the form computes: the items, the three figures and the text
    [update_total] displays are those of the form before, and that text is
    the total to two decimals after ["Total: $"]. *)
Theorem add_item_row_keeps_totals f :
  calculate_totals (add_item_row f) = calculate_totals f
  /\ update_total (add_item_row f) = update_total f
  /\ update_total f = Ok ("Total: $" +:+ fixed2 (total_of f))
  /\ length (table (add_item_row f)) = S (length (table f)).
Proof.
  assert (E : calculate_totals (add_item_row f) = calculate_totals f).
  { rewrite !calculate_totals_eq. cbn [add_item_row table tax_input].
    rewrite retained_app. cbn. now rewrite app_nil_r. }
  split; [exact E|]. split; [|split].
  - unfold update_total. now rewrite E.
  - unfold update_total. rewrite calculate_totals_eq. reflexivity.
  - cbn. rewrite length_app. cbn. lia.
Qed.

End Grid.

(** * Saving: what is written, and what is left *)
Section Saving.

Implicit Types (c : string) (t : invoices) (s : store) (f : form).
Implicit Types (r : list value) (v : value) (bs : list (string * value)).

Lemma field_same_columns t rs q : field (Table (columns t) rs q) = field t.
Proof. reflexivity. Qed.

Lemma validation_None f :
  validation f = None -> filled_in f /\ retained (table f) <> [].
Proof.
  unfold validation, filled_in.
  destruct (String.eqb_spec (strip (invoice_number f)) ""); [discriminate|].
  destruct (String.eqb_spec (strip (client_name f)) ""); [discriminate|].
  destruct (String.eqb_spec (strip (description f)) ""); [discriminate|].
  cbn. destruct (retained (table f)); [discriminate|]. intros _.
  repeat split; assumption || discriminate.
Qed.

(** X2.  A form that lacks the invoice number, the client name or the
    description (blanks do not count), or has no valid row, is not saved:
    [save_invoice] ends on a warning, the store is as it was and no document
    is written.  The warning is "Missing Info" exactly when one of the three
    fields is missing, whatever the grid. *)
Theorem incomplete_form_is_not_saved today now f s :
  strip (invoice_number f) = "" \/ strip (client_name f) = ""
  \/ strip (description f) = "" \/ retained (table f) = [] ->
  exists m,
    save_invoice today now f s = Ok (m, s, None)
    /\ (m = MissingInfo \/ m = MissingItems)
    /\ (m = MissingInfo <-> ~ filled_in f).
Proof.
  intros H. destruct (validation f) as [m|] eqn:V.
  - exists m. split; [now apply save_invoice_rejected|].
    split; [now apply validation_message in V|].
    revert V. unfold validation, filled_in.
    destruct (String.eqb_spec (strip (invoice_number f)) "") as [E1|N1];
      [intros [= <-]; split; [tauto | reflexivity]|].
    destruct (String.eqb_spec (strip (client_name f)) "") as [E2|N2];
      [intros [= <-]; split; [tauto | reflexivity]|].
    destruct (String.eqb_spec (strip (description f)) "") as [E3|N3];
      [intros [= <-]; split; [tauto | reflexivity]|].
    cbn. destruct (retained (table f)); [|discriminate].
    intros [= <-]. split; [discriminate | tauto].
  - apply validation_None in V as ((N1 & N2 & N3) & N4). tauto.
Qed.

(** ** A create *)

Lemma rowid_lt_next t r : In r (rows t) -> rowid t r < next_rowid t.
Proof.
  unfold next_rowid. generalize (sequence t). induction (rows t) as [|r0 rs IH];
    intros q; cbn; [tauto|].
  intros [->|Hin]; [lia|]. specialize (IH q Hin). lia.
Qed.



(** The value an [INSERT] gives a column it names, in the row it makes. *)
Lemma field_inserted t i bs c v :
  has_column c t = true -> c <> "id" -> assoc c bs = Some v ->
  field t c ((fun c' => if String.eqb c' "id" then VInt i
                        else bind_param (default VNone (assoc c' bs))) <$> columns t)
  = bind_param v.
Proof.
  unfold has_column, field. intros Hc Hid Hv.
  destruct (index_of c (columns t)) as [j|] eqn:E; [|discriminate].
  apply index_of_lookup in E. rewrite list_lookup_fmap, E. cbn.
  destruct (String.eqb_spec c "id"); [contradiction|]. now rewrite Hv.
Qed.

Lemma field_inserted_id t i bs :
  has_column "id" t = true ->
  field t "id" ((fun c' => if String.eqb c' "id" then VInt i
                           else bind_param (default VNone (assoc c' bs))) <$> columns t)
  = VInt i.
Proof.
  unfold has_column, field. intros Hc.
  destruct (index_of "id" (columns t)) as [j|] eqn:E; [|discriminate].
  apply index_of_lookup in E. now rewrite list_lookup_fmap, E.
Qed.

Lemma known_has_column t cs c : known t cs = true -> In c cs -> has_column c t = true.
Proof. unfold known. rewrite forallb_forall. auto. Qed.


(** ** An update *)


Lemma known_written t :
  known t invoices_columns = true ->
  forall today f, known t ("invoice_number" :: (fst <$> update_bindings today f)) = true.
Proof.
  intros Hknown today f. revert Hknown. apply known_incl.
  intros c Hc. cbn in Hc |- *. tauto.
Qed.

(** What an update in edit mode does to the table, once the form is valid
    and the columns are there. *)
Lemma save_invoice_updates today now f t :
  edit_mode f = true -> validation f = None ->
  file_name_ok (document_file f) = true ->
  known t ("invoice_number" :: (fst <$> update_bindings today f)) = true ->
  save_invoice today now f (Some t)
  = Ok (Updated,
        Some (Table (columns t)
                ((fun r => if sql_eq (number_in t r) (VStr (strip (invoice_number f)))
                           then assign t (update_bindings today f) r else r)
                   <$> rows t)
                (sequence t)),
        Some (document today f)).
Proof.
  intros Hmode Hvalid Hfile K.
  rewrite save_invoice_written, Hmode by assumption.
  unfold update. rewrite K. reflexivity.
Qed.



(** X5.  An update leaves alone what it is not about: the table keeps its
    columns, its counter and the number of its rows; a row of another
    invoice number is unchanged; and no row changes its [id] or its
    [invoice_number]. *)
Theorem update_touches_only_its_invoice today now f t m s' pdf :
  edit_mode f = true ->
  save_invoice today now f (Some t) = Ok (m, s', pdf) ->
  exists t',
    s' = Some t'
    /\ columns t' = columns t
    /\ sequence t' = sequence t
    /\ Forall2 (fun r r' =>
                  (sql_eq (number_in t r) (VStr (strip (invoice_number f))) = false
                   -> r' = r)
                  /\ field t "id" r' = field t "id" r
                  /\ field t "invoice_number" r' = field t "invoice_number" r
                  /\ length r' = length r)
         (rows t) (rows t').
Proof.
  intros Hmode Hsave.
  destruct (validation f) as [m0|] eqn:V.
  - rewrite (save_invoice_rejected _ _ _ _ _ V) in Hsave.
    injection Hsave as <- <- <-. exists t. repeat split.
    induction (rows t); constructor; auto.
  - rewrite save_invoice_validated, Hmode in Hsave by assumption.
    unfold update in Hsave.
    destruct (known t _) eqn:K; [|discriminate].
    cbn [negb] in Hsave. rewrite ok_bind in Hsave.
    destruct (file_name_ok _); [|discriminate].
    injection Hsave as <- <- <-.
    eexists. split; [reflexivity|]. split; [reflexivity|]. split; [reflexivity|].
    cbn [rows bind_param]. unfold number_in.
    induction (rows t) as [|r rs IH]; cbn [fmap list_fmap]; constructor; [|exact IH].
    destruct (sql_eq _ _); [|repeat split; discriminate || reflexivity].
    split; [discriminate|]. split; [|split].
    + refine (field_assign_other t "id" (update_bindings today f) r _).
      cbn. repeat (constructor; [discriminate|]). constructor.
    + refine (field_assign_other t "invoice_number" (update_bindings today f) r _).
      cbn. repeat (constructor; [discriminate|]). constructor.
    + exact (length_assign t (update_bindings today f) r).
Qed.

(** What a [SET] clause of distinct columns leaves in each of them. *)
Lemma field_assign_each t bs r :
  NoDup (fst <$> bs) ->
  Forall (fun b => has_column b.1 t = true) bs ->
  length r = length (columns t) ->
  Forall (fun b => field t b.1 (assign t bs r) = bind_param b.2) bs.
Proof.
  intros Hnd Hcols; revert r Hnd.
  induction Hcols as [|[c v] bs Hc _ IH]; intros r Hnd Hlen; [constructor|].
  cbn in Hnd. apply NoDup_cons in Hnd as [Hnotin Hnd].
  change (assign t ((c, v) :: bs) r) with (assign t bs (set_field t c (bind_param v) r)).
  constructor.
  - cbn [fst snd]. rewrite field_assign_other.
    + now apply field_set_field_same.
    + apply List.Forall_forall. intros [c' v'] Hin Heq. cbn in Heq. subst c'.
      apply Hnotin. apply list_elem_of_fmap. exists (c, v').
      split; [reflexivity|]. now apply list_elem_of_In.
  - apply IH; [assumption|]. now rewrite length_set_field.
Qed.



(** ** The table and its columns *)

Lemma known_false t cs c :
  In c cs -> has_column c t = false -> known t cs = false.
Proof.
  intros Hin Hc. destruct (known t cs) eqn:K; [|reflexivity].
  rewrite (known_has_column _ _ _ K Hin) in Hc. discriminate.
Qed.

(** X7.  A save that passes validation raises [OperationalError] when the
    database has no [invoices] table, or a table that lacks one of the
    columns both statements write; [save_invoice] catches [IntegrityError]
    only, so the error leaves it, in a create as in an update. *)
Theorem save_without_column_raises today now f s :
  validation f = None ->
  s = None
  \/ (exists t c, s = Some t /\ In c written_columns /\ has_column c t = false) ->
  save_invoice today now f s = Raise OperationalError.
Proof.
  intros Hvalid Hs. rewrite save_invoice_validated by assumption.
  destruct Hs as [->|(t & c & -> & Hin & Hc)].
  - destruct (edit_mode f); reflexivity.
  - unfold update, insert. destruct (edit_mode f).
    + rewrite (known_false t _ c); [reflexivity| |assumption].
      cbn in Hin |- *. tauto.
    + rewrite (known_false t _ c); [reflexivity| |assumption].
      cbn in Hin |- *. tauto.
Qed.




End Saving.

(** * The worked invoice, saved and saved again *)
Section SavingWorked.
Import Scenario.

(** A form with no client name, on the stored invoice. *)
Lemma incomplete_form_is_not_saved_witness :
  exists m,
    save_invoice "2025-06-02" "2025-06-02 08:00:00" nameless_form (Some stored)
    = Ok (m, Some stored, None)
    /\ (m = MissingInfo \/ m = MissingItems)
    /\ (m = MissingInfo <-> ~ filled_in nameless_form).
Proof.
  apply (incomplete_form_is_not_saved "2025-06-02" "2025-06-02 08:00:00"
           nameless_form (Some stored)).
  right; left. vm_compute. reflexivity.
Defined.



(** The edit of the worked invoice. *)
Lemma update_touches_only_its_invoice_witness :
  exists t',
    Some edited = Some t'
    /\ columns t' = columns stored
    /\ sequence t' = sequence stored
    /\ Forall2 (fun r r' =>
                  (sql_eq (number_in stored r) (VStr (strip (invoice_number acme_edit)))
                   = false -> r' = r)
                  /\ field stored "id" r' = field stored "id" r
                  /\ field stored "invoice_number" r' = field stored "invoice_number" r
                  /\ length r' = length r)
         (rows stored) (rows t').
Proof.
  apply (update_touches_only_its_invoice "2025-07-07" "2025-07-07 09:00:00"
           acme_edit stored Updated (Some edited)
           (Some (document "2025-07-07" acme_edit)));
    vm_compute; reflexivity.
Defined.


(** The worked invoice, saved before [init_db] has run. *)
Lemma save_without_column_raises_witness :
  save_invoice "2025-06-01" "2025-06-01 10:00:00" acme_form None
  = Raise OperationalError.
Proof.
  apply (save_without_column_raises "2025-06-01" "2025-06-01 10:00:00" acme_form None);
    [vm_compute; reflexivity | now left].
Defined.


End SavingWorked.

(** * Fetching a record: by id, by position *)
Section Fetching.

Implicit Types (c k : string) (t : invoices) (s : store).
Implicit Types (r data : list value) (d : gmap string value).

Lemma find_None_Forall {A} (p : A -> bool) (l : list A) :
  List.find p l = None <-> Forall (fun x => p x = false) l.
Proof.
  induction l as [|x l IH]; cbn.
  - split; [constructor | reflexivity].
  - destruct (p x) eqn:E.
    + split; [discriminate|]. intros H. inversion H; congruence.
    + rewrite IH. split; [now constructor | intros H; now inversion H].
Qed.

Lemma select_by_id_Some invoice_id s data :
  select_by_id invoice_id s = Ok (Some data) ->
  exists t, s = Some t /\ has_column "id" t = true /\ In data (rows t)
            /\ field t "id" data = VInt invoice_id.
Proof.
  unfold select_by_id. destruct s as [t|]; [|discriminate].
  destruct (has_column "id" t) eqn:Hid; cbn [negb]; [|discriminate].
  intros [= H]. apply find_some in H as [Hin Heq].
  exists t. repeat split; try assumption.
  destruct (field t "id" data); cbn [sql_eq] in Heq; try discriminate.
  apply Z.eqb_eq in Heq. now subst.
Qed.

Lemma dict_of_other_keys keys i data d k :
  dict_of keys i data = Ok d -> ~ In k keys -> d !! k = None.
Proof.
  revert i d; induction keys as [|k0 keys IH]; intros i d; cbn [dict_of].
  - intros [= <-] _. apply lookup_empty.
  - intros (v & Hv & H)%bind_Ok Hnot. apply bind_Ok in H as (d' & Hd' & [= <-]).
    rewrite lookup_insert_ne by (intros <-; apply Hnot; now left).
    eapply IH; [eassumption|]. intros Hin. apply Hnot. now right.
Qed.

Lemma open_invoice_details_Viewer invoice_id s d html :
  open_invoice_details invoice_id s = Ok (Viewer d html) ->
  exists data,
    select_by_id invoice_id s = Ok (Some data)
    /\ dict_of invoice_data_keys 0 data = Ok d
    /\ InvoiceViewer_init d = Ok html.
Proof.
  unfold open_invoice_details. intros H.
  apply bind_Ok in H as ([data|] & Hsel & H); [|discriminate].
  apply bind_Ok in H as (d' & Hd & H). apply bind_Ok in H as (html' & Hv & [= <- <-]).
  eauto.
Qed.

(** X9.  [open_invoice_details] and the dashboard's [edit_invoice] end on the
    "Not Found" warning exactly when no row of the table has the id asked
    for. *)
Theorem not_found_iff_no_row today invoice_id t :
  has_column "id" t = true ->
  (open_invoice_details invoice_id (Some t) = Ok (Warned NotFound)
   <-> Forall (fun r => sql_eq (field t "id" r) (VInt invoice_id) = false) (rows t))
  /\ (DashboardWidget_edit_invoice today invoice_id (Some t) = Ok (EditWarned NotFound)
      <-> Forall (fun r => sql_eq (field t "id" r) (VInt invoice_id) = false) (rows t)).
Proof.
  intros Hid. rewrite <- find_None_Forall.
  unfold open_invoice_details, DashboardWidget_edit_invoice, select_by_id.
  rewrite Hid. cbn [negb]. run.
  destruct (List.find _ (rows t)) as [data|]; split; split;
    try reflexivity; try discriminate.
  - destruct (dict_of invoice_data_keys 0 data) as [d| |]; try discriminate. run.
    destruct (InvoiceViewer_init d); discriminate.
  - destruct (dict_of invoice_data_keys 0 data) as [d| |]; try discriminate. run.
    destruct (InvoiceForm_init today (Some d) true) as [[f shown]| |]; discriminate.
Qed.

(** X10.  The record [open_invoice_details] hands to the viewer is read off
    the fetched row by position: the key at place [i] of the twelve is bound
    to the value at place [i] of the row, whatever the column there is
    called, and the record has no other key, so no [date], [date_added],
    [client_address] or [client_number]. *)
Theorem open_invoice_details_by_position invoice_id s d html :
  open_invoice_details invoice_id s = Ok (Viewer d html) ->
  exists data,
    select_by_id invoice_id s = Ok (Some data)
    /\ (forall i k, invoice_data_keys !! i = Some k ->
          d !! k = data !! i /\ is_Some (data !! i))
    /\ (forall k, ~ In k invoice_data_keys -> d !! k = None)
    /\ d !! "date" = None /\ d !! "date_added" = None
    /\ d !! "client_address" = None /\ d !! "client_number" = None.
Proof.
  intros (data & Hsel & Hd & _)%open_invoice_details_Viewer.
  exists data. split; [assumption|]. split; [|split].
  - intros i k Hk. apply (dict_of_by_position _ 0 _ _ Hd); [compute_done | assumption].
  - intros k Hk. exact (dict_of_other_keys _ _ _ _ _ Hd Hk).
  - repeat split; apply (dict_of_other_keys _ _ _ _ _ Hd); cbn;
      intros H; repeat (destruct H as [H|H]; [discriminate|]); exact H.
Qed.

(** X11.  On a table whose first twelve columns are the original twelve, in
    their order (a database from before the upgrades, whatever was added
    since), the record [open_invoice_details] builds is rightly named: each
    of its twelve keys is bound to what the fetched row holds in the column
    of that name. *)
Theorem original_layout_is_read_right invoice_id t d html :
  original_columns `prefix_of` columns t ->
  open_invoice_details invoice_id (Some t) = Ok (Viewer d html) ->
  exists data,
    In data (rows t)
    /\ field t "id" data = VInt invoice_id
    /\ forall k, In k original_columns -> d !! k = Some (field t k data).
Proof.
  intros [rest Hcols] (data & Hsel & Hd & _)%open_invoice_details_Viewer.
  apply select_by_id_Some in Hsel as (t0 & [= <-] & _ & Hin & Hid).
  exists data. split; [assumption|]. split; [assumption|].
  intros k Hk.
  destruct (index_of k original_columns) as [j|] eqn:E;
    [|apply index_of_None in E; contradiction].
  destruct (dict_of_by_name invoice_data_keys 0 data d k j Hd) as (v & -> & Hv);
    [compute_done | exact E |].
  unfold field. rewrite Hcols, (index_of_app_l _ _ rest _ E).
  cbn in Hv. now rewrite Hv.
Qed.

(** The value of a column that holds text is at the column's place. *)
Lemma field_text t c r j txt :
  index_of c (columns t) = Some j -> field t c r = VStr txt -> r !! j = Some (VStr txt).
Proof.
  unfold field. intros ->. destruct (r !! j); cbn; [congruence | discriminate].
Qed.

(** X12.  On a table with the columns in the order [init_db] creates them,
    and on every run the model covers, [open_invoice_details] on an invoice
    the program has saved ends in an exception: the description text of the
    row, fetched where the subtotal used to be, cannot be formatted as an
    amount, if nothing has been raised before; neither the viewer nor the
    "Not Found" warning comes up.  The runs the model does not cover are
    those in which the client number, which is evaluated in the place of the
    items, is text outside the fragment of Python modelled: it is then run
    as code, and nothing is said of what follows. *)
Theorem new_layout_viewer_raises invoice_id t data desc :
  columns t = invoices_columns ->
  select_by_id invoice_id (Some t) = Ok (Some data) ->
  field t "description" data = VStr desc ->
  open_invoice_details invoice_id (Some t) <> Unmodelled ->
  exists e, open_invoice_details invoice_id (Some t) = Raise e.
Proof.
  intros Hcols Hsel Hdesc Hcovered.
  destruct (open_invoice_details invoice_id (Some t)) as [o|e|] eqn:H;
    [exfalso|now exists e|contradiction].
  unfold open_invoice_details in H. rewrite Hsel in H. rewrite ?ok_bind in H. cbv beta iota in H.
  apply bind_Ok in H as (d & Hd & H). apply bind_Ok in H as (html & Hv & _).
  assert (Hsub : d !! "subtotal" = Some (VStr desc)).
  { destruct (dict_of_by_name invoice_data_keys 0 data d "subtotal" 5 Hd) as (v & -> & Hv');
      [compute_done | reflexivity |].
    cbn in Hv'. rewrite <- Hv'. apply (field_text t "description"); [|assumption].
    now rewrite Hcols. }
  unfold InvoiceViewer_init in Hv.
  next Hv Enumber. next Hv Eblob. next Hv Eval. next Hv Eiter. next Hv Erows.
  cbv zeta in Hv.
  next Hv Ename. next Hv Eaddr. next Hv Econtact. next Hv Enumber'.
  next Hv Eclient. next Hv Eemail. next Hv Edesc. next Hv Esub.
  unfold getitem in Esub. rewrite Hsub in Esub. discriminate.
Qed.

(** X13.  Whatever invoice the dashboard opens, the viewer shows no invoice
    date and no client address or number, stored or not: the preview is the
    page with an empty date and without the two optional lines, and the
    document exported from it is drawn with the three left empty. *)
Theorem dashboard_viewer_shows_no_date invoice_id s d html :
  open_invoice_details invoice_id s = Ok (Viewer d html) ->
  (exists company_name company_address company_contact number client_name email
          description items_html subtotal tax total,
     html = preview_page company_name company_address company_contact number ""
              client_name "" "" email description items_html subtotal tax total)
  /\ (forall doc, print_invoice d = Ok doc ->
      exists number name desc comp_name comp_addr comp_contact email rest,
        doc = print_head number name desc comp_name comp_addr comp_contact
                (VStr "") (VStr "") (VStr "") email ++ rest).
Proof.
  intros (data & Hsel & Hd & Hv)%open_invoice_details_Viewer.
  assert (Hnone : forall k, ~ In k invoice_data_keys -> d !! k = None)
    by (intros k Hk; exact (dict_of_other_keys _ _ _ _ _ Hd Hk)).
  assert (Hdate : d !! "date" = None)
    by (apply Hnone; cbn; intros H; repeat (destruct H as [H|H]; [discriminate|]); exact H).
  assert (Haddr : d !! "client_address" = None)
    by (apply Hnone; cbn; intros H; repeat (destruct H as [H|H]; [discriminate|]); exact H).
  assert (Hnum : d !! "client_number" = None)
    by (apply Hnone; cbn; intros H; repeat (destruct H as [H|H]; [discriminate|]); exact H).
  split.
  - unfold InvoiceViewer_init in Hv.
    next Hv Enumber. next Hv Eblob. next Hv Eval. next Hv Eiter. next Hv Erows.
    cbv zeta in Hv.
    next Hv Ename. next Hv Eaddr. next Hv Econtact. next Hv Enumber'.
    next Hv Eclient. next Hv Eemail. next Hv Edesc.
    next Hv Esub. next Hv Etax. next Hv Etotal.
    injection Hv as <-.
    unfold optional_line, get. rewrite Hdate, Haddr, Hnum. cbn [default truthy format_].
    do 11 eexists. reflexivity.
  - intros doc Hp. unfold print_invoice in Hp.
    next Hp Eblob. next Hp Eval. next Hp Enumber. next Hp Ename. next Hp Edesc.
    next Hp Esub. next Hp Etax. next Hp Etotal. next Hp Ecn. next Hp Eca.
    next Hp Ecc. cbv zeta in Hp. next Hp Eiter.
    rewrite print_items_lines in Hp. next Hp Edrawn.
    apply bind_Ok in Edrawn as (ls & Els & [= <-]).
    next Hp Fsub. next Hp Ftax. next Hp Ftotal.
    unfold pdf_output in Hp. destruct (file_name_ok _); [|discriminate].
    assert (Hdoc : forall calls, Ok calls = Ok doc -> calls = doc)
      by (intros calls; congruence).
    apply Hdoc in Hp as <-.
    unfold get. rewrite Hdate, Haddr, Hnum. cbn [default].
    rewrite <- (app_assoc _ (print_tail _ _ _)). cbn [app].
    rewrite <- (app_assoc _ (concat _)).
    do 8 eexists. reflexivity.
Qed.

(** ** Deleting *)

Lemma open_invoice_details_absent invoice_id t :
  has_column "id" t = true ->
  List.find (fun r => sql_eq (field t "id" r) (VInt invoice_id)) (rows t) = None ->
  open_invoice_details invoice_id (Some t) = Ok (Warned NotFound).
Proof.
  intros Hid Hnone. unfold open_invoice_details, select_by_id.
  rewrite Hid. cbn [negb]. run. now rewrite Hnone.
Qed.

Lemma find_filter_same {A} (p : A -> bool) (l : list A) :
  List.find p (List.filter (fun x => negb (p x)) l) = None.
Proof.
  induction l as [|x l IH]; cbn; [reflexivity|].
  destruct (p x) eqn:E; cbn; [assumption|]. now rewrite E.
Qed.

Lemma find_filter_other {A} (p q : A -> bool) (l : list A) :
  (forall x, q x = true -> p x = false) ->
  List.find p (List.filter (fun x => negb (q x)) l) = List.find p l.
Proof.
  intros H. induction l as [|x l IH]; cbn; [reflexivity|].
  destruct (q x) eqn:E; cbn.
  - now rewrite (H x E).
  - now rewrite IH.
Qed.

Lemma filter_all {A} (p : A -> bool) (l : list A) :
  Forall (fun x => p x = false) l -> List.filter (fun x => negb (p x)) l = l.
Proof.
  induction 1 as [|x l Hx _ IH]; cbn; [reflexivity|]. now rewrite Hx, IH.
Qed.

(** X14.  Deleting an invoice on the dashboard, once confirmed, ends on the
    "Deleted" message and removes the rows of that id and nothing else: the
    id is "Not Found" afterwards, every other id is fetched as before, the
    columns and the id counter stand, and deleting an id that is not stored
    leaves the table as it was, under the same message.  Answering no
    changes nothing. *)
Theorem deleted_invoice_is_gone invoice_id t :
  has_column "id" t = true ->
  exists t',
    DashboardWidget_delete_invoice true invoice_id (Some t) = Ok (Some Deleted, Some t')
    /\ open_invoice_details invoice_id (Some t') = Ok (Warned NotFound)
    /\ (forall j, j <> invoice_id ->
        select_by_id j (Some t') = select_by_id j (Some t))
    /\ columns t' = columns t
    /\ sequence t' = sequence t
    /\ (Forall (fun r => sql_eq (field t "id" r) (VInt invoice_id) = false) (rows t)
        -> t' = t)
    /\ DashboardWidget_delete_invoice false invoice_id (Some t) = Ok (None, Some t).
Proof.
  intros Hid.
  exists (Table (columns t)
            (List.filter (fun r => negb (sql_eq (field t "id" r) (VInt invoice_id)))
               (rows t))
            (sequence t)).
  split; [|split; [|split; [|split; [|split; [|split]]]]]; try reflexivity.
  - unfold DashboardWidget_delete_invoice, delete_invoice, delete_by_id.
    now rewrite Hid.
  - apply open_invoice_details_absent; [exact Hid|]. cbn [rows].
    rewrite field_same_columns. apply find_filter_same.
  - intros j Hj. unfold select_by_id.
    change (has_column "id" (Table (columns t) ?rs ?q)) with (has_column "id" t).
    rewrite Hid. cbn [negb rows]. rewrite field_same_columns. f_equal.
    apply find_filter_other. intros r Hr.
    destruct (field t "id" r); cbn in Hr |- *; try discriminate.
    apply Z.eqb_eq in Hr. subst. now apply Z.eqb_neq.
  - intros Hnone. rewrite filter_all by assumption. now destruct t.
Qed.

(** X15.  On a table whose first column is [id], the viewer's Delete button
    deletes the invoice the viewer was opened on: it does what the
    dashboard's does for that id.  Answering no changes nothing. *)
Theorem viewer_deletes_the_invoice_shown invoice_id t d html :
  index_of "id" (columns t) = Some 0%nat ->
  open_invoice_details invoice_id (Some t) = Ok (Viewer d html) ->
  InvoiceViewer_delete_invoice true d (Some t)
  = DashboardWidget_delete_invoice true invoice_id (Some t)
  /\ InvoiceViewer_delete_invoice false d (Some t) = Ok (None, Some t).
Proof.
  intros Hfirst (data & Hsel & Hd & _)%open_invoice_details_Viewer.
  split; [|reflexivity].
  apply select_by_id_Some in Hsel as (t0 & [= <-] & _ & Hin & Hid).
  destruct (dict_of_by_name invoice_data_keys 0 data d "id" 0 Hd) as (v & Hv & Hv');
    [compute_done | reflexivity |].
  assert (v = VInt invoice_id) as ->.
  { revert Hid. unfold field. rewrite Hfirst. cbn in Hv'. now rewrite Hv'. }
  unfold InvoiceViewer_delete_invoice, DashboardWidget_delete_invoice,
    delete_invoice, getitem.
  rewrite Hv. run. cbn [delete_by_value].
  destruct (delete_by_id invoice_id (Some t)); reflexivity.
Qed.

End Fetching.

(** * The worked invoice, fetched *)
Section FetchingWorked.
Import Scenario.

Lemma not_found_iff_no_row_witness :
  (open_invoice_details 2 (Some stored) = Ok (Warned NotFound)
   <-> Forall (fun r => sql_eq (field stored "id" r) (VInt 2) = false) (rows stored))
  /\ (DashboardWidget_edit_invoice "2025-07-07" 2 (Some stored) = Ok (EditWarned NotFound)
      <-> Forall (fun r => sql_eq (field stored "id" r) (VInt 2) = false) (rows stored)).
Proof. apply (not_found_iff_no_row "2025-07-07" 2 stored). reflexivity. Defined.

Lemma open_legacy : open_invoice_details 1 (Some legacy) = Ok (Viewer legacy_data legacy_html).
Proof. reflexivity. Qed.

Lemma open_invoice_details_by_position_witness :
  exists data,
    select_by_id 1 (Some legacy) = Ok (Some data)
    /\ (forall i k, invoice_data_keys !! i = Some k ->
          legacy_data !! k = data !! i /\ is_Some (data !! i))
    /\ (forall k, ~ In k invoice_data_keys -> legacy_data !! k = None)
    /\ legacy_data !! "date" = None /\ legacy_data !! "date_added" = None
    /\ legacy_data !! "client_address" = None /\ legacy_data !! "client_number" = None.
Proof.
  apply (open_invoice_details_by_position 1 (Some legacy) legacy_data legacy_html).
  reflexivity.
Defined.

Lemma original_layout_is_read_right_witness :
  exists data,
    In data (rows legacy)
    /\ field legacy "id" data = VInt 1
    /\ forall k, In k original_columns -> legacy_data !! k = Some (field legacy k data).
Proof.
  apply (original_layout_is_read_right 1 legacy legacy_data legacy_html);
    [now exists upgrades | reflexivity].
Defined.

Lemma new_layout_viewer_raises_witness :
  exists e, open_invoice_details 1 (Some stored) = Raise e.
Proof.
  apply (new_layout_viewer_raises 1 stored acme_row "Roof repair");
    try reflexivity.
  vm_compute. discriminate.
Defined.

Lemma dashboard_viewer_shows_no_date_witness :
  (exists company_name company_address company_contact number client_name email
          description items_html subtotal tax total,
     legacy_html
     = preview_page company_name company_address company_contact number ""
         client_name "" "" email description items_html subtotal tax total)
  /\ (forall doc, print_invoice legacy_data = Ok doc ->
      exists number name desc comp_name comp_addr comp_contact email rest,
        doc = print_head number name desc comp_name comp_addr comp_contact
                (VStr "") (VStr "") (VStr "") email ++ rest).
Proof.
  apply (dashboard_viewer_shows_no_date 1 (Some legacy) legacy_data legacy_html).
  reflexivity.
Defined.

Lemma deleted_invoice_is_gone_witness :
  exists t',
    DashboardWidget_delete_invoice true 1 (Some stored) = Ok (Some Deleted, Some t')
    /\ open_invoice_details 1 (Some t') = Ok (Warned NotFound)
    /\ (forall j, j <> 1 -> select_by_id j (Some t') = select_by_id j (Some stored))
    /\ columns t' = columns stored
    /\ sequence t' = sequence stored
    /\ (Forall (fun r => sql_eq (field stored "id" r) (VInt 1) = false) (rows stored)
        -> t' = stored)
    /\ DashboardWidget_delete_invoice false 1 (Some stored) = Ok (None, Some stored).
Proof. apply (deleted_invoice_is_gone 1 stored). reflexivity. Defined.

Lemma viewer_deletes_the_invoice_shown_witness :
  InvoiceViewer_delete_invoice true legacy_data (Some legacy)
  = DashboardWidget_delete_invoice true 1 (Some legacy)
  /\ InvoiceViewer_delete_invoice false legacy_data (Some legacy) = Ok (None, Some legacy).
Proof.
  apply (viewer_deletes_the_invoice_shown 1 legacy legacy_data legacy_html);
    reflexivity.
Defined.

End FetchingWorked.

(** * The form an edit opens *)
Section Editing.

Implicit Types (d : gmap string value) (f : form) (t : invoices) (s : store).
Implicit Types (elems : list value) (rows : list (cell * cell * cell)).

(** What [InvoiceForm.__init__] has put in the form it returns. *)
Lemma InvoiceForm_init_Ok today d e f shown :
  InvoiceForm_init today (Some d) e = Ok (f, shown) ->
  edit_mode f = e
  /\ QLineEdit (get d "invoice_number" (VStr "")) = Ok (invoice_number f)
  /\ QLineEdit (get d "client_name" (VStr "")) = Ok (client_name f)
  /\ QLineEdit (get d "client_address" (VStr "")) = Ok (client_address f)
  /\ QLineEdit (get d "client_number" (VStr "")) = Ok (client_number f)
  /\ QTextEdit (get d "description" (VStr "")) = Ok (description f)
  /\ QLineEdit (VStr (str (get d "tax_rate" (VStr "0")))) = Ok (tax_input f)
  /\ QLineEdit (get d "email" (VStr "")) = Ok (email f)
  /\ QLineEdit (get d "date" (VStr today)) = Ok (date f)
  /\ match d !! "items" with
     | Some blob =>
         (items ← eval_ blob; n ← len items; elems ← iterate items;
          prefill_rows 0 elems (set_row_count n (replicate 5 (None, None, None))))
         = Ok (table f)
     | None => table f = replicate 5 (None, None, None)
     end
  /\ update_total f = Ok shown.
Proof.
  unfold InvoiceForm_init. cbv zeta. change (default ∅ (Some d)) with d. intros H.
  next H Ecn. next H Eca. next H Ecc. next H Enumber. next H Ename.
  next H Eaddr. next H Enum. next H Edesc. next H Etax. next H Eemail.
  next H Edate. next H Etable. next H Eshown. injection H as <- <-.
  cbn [edit_mode invoice_number client_name client_address client_number
       description tax_input email date table].
  repeat (split; [assumption || reflexivity|]).
  split; [|assumption].
  destruct (d !! "items"); [assumption | now injection Etable as <-].
Qed.

Lemma QLineEdit_text (txt txt' : string) : QLineEdit (VStr txt) = Ok txt' -> txt' = txt.
Proof. unfold QLineEdit. destruct (_ <=? _); [now intros [= <-] | discriminate]. Qed.

Lemma rate_of_zero : rate_of "0" = 0%float.
Proof. vm_compute. reflexivity. Qed.

(** The form opened on a record that lacks the four keys. *)
Lemma prefill_without_keys today d e f shown :
  d !! "tax_rate" = None -> d !! "date" = None ->
  d !! "client_address" = None -> d !! "client_number" = None ->
  InvoiceForm_init today (Some d) e = Ok (f, shown) ->
  edit_mode f = e /\ tax_input f = "0" /\ date f = today
  /\ client_address f = "" /\ client_number f = ""
  /\ tax_of f = (subtotal_of f * (0 / 100))%float.
Proof.
  intros Htax Hdate Haddr Hnum
    (He & _ & _ & Eaddr & Enum & _ & Etax & _ & Edate & _)%InvoiceForm_init_Ok.
  unfold get in Eaddr, Enum, Etax, Edate.
  rewrite Haddr in Eaddr. rewrite Hnum in Enum. rewrite Htax in Etax.
  rewrite Hdate in Edate. cbn [default str] in Eaddr, Enum, Etax, Edate.
  apply QLineEdit_text in Eaddr, Enum, Etax, Edate.
  repeat (split; [assumption|]).
  unfold tax_of. now rewrite Etax, rate_of_zero.
Qed.

Lemma not_a_key d keys i data k :
  dict_of keys i data = Ok d -> existsb (String.eqb k) keys = false -> d !! k = None.
Proof.
  intros Hd Hk. apply (dict_of_other_keys _ _ _ _ _ Hd). intros Hin.
  assert (existsb (String.eqb k) keys = true); [|congruence].
  apply existsb_exists. exists k. split; [assumption | apply String.eqb_refl].
Qed.

Lemma edit_invoice_Form today invoice_id s f shown :
  DashboardWidget_edit_invoice today invoice_id s = Ok (EditForm f shown) ->
  exists data d,
    select_by_id invoice_id s = Ok (Some data)
    /\ dict_of invoice_data_keys 0 data = Ok d
    /\ InvoiceForm_init today (Some d) true = Ok (f, shown).
Proof.
  unfold DashboardWidget_edit_invoice. intros H.
  apply bind_Ok in H as ([data|] & Hsel & H); [|discriminate].
  apply bind_Ok in H as (d & Hd & H).
  apply bind_Ok in H as ([f' shown'] & Hf & [= <- <-]). eauto.
Qed.


(** X16.  The form an edit opens, from the dashboard or from the viewer,
    never shows what the record does not carry: whatever is stored, the tax
    rate reads ["0"], the date is today's, and the client's address and
    number are empty; so unless the user types the rate again, the tax
    computed for the invoice is the subtotal times zero. *)
Theorem edit_form_forgets_tax_and_date today invoice_id s f shown :
  DashboardWidget_edit_invoice today invoice_id s = Ok (EditForm f shown)
  \/ (exists d html,
        open_invoice_details invoice_id s = Ok (Viewer d html)
        /\ InvoiceViewer_edit_invoice today d = Ok (f, shown)) ->
  edit_mode f = true /\ tax_input f = "0" /\ date f = today
  /\ client_address f = "" /\ client_number f = ""
  /\ tax_of f = (subtotal_of f * (0 / 100))%float.
Proof.
  intros [(data & d & _ & Hd & Hf)%edit_invoice_Form
         |(d & html & (data & _ & Hd & _)%open_invoice_details_Viewer & Hf)];
    (apply (prefill_without_keys today d true f shown);
     [apply (not_a_key _ _ _ _ _ Hd); reflexivity ..| exact Hf]).
Qed.

(** ** The grid of the form *)

Lemma length_chars (txt : string) : length (chars txt) = String.length txt.
Proof. induction txt as [|c txt IH]; cbn; [reflexivity | now rewrite IH]. Qed.

Lemma len_iterate (v : value) (n : nat) elems :
  len v = Ok n -> iterate v = Ok elems -> n = length elems.
Proof.
  destruct v; cbn; try discriminate; intros [= <-] [= <-];
    [now rewrite length_chars | reflexivity | reflexivity].
Qed.

Lemma set_row_count_new (n : nat) :
  set_row_count n (replicate 5 (None, None, None)) = replicate n (None, None, None).
Proof.
  unfold set_row_count. rewrite take_replicate, length_replicate, <- replicate_add.
  f_equal. lia.
Qed.

Lemma set_item_at (col : nat) (txt : string) rows (x : cell * cell * cell) rows' :
  set_item (length rows) col txt (rows ++ x :: rows')
  = rows ++ (let '(a, b, c) := x in
             match col with
             | O => (Some txt, b, c)
             | S O => (a, Some txt, c)
             | _ => (a, b, Some txt)
             end) :: rows'.
Proof.
  unfold set_item. rewrite <- (Nat.add_0_r (length rows)) at 1.
  now rewrite alter_app_r.
Qed.

(** The loop fills one row per item and touches no other. *)
Lemma prefill_rows_filled elems : forall rows rows',
  prefill_rows (length rows) elems
    (rows ++ replicate (length elems) (None, None, None)) = Ok rows' ->
  exists filled,
    rows' = rows ++ filled
    /\ Forall2 (fun elem row =>
                  exists desc qty price,
                    unpack3 elem = Ok (VStr desc, qty, price)
                    /\ row = (Some desc, Some (str qty), Some (str price)))
         elems filled.
Proof.
  induction elems as [|elem elems IH]; intros rows rows'; cbn [prefill_rows length replicate].
  - rewrite app_nil_r. intros [= <-]. exists []. split; [now rewrite app_nil_r | constructor].
  - intros H. apply bind_Ok in H as ([[desc qty] price] & Hun & H).
    apply bind_Ok in H as (desc_text & Hdesc & H).
    destruct desc; try discriminate. injection Hdesc as ->.
    rewrite !set_item_at in H. cbv iota beta zeta in H.
    rewrite cons_middle, app_assoc in H.
    replace (S (length rows)) with (length (rows ++ [(Some desc_text, Some (str qty), Some (str price))])) in H
      by (rewrite length_app; cbn; lia).
    apply IH in H as (filled & -> & Hall).
    eexists. split; [now rewrite <- app_assoc|].
    constructor; [eauto | exact Hall].
Qed.

(** X17.  The grid of a form opened on a record: with no [items] in the
    record it is the five empty rows; with [items], their text has been
    evaluated and the grid has exactly one row per item, in order, holding
    the item's description and the [str] of its quantity and of its price.
    The total displayed is that of the grid, to two decimals. *)
Theorem prefilled_grid today d e f shown :
  InvoiceForm_init today (Some d) e = Ok (f, shown) ->
  match d !! "items" with
  | None => table f = replicate 5 (None, None, None)
  | Some blob =>
      exists items elems,
        eval_ blob = Ok items
        /\ iterate items = Ok elems
        /\ Forall2 (fun elem row =>
                      exists desc qty price,
                        unpack3 elem = Ok (VStr desc, qty, price)
                        /\ row = (Some desc, Some (str qty), Some (str price)))
             elems (table f)
  end
  /\ shown = "Total: $" +:+ fixed2 (total_of f).
Proof.
  intros (_ & _ & _ & _ & _ & _ & _ & _ & _ & Htable & Hshown)%InvoiceForm_init_Ok.
  split.
  - destruct (d !! "items") as [blob|]; [|assumption].
    apply bind_Ok in Htable as (items & Heval & H).
    apply bind_Ok in H as (n & Hlen & H). apply bind_Ok in H as (elems & Hiter & H).
    rewrite set_row_count_new, (len_iterate _ _ _ Hlen Hiter) in H.
    apply (prefill_rows_filled elems []) in H as (filled & -> & Hall).
    exists items, elems. auto.
  - unfold update_total in Hshown. rewrite calculate_totals_eq in Hshown.
    cbv zeta in Hshown. rewrite ok_bind in Hshown. now injection Hshown as <-.
Qed.


End Editing.

(** * The worked invoice, edited *)
Section EditingWorked.
Import Scenario.

Lemma edit_form_forgets_tax_and_date_witness :
  edit_mode legacy_edit_form = true /\ tax_input legacy_edit_form = "0"
  /\ date legacy_edit_form = "2025-07-07"
  /\ client_address legacy_edit_form = "" /\ client_number legacy_edit_form = ""
  /\ tax_of legacy_edit_form = (subtotal_of legacy_edit_form * (0 / 100))%float.
Proof.
  apply (edit_form_forgets_tax_and_date "2025-07-07" 1 (Some legacy) legacy_edit_form
           "Total: $600.00").
  left. vm_compute. reflexivity.
Defined.

Lemma prefilled_grid_witness :
  match legacy_data !! "items" with
  | None => table legacy_edit_form = replicate 5 (None, None, None)
  | Some blob =>
      exists items elems,
        eval_ blob = Ok items
        /\ iterate items = Ok elems
        /\ Forall2 (fun elem row =>
                      exists desc qty price,
                        unpack3 elem = Ok (VStr desc, qty, price)
                        /\ row = (Some desc, Some (str qty), Some (str price)))
             elems (table legacy_edit_form)
  end
  /\ "Total: $600.00" = "Total: $" +:+ fixed2 (total_of legacy_edit_form).
Proof.
  apply (prefilled_grid "2025-07-07" legacy_data true legacy_edit_form "Total: $600.00").
  vm_compute. reflexivity.
Defined.


End EditingWorked.

(** * The dashboard: the search pattern *)
Section Search.

Implicit Types (p s : string) (c d : ascii).

Lemma lower_lower c : lower (lower c) = lower c.
Proof. destruct c as [[] [] [] [] [] [] [] []]; reflexivity. Qed.

Lemma lower_string_cons c s :
  lower_string (String c s) = String (lower c) (lower_string s).
Proof. reflexivity. Qed.

Lemma append_nil_l s : "" +:+ s = s.
Proof. reflexivity. Qed.

Lemma append_cons c s s' : String c s +:+ s' = String c (s +:+ s').
Proof. reflexivity. Qed.

Lemma lower_string_app s s' :
  lower_string (s +:+ s') = lower_string s +:+ lower_string s'.
Proof.
  induction s as [|c s IH]; [reflexivity|].
  rewrite append_cons, !lower_string_cons, IH. reflexivity.
Qed.

Lemma lower_string_lower s : lower_string (lower_string s) = lower_string s.
Proof.
  induction s as [|c s IH]; [reflexivity|].
  now rewrite !lower_string_cons, lower_lower, IH.
Qed.

(** [%] at the head of a pattern: the rest matches some end of the text. *)
Lemma like_percent p s : like (String "%" p) s = some_suffix (like p) s.
Proof.
  induction s as [|c s IH]; [reflexivity|].
  cbn [some_suffix]. rewrite <- IH. reflexivity.
Qed.

Lemma some_suffix_true (ok : string -> bool) s :
  some_suffix ok s = true <-> exists before after, s = before +:+ after /\ ok after = true.
Proof.
  induction s as [|c s IH]; cbn [some_suffix].
  - rewrite orb_false_r. split.
    + intros H. now exists "", "".
    + intros ([|c b] & a & E & H); [|discriminate]. rewrite append_nil_l in E. now subst a.
  - rewrite orb_true_iff, IH. split.
    + intros [H|(b & a & -> & H)]; [now exists "", (String c s)|].
      now exists (String c b), a.
    + intros ([|c' b] & a & E & H);
        [rewrite append_nil_l in E; left; now subst a|].
      rewrite append_cons in E. injection E as -> ->. right. eauto.
Qed.

Lemma like_percent_only s : like "%" s = true.
Proof.
  rewrite like_percent. apply some_suffix_true. exists s, "". split; [|reflexivity].
  induction s as [|c s IH]; [reflexivity|]. now rewrite append_cons, <- IH.
Qed.

(** A pattern that starts with letters and no wildcard: the text starts with
    the same letters, in either case. *)
Lemma like_literal p rest s :
  has_char "%" p = false -> has_char "_" p = false ->
  like (p +:+ rest) s = true
  <-> exists q s', s = q +:+ s' /\ lower_string q = lower_string p /\ like rest s' = true.
Proof.
  revert s. induction p as [|c p IH]; intros s Hp Hu.
  - rewrite append_nil_l. split.
    + intros H. now exists "", s.
    + intros ([|d q] & s' & -> & E & H); [exact H | discriminate].
  - cbn [has_char] in Hp, Hu. apply orb_false_elim in Hp as [Hc Hp], Hu as [Hc' Hu].
    rewrite append_cons. cbn [like]. rewrite Ascii.eqb_sym, Hc.
    destruct s as [|d s].
    + split; [discriminate|]. intros ([|d q] & s' & E & E' & _); discriminate.
    + rewrite (Ascii.eqb_sym c), Hc'. cbn [orb]. rewrite andb_true_iff, (IH s Hp Hu).
      split.
      * intros [Hcd%Ascii.eqb_eq (q & s' & -> & E & H)].
        exists (String d q), s'. rewrite !lower_string_cons, Hcd, E. auto.
      * intros ([|d' q] & s' & E & E' & H); [discriminate|].
        rewrite append_cons in E. injection E as <- ->. rewrite !lower_string_cons in E'.
        injection E' as Hcd E'. split; [apply Ascii.eqb_eq; congruence | eauto].
Qed.

(** The search of the dashboard, on lowered text: the pattern [%p%] with no
    wildcard in [p] finds the texts [p] occurs in. *)
Lemma like_occurs p s :
  has_char "%" p = false -> has_char "_" p = false ->
  lower_string p = p -> lower_string s = s ->
  like ("%" +:+ p +:+ "%") s = true <-> occurs p s.
Proof.
  intros Hp Hu Lp Ls. rewrite append_cons, append_nil_l, like_percent, some_suffix_true.
  split.
  - intros (b & a & E & (q & s' & -> & Eq & _)%like_literal); [|assumption..].
    exists (lower_string b), (lower_string s').
    rewrite <- Ls, E, !lower_string_app, Eq, Lp. reflexivity.
  - intros (b & a & ->). exists b, (p +:+ a). split; [reflexivity|].
    apply like_literal; [assumption..|]. exists p, a.
    split; [reflexivity|]. split; [reflexivity | apply like_percent_only].
Qed.

End Search.

(** * The dashboard: the listing *)
Section Listing.

Implicit Types (t : invoices) (s : store) (r row : list value).
Implicit Types (rs kept rows : list (list value)) (search : string).
Implicit Types (shown : list (list string * list value)).

Lemma where_Ok (cond : list value -> result bool) rs kept :
  where_ cond rs = Ok kept ->
  sublist kept rs
  /\ Forall (fun r => cond r = Ok true) kept
  /\ Forall (fun r => exists k, cond r = Ok k /\ (k = true -> In r kept)) rs.
Proof.
  revert kept. induction rs as [|r rs IH]; intros kept H.
  - injection H as <-. repeat constructor.
  - cbn [where_] in H. apply bind_Ok in H as (k & Hk & H).
    apply bind_Ok in H as (kept' & Hkept & [= <-]).
    destruct (IH kept' Hkept) as (Hsub & Htrue & Hall).
    split; [|split].
    + destruct k; now constructor.
    + destruct k; [constructor|]; assumption.
    + constructor.
      * exists k. split; [assumption|]. intros ->. now left.
      * revert Hall. apply List.Forall_impl. intros r' (k' & Hk' & Hin).
        exists k'. split; [assumption|]. intros E. specialize (Hin E).
        destruct k; [now right | assumption].
Qed.

Lemma insert_desc_perm t r rs : insert_desc t r rs ≡ₚ r :: rs.
Proof.
  induction rs as [|r' rs IH]; cbn [insert_desc]; [reflexivity|].
  destruct (_ <? _); [reflexivity|]. rewrite IH. apply Permutation_swap.
Qed.

Lemma order_by_id_desc_perm t rs : order_by_id_desc t rs ≡ₚ rs.
Proof.
  unfold order_by_id_desc. induction rs as [|r rs IH]; cbn [fold_right]; [reflexivity|].
  now rewrite insert_desc_perm, IH.
Qed.

Lemma insert_desc_sorted t r rs :
  StronglySorted (fun r1 r2 => rowid t r2 <= rowid t r1) rs ->
  StronglySorted (fun r1 r2 => rowid t r2 <= rowid t r1) (insert_desc t r rs).
Proof.
  induction 1 as [|r' rs Hs IH Hall]; cbn [insert_desc]; [repeat constructor|].
  destruct (Z.ltb_spec (rowid t r') (rowid t r)).
  - constructor; [now constructor|]. constructor; [lia|].
    revert Hall. apply List.Forall_impl. intros; lia.
  - constructor; [assumption|].
    apply (Permutation_Forall (Permutation_sym (insert_desc_perm t r rs))).
    constructor; [lia | assumption].
Qed.

Lemma order_by_id_desc_sorted t rs :
  StronglySorted (fun r1 r2 => rowid t r2 <= rowid t r1) (order_by_id_desc t rs).
Proof.
  unfold order_by_id_desc. induction rs as [|r rs IH]; cbn [fold_right]; [constructor|].
  now apply insert_desc_sorted.
Qed.

(** The texts of the six cells of a listed row. *)
Lemma listing_cells_listed t r :
  listing_cells 0 (listed t r)
  = total ← format2 (field t "total" r);
    added ← (if truthy (field t "date_added" r)
             then date_added_text (field t "date_added" r)
             else Ok (str (field t "date_added" r)));
    Ok [str (field t "id" r); str (field t "invoice_number" r);
        str (field t "client_name" r); "$" +:+ total; str (field t "email" r); added].
Proof.
  cbn [listed listed_columns fmap list_fmap listing_cells Nat.eqb]. unfold listing_cell.
  cbn [Nat.eqb andb]. rewrite !ok_bind.
  destruct (format2 (field t "total" r)); [|reflexivity..]. rewrite !ok_bind.
  destruct (truthy (field t "date_added" r)); [|reflexivity].
  destruct (date_added_text (field t "date_added" r)); reflexivity.
Qed.

Lemma listing_Ok rows shown :
  listing rows = Ok shown ->
  snd <$> shown = rows
  /\ Forall (fun line => listing_cells 0 line.2 = Ok line.1) shown.
Proof.
  revert shown. induction rows as [|row rows IH]; intros shown H.
  - injection H as <-. split; [reflexivity | constructor].
  - cbn [listing] in H. apply bind_Ok in H as (texts & Htexts & H).
    apply bind_Ok in H as (shown' & Hshown & [= <-]).
    destruct (IH shown' Hshown) as [E Hall]. split.
    + cbn. now rewrite E.
    + now constructor.
Qed.

Lemma rowid_columns t t' r : columns t' = columns t -> rowid t' r = rowid t r.
Proof. unfold rowid, field. now intros ->. Qed.

Lemma insert_desc_columns t t' r rs :
  columns t' = columns t -> insert_desc t' r rs = insert_desc t r rs.
Proof.
  intros E. induction rs as [|r' rs IH]; cbn [insert_desc]; [reflexivity|].
  now rewrite !(rowid_columns t t') , IH.
Qed.

Lemma order_by_id_desc_columns t t' rs :
  columns t' = columns t -> order_by_id_desc t' rs = order_by_id_desc t rs.
Proof.
  intros E. unfold order_by_id_desc. induction rs as [|r rs IH]; cbn [fold_right]; [reflexivity|].
  now rewrite IH, (insert_desc_columns t t').
Qed.

(** The row of the highest [id] is listed first. *)
Lemma order_by_id_desc_newest t rs r :
  Forall (fun r0 => rowid t r0 < rowid t r) rs ->
  order_by_id_desc t (rs ++ [r]) = r :: order_by_id_desc t rs.
Proof.
  unfold order_by_id_desc. rewrite fold_right_app. cbn [fold_right insert_desc].
  induction 1 as [|r0 rs Hr0 _ IH]; cbn [fold_right]; [reflexivity|].
  rewrite IH. cbn [insert_desc].
  destruct (Z.ltb_spec (rowid t r) (rowid t r0)); [lia | reflexivity].
Qed.

Lemma listing_cons (row : list value) (rows : list (list value)) :
  listing (row :: rows)
  = texts ← listing_cells 0 row; shown ← listing rows; Ok ((texts, row) :: shown).
Proof. reflexivity. Qed.

(** What a listing that returned has gone through. *)
Lemma load_data_Ok search t shown :
  load_data search (Some t) = Ok shown ->
  known t listed_columns = true
  /\ exists kept,
       (if String.eqb (lower_string (strip search)) "" then kept = rows t
        else where_ (matches t ("%" +:+ lower_string (strip search) +:+ "%")) (rows t)
             = Ok kept)
       /\ listing (listed t <$> order_by_id_desc t kept) = Ok shown.
Proof.
  unfold load_data, select_listing. cbv zeta. intros H.
  apply bind_Ok in H as (fetched & Hsel & H).
  destruct (known t listed_columns); [|discriminate]. split; [reflexivity|].
  cbn [negb] in Hsel. apply bind_Ok in Hsel as (kept & Hkept & [= <-]).
  exists kept. split; [|exact H].
  destruct (String.eqb _ ""); [now injection Hkept as <- | exact Hkept].
Qed.

Lemma lower_string_empty (x : string) : lower_string x = "" -> x = "".
Proof. destruct x; [reflexivity | discriminate]. Qed.

(** X19.  The dashboard lists the newest first: the rows of the listing are
    stored rows, each at most once per row stored, by descending [id]; with
    an empty search (blanks do not count) they are all the rows of the
    table.  Every line of the listing has six texts. *)
Theorem dashboard_lists_newest_first search t shown :
  load_data search (Some t) = Ok shown ->
  exists kept,
    snd <$> shown = listed t <$> kept
    /\ StronglySorted (fun r1 r2 => rowid t r2 <= rowid t r1) kept
    /\ kept ⊆+ rows t
    /\ (strip search = "" -> kept ≡ₚ rows t)
    /\ Forall (fun line => length line.1 = 6%nat) shown.
Proof.
  intros (_ & kept & Hkept & Hlist)%load_data_Ok.
  apply listing_Ok in Hlist as [Hsnd Hall].
  exists (order_by_id_desc t kept).
  split; [assumption|]. split; [apply order_by_id_desc_sorted|]. split; [|split].
  - rewrite order_by_id_desc_perm.
    destruct (String.eqb _ ""); [now subst kept|].
    apply where_Ok in Hkept as [Hsub _]. now apply sublist_submseteq.
  - intros E. rewrite E in Hkept. cbn in Hkept. subst kept.
    apply order_by_id_desc_perm.
  - rewrite List.Forall_forall in Hall |- *. intros line Hin.
    specialize (Hall line Hin).
    apply (in_map snd) in Hin. change (In line.2 (snd <$> shown)) in Hin.
    rewrite Hsnd in Hin.
    apply in_map_iff in Hin as (r & E & _). rewrite <- E, listing_cells_listed in Hall.
    apply bind_Ok in Hall as (total & _ & H).
    apply bind_Ok in H as (added & _ & [= <-]). reflexivity.
Qed.

End Listing.

(** * The dashboard: what a search finds *)
Section Searching.

Implicit Types (t : invoices) (s : store) (r row : list value).
Implicit Types (rs kept rows : list (list value)) (search p : string).
Implicit Types (shown : list (list string * list value)).

(** What the search condition says of a row that holds two texts. *)
Lemma matches_Ok t p r number name k :
  matches t p r = Ok k ->
  field t "invoice_number" r = VStr number ->
  field t "client_name" r = VStr name ->
  k = like p (lower_string number) || like p (lower_string name).
Proof.
  unfold matches, lower_like. intros H E1 E2. rewrite E1, E2 in H.
  destruct (negb (plain_text p) || _); [discriminate|].
  destruct (plain_text number); [|discriminate].
  destruct (plain_text name); [|discriminate].
  now injection H as <-.
Qed.

Lemma listed_same_texts t r r' :
  listed t r' = listed t r ->
  field t "invoice_number" r' = field t "invoice_number" r
  /\ field t "client_name" r' = field t "client_name" r.
Proof. intros [= _ H1 H2 _]. auto. Qed.

(** X20.  A search text without [%] and [_] finds the invoices whose number
    or client name contains it, letters in either case: of a row that holds
    text in both columns, the listing has the line exactly when the search
    text, stripped and lowered, occurs in the lowered number or in the
    lowered name. *)
Theorem search_finds_what_contains_the_text search t shown r number name :
  load_data search (Some t) = Ok shown ->
  lower_string (strip search) <> "" ->
  has_char "%" (lower_string (strip search)) = false ->
  has_char "_" (lower_string (strip search)) = false ->
  In r (rows t) ->
  field t "invoice_number" r = VStr number ->
  field t "client_name" r = VStr name ->
  In (listed t r) (snd <$> shown)
  <-> occurs (lower_string (strip search)) (lower_string number)
      \/ occurs (lower_string (strip search)) (lower_string name).
Proof.
  intros (_ & kept & Hkept & Hlist)%load_data_Ok Hp Hpc Hu Hin Hnumber Hname.
  apply listing_Ok in Hlist as [-> _].
  apply String.eqb_neq in Hp. rewrite Hp in Hkept.
  apply where_Ok in Hkept as (_ & Htrue & Hall).
  rewrite List.Forall_forall in Htrue, Hall.
  destruct (Hall r Hin) as (k & Hk & Hkeep).
  pose proof (matches_Ok _ _ _ _ _ _ Hk Hnumber Hname) as Ek.
  rewrite <- !like_occurs, <- orb_true_iff, <- Ek
    by (assumption || apply lower_string_lower).
  split.
  - intros (r' & E & Hr')%in_map_iff.
    apply (Permutation_in _ (order_by_id_desc_perm t kept)) in Hr'.
    apply listed_same_texts in E as [E1 E2].
    specialize (Htrue r' Hr'). unfold matches in Htrue, Hk.
    rewrite E1, E2 in Htrue. congruence.
  - intros ->. apply in_map.
    apply (Permutation_in _ (Permutation_sym (order_by_id_desc_perm t kept))). auto.
Qed.

(** ** Wildcards in the search text *)

Lemma like_percents_end p :
  forallb (Ascii.eqb "%") (list_ascii_of_string p) = true -> like (p +:+ "%") "" = true.
Proof.
  induction p as [|c p IH]; [reflexivity|]. cbn [list_ascii_of_string forallb].
  intros [<-%Ascii.eqb_eq H]%andb_prop.
  rewrite append_cons, like_percent. cbn [some_suffix]. now rewrite IH.
Qed.

Lemma like_percents p (text : string) :
  forallb (Ascii.eqb "%") (list_ascii_of_string p) = true ->
  like ("%" +:+ p +:+ "%") text = true.
Proof.
  intros H. rewrite append_cons, append_nil_l, like_percent.
  apply some_suffix_true. exists text, "".
  split; [|now apply like_percents_end].
  clear H. induction text as [|c text IH]; [reflexivity|].
  now rewrite append_cons, <- IH.
Qed.

Lemma where_keeps_all (cond : list value -> result bool) rs kept :
  where_ cond rs = Ok kept ->
  (forall r k, In r rs -> cond r = Ok k -> k = true) ->
  kept = rs.
Proof.
  revert kept. induction rs as [|r rs IH]; intros kept H Hall.
  - now injection H as <-.
  - cbn [where_] in H. apply bind_Ok in H as (k & Hk & H).
    apply bind_Ok in H as (kept' & Hkept & [= <-]).
    rewrite (Hall r k) by (assumption || now left).
    f_equal. apply IH; [assumption|]. intros r' k' Hin. apply Hall. now right.
Qed.

(** X21.  The search text is handed to [LIKE] as it is typed, so a [%] in it
    is a wildcard and not a percent sign: when the search text is made of
    [%] only, every invoice that has a number is found, and the listing is
    that of an empty search. *)
Theorem percent_sign_finds_every_invoice search t shown :
  load_data search (Some t) = Ok shown ->
  lower_string (strip search) <> "" ->
  forallb (Ascii.eqb "%") (list_ascii_of_string (lower_string (strip search))) = true ->
  Forall (fun r => exists number, field t "invoice_number" r = VStr number) (rows t) ->
  load_data "" (Some t) = Ok shown.
Proof.
  intros (Hlisted & kept & Hkept & Hlist)%load_data_Ok Hp Hall Hnumbers.
  apply String.eqb_neq in Hp. rewrite Hp in Hkept.
  apply where_keeps_all in Hkept.
  - subst kept. unfold load_data, select_listing. cbv zeta.
    change (String.eqb (lower_string (strip "")) "") with true. cbv iota.
    rewrite Hlisted. cbn [negb]. rewrite !ok_bind. exact Hlist.
  - intros r k Hin Hk. rewrite List.Forall_forall in Hnumbers.
    destruct (Hnumbers r Hin) as [number Hnumber].
    unfold matches, lower_like in Hk. rewrite Hnumber in Hk.
    destruct (negb (plain_text _) || _); [discriminate|].
    destruct (plain_text number); [|discriminate].
    rewrite like_percents, ok_bind in Hk by assumption.
    apply bind_Ok in Hk as (by_name & _ & [= <-]). reflexivity.
Qed.

(** The row a line of the listing is bound to, and what it shows of it. *)
Lemma load_data_line search t shown texts row :
  load_data search (Some t) = Ok shown ->
  In (texts, row) shown ->
  exists r total added,
    In r (rows t) /\ row = listed t r
    /\ format2 (field t "total" r) = Ok total
    /\ texts = [str (field t "id" r); str (field t "invoice_number" r);
                str (field t "client_name" r); "$" +:+ total;
                str (field t "email" r); added]
    /\ (field t "date_added" r = VNone -> added = "None")
    /\ (forall text, field t "date_added" r = VStr text -> strptime text = None ->
        added = text).
Proof.
  intros (_ & kept & Hkept & Hlist)%load_data_Ok Hin.
  apply listing_Ok in Hlist as [Hsnd Hall].
  rewrite List.Forall_forall in Hall. specialize (Hall _ Hin). cbn [fst snd] in Hall.
  apply (in_map snd) in Hin. change (In row (snd <$> shown)) in Hin.
  rewrite Hsnd in Hin. apply in_map_iff in Hin as (r & <- & Hr).
  apply (Permutation_in _ (order_by_id_desc_perm t kept)) in Hr.
  assert (Hrow : In r (rows t)).
  { destruct (String.eqb _ ""); [now subst kept|].
    apply where_Ok in Hkept as (Hsub%sublist_submseteq & _).
    apply list_elem_of_In. apply (elem_of_submseteq _ _ _ (proj2 (list_elem_of_In _ _) Hr) Hsub). }
  rewrite listing_cells_listed in Hall.
  apply bind_Ok in Hall as (total & Htotal & H).
  apply bind_Ok in H as (added & Hadded & [= <-]).
  exists r, total, added. repeat split; try assumption.
  - intros E. rewrite E in Hadded. now injection Hadded as <-.
  - intros text E Hs. rewrite E in Hadded. unfold date_added_text in Hadded.
    rewrite Hs in Hadded. destruct (truthy (VStr text)); now injection Hadded as <-.
Qed.

(** X22.  What a line of the listing shows of the row it is bound to: the
    [str] of the [id], of the number, of the client and of the e-mail, the
    total to two decimals after [$], and the date added; a [NULL] date
    (an invoice from before the column was added) shows as [None], and a
    date text that does not read as a date and a time shows as it is. *)
Theorem listing_line_shows_the_row search t shown texts row :
  load_data search (Some t) = Ok shown ->
  In (texts, row) shown ->
  exists r total added,
    In r (rows t) /\ row = listed t r
    /\ format2 (field t "total" r) = Ok total
    /\ texts = [str (field t "id" r); str (field t "invoice_number" r);
                str (field t "client_name" r); "$" +:+ total;
                str (field t "email" r); added]
    /\ (field t "date_added" r = VNone -> added = "None")
    /\ (forall text, field t "date_added" r = VStr text -> strptime text = None ->
        added = text).
Proof. apply load_data_line. Qed.

(** A listing that returns has formatted every total. *)
Lemma load_data_total search t shown r :
  load_data search (Some t) = Ok shown ->
  strip search = "" ->
  In r (rows t) ->
  exists total, format2 (field t "total" r) = Ok total.
Proof.
  intros (_ & kept & Hkept & Hlist)%load_data_Ok E Hin.
  rewrite E in Hkept. cbn in Hkept. subst kept.
  apply listing_Ok in Hlist as [Hsnd Hall].
  apply (Permutation_in _ (Permutation_sym (order_by_id_desc_perm t (rows t)))) in Hin.
  apply (in_map (listed t)) in Hin.
  change (In (listed t r) (listed t <$> order_by_id_desc t (rows t))) in Hin.
  rewrite <- Hsnd in Hin.
  apply in_map_iff in Hin as (line & Eline & Hline).
  rewrite List.Forall_forall in Hall. specialize (Hall line Hline).
  rewrite Eline, listing_cells_listed in Hall.
  apply bind_Ok in Hall as (total & H & _). eauto.
Qed.

End Searching.

(** * Creates, the listing and the ids *)
Section Creating.

Implicit Types (t : invoices) (s : store) (f g : form) (r : list value).
Implicit Types (bs : list (string * value)) (search : string).

(** A save that said "Saved" has passed validation and inserted. *)
Lemma save_invoice_Saved today now f s s' pdf :
  edit_mode f = false ->
  save_invoice today now f s = Ok (Saved, s', pdf) ->
  validation f = None /\ insert (insert_bindings today now f) s = Ok s'.
Proof.
  intros Hmode H. destruct (validation f) as [m|] eqn:V.
  - rewrite (save_invoice_rejected _ _ _ _ _ V) in H. injection H as -> _ _.
    apply validation_message in V as [|]; discriminate.
  - split; [reflexivity|].
    rewrite save_invoice_validated, Hmode in H by reflexivity || assumption.
    destruct (insert _ s) as [s1|e|]; cbn in H.
    + destruct (file_name_ok _); [|discriminate]. now injection H as ->.
    + destruct (decide (e = IntegrityError)); discriminate.
    + discriminate.
Qed.

(** The table an [INSERT] leaves. *)
Lemma insert_Ok bs t s' :
  insert bs (Some t) = Ok s' ->
  known t (fst <$> bs) = true
  /\ s' = Some (Table (columns t)
                  (rows t ++ [(fun c => if String.eqb c "id" then VInt (next_rowid t)
                                        else bind_param (default VNone (assoc c bs)))
                                <$> columns t])
                  (next_rowid t)).
Proof.
  unfold insert. destruct (known t _); [|discriminate]. cbn [negb].
  destruct (taken t _); [discriminate|]. now intros [= <-].
Qed.

(** X23.  An invoice whose total is not a number stops the dashboard: once a
    create has saved it (the total is stored as [NULL]), [load_data] with an
    empty search raises [TypeError], on whatever table the invoice was
    saved: the invoice has the highest [id], so its line comes first, and
    its total cannot be formatted.  (Were the table without an [id] column,
    the listing would raise [OperationalError].) *)
Theorem nan_total_breaks_the_dashboard today now f t s' pdf search :
  edit_mode f = false ->
  is_nan (total_of f) = true ->
  save_invoice today now f (Some t) = Ok (Saved, s', pdf) ->
  strip search = "" ->
  load_data search s'
  = Raise (if has_column "id" t then TypeError else OperationalError).
Proof.
  intros Hmode Hnan [_ [Hknown ->]%insert_Ok]%save_invoice_Saved Hsearch; [|assumption].
  set (r := (fun c => if String.eqb c "id" then VInt (next_rowid t)
                      else bind_param (default VNone (assoc c (insert_bindings today now f))))
            <$> columns t).
  assert (Hcol : forall c, In c (fst <$> insert_bindings today now f) ->
                           has_column c t = true)
    by (intros c; now apply known_has_column).
  assert (Htotal : field t "total" r = VNone).
  { unfold r. rewrite (field_inserted _ _ _ _ (VFloat (total_of f)));
      [cbn [bind_param]; now rewrite Hnan | apply Hcol; cbn; tauto
      | discriminate | reflexivity]. }
  unfold load_data. cbv zeta. rewrite Hsearch.
  change (String.eqb (lower_string "") "") with true. cbv iota.
  unfold select_listing.
  change (known (Table (columns t) ?rs ?q) listed_columns) with (known t listed_columns).
  assert (Hlisted : known t listed_columns = has_column "id" t).
  { unfold known. cbn [listed_columns forallb].
    rewrite (Hcol "invoice_number"), (Hcol "client_name"), (Hcol "total"),
      (Hcol "email"), (Hcol "date_added") by (cbn; tauto).
    now destruct (has_column "id" t). }
  rewrite Hlisted. destruct (has_column "id" t) eqn:Hid; [|reflexivity].
  cbn [negb rows]. rewrite !ok_bind.
  change (listing (listed t <$> order_by_id_desc (Table (columns t) (rows t ++ [r]) (next_rowid t))
                                  (rows t ++ [r]))
          = Raise TypeError).
  rewrite (order_by_id_desc_columns t) by reflexivity.
  rewrite order_by_id_desc_newest.
  - rewrite fmap_cons, listing_cons, listing_cells_listed, Htotal. reflexivity.
  - apply List.Forall_forall. intros r0 Hr0. unfold rowid at 2.
    unfold r. rewrite field_inserted_id by assumption. now apply rowid_lt_next.
Qed.

Lemma sequence_lt_next t : sequence t < next_rowid t.
Proof.
  unfold next_rowid. induction (rowid t <$> rows t) as [|i l IH]; cbn; lia.
Qed.

Lemma has_column_columns t t' c : columns t' = columns t -> has_column c t' = has_column c t.
Proof. unfold has_column. now intros ->. Qed.

(** The row an [INSERT] adds takes the next rowid, which becomes the
    counter. *)
Lemma insert_new_id bs t t' :
  insert bs (Some t) = Ok (Some t') ->
  has_column "id" t = true ->
  exists r,
    rows t' = rows t ++ [r] /\ columns t' = columns t
    /\ sequence t' = next_rowid t /\ rowid t' r = next_rowid t.
Proof.
  intros [_ [= ->]]%insert_Ok Hid. eexists. repeat split.
  unfold rowid. rewrite field_same_columns, field_inserted_id by assumption. reflexivity.
Qed.

Lemma delete_invoice_Ok j t t' m :
  DashboardWidget_delete_invoice true j (Some t) = Ok (m, Some t') ->
  has_column "id" t = true /\ columns t' = columns t /\ sequence t' = sequence t.
Proof.
  unfold DashboardWidget_delete_invoice, delete_invoice, delete_by_id.
  destruct (has_column "id" t); [|discriminate]. intros [= _ <-]. auto.
Qed.

(** X24.  An [id] is not handed out twice: after a create, a confirmed
    delete of any invoice (the one just created included) and another
    create, the new invoice has an [id] above that of every invoice that was
    stored before the delete. *)
Theorem ids_are_not_reused today now today' now' f g t t1 t2 t3 pdf pdf' m j :
  edit_mode f = false ->
  save_invoice today now f (Some t) = Ok (Saved, Some t1, pdf) ->
  DashboardWidget_delete_invoice true j (Some t1) = Ok (m, Some t2) ->
  edit_mode g = false ->
  save_invoice today' now' g (Some t2) = Ok (Saved, Some t3, pdf') ->
  exists r3,
    rows t3 = rows t2 ++ [r3]
    /\ Forall (fun r => rowid t1 r < rowid t3 r3) (rows t1).
Proof.
  intros Hf [_ Hins1]%save_invoice_Saved (Hid1 & Hcols2 & Hseq2)%delete_invoice_Ok
         Hg [_ Hins3]%save_invoice_Saved; [|assumption..].
  assert (Hid : has_column "id" t = true).
  { apply insert_Ok in Hins1 as [_ [= ->]]. exact Hid1. }
  apply insert_new_id in Hins1 as (r1 & Hrows1 & Hcols1 & Hseq1 & Hr1); [|assumption].
  apply insert_new_id in Hins3 as (r3 & Hrows3 & Hcols3 & Hseq3 & Hr3);
    [|now rewrite (has_column_columns t1 t2)].
  exists r3. split; [assumption|].
  pose proof (sequence_lt_next t2) as Hlt.
  rewrite Hr3, Hrows1. apply Forall_app. split.
  - apply List.Forall_forall. intros r Hin. rewrite (rowid_columns t t1) by assumption.
    pose proof (rowid_lt_next t r Hin). lia.
  - constructor; [lia | constructor].
Qed.

End Creating.

(** * The date added *)
Section Dates.

Implicit Types (s r : string) (dt : datetime).

(** The year as [strftime] writes it is read back by [%Y]. *)
Lemma years_read_back :
  forallb (fun y => match year_field (pretty y) with
                    | Some (y', "") => (y' =? y) && (String.length (pretty y) =? 4)%nat
                    | _ => false
                    end) (seqZ 1000 9000) = true.
Proof. vm_compute. reflexivity. Qed.

Lemma year_field_app s r :
  String.length s = 4%nat ->
  year_field (s +:+ r) = (fun '(y, s') => (y, s' +:+ r)) <$> year_field s.
Proof.
  destruct s as [|a [|b [|c [|d [|e s]]]]]; try discriminate. intros _.
  rewrite !append_cons, append_nil_l. cbn [year_field].
  destruct (_ && _); reflexivity.
Qed.

Lemma year_field_pretty y r :
  1000 <= y <= 9999 -> year_field (pretty y +:+ r) = Some (y, r).
Proof.
  intros Hy. pose proof years_read_back as H. rewrite forallb_forall in H.
  specialize (H y). 
  assert (Hin : In y (seqZ 1000 9000)) by (apply list_elem_of_In, elem_of_seqZ; lia).
  specialize (H Hin).
  destruct (year_field (pretty y)) as [[y' [|]]|] eqn:E; try discriminate.
  apply andb_prop in H as [->%Z.eqb_eq Hlen%Nat.eqb_eq].
  now rewrite year_field_app, E.
Qed.

(** The same for the fields of two digits, value by value. *)
Tactic Notation "each_value" ident(k) integer(n) :=
  do n (destruct k as [|k]; [first [vm_compute; repeat split; reflexivity | lia]|]); lia.

Lemma month_field_zpad (k : nat) r :
  (1 <= k <= 12)%nat -> month_field (zpad 2 (Z.of_nat k) +:+ r) = Some (Z.of_nat k, r).
Proof. intros H. each_value k 13. Qed.

Lemma day_field_zpad (k : nat) r :
  (1 <= k <= 31)%nat -> day_field (zpad 2 (Z.of_nat k) +:+ r) = Some (Z.of_nat k, r).
Proof. intros H. each_value k 32. Qed.

Lemma hour_field_zpad (k : nat) r :
  (k <= 23)%nat ->
  blanks (" " +:+ zpad 2 (Z.of_nat k) +:+ r) = Some (zpad 2 (Z.of_nat k) +:+ r)
  /\ hour_field (zpad 2 (Z.of_nat k) +:+ r) = Some (Z.of_nat k, r).
Proof. intros H. each_value k 24. Qed.

Lemma minute_field_zpad (k : nat) r :
  (k <= 59)%nat -> minute_field (zpad 2 (Z.of_nat k) +:+ r) = Some (Z.of_nat k, r).
Proof. intros H. each_value k 60. Qed.

Lemma second_field_zpad (k : nat) r :
  (k <= 59)%nat -> second_field (zpad 2 (Z.of_nat k) +:+ r) = Some (Z.of_nat k, r).
Proof. intros H. each_value k 60. Qed.

Lemma expect_same (c : ascii) r : expect c (String c r) = Some r.
Proof. unfold expect. now rewrite Ascii.eqb_refl. Qed.

Lemma days_in_month_31 y m : days_in_month y m <= 31.
Proof.
  unfold days_in_month. destruct (m =? 2); [destruct (is_leap y); lia|].
  destruct (_ || _); lia.
Qed.

Lemma strptime_written y (m d hh mi ss : nat) :
  1000 <= y <= 9999 -> (1 <= m <= 12)%nat ->
  (1 <= d)%nat -> Z.of_nat d <= days_in_month y (Z.of_nat m) ->
  (hh <= 23)%nat -> (mi <= 59)%nat -> (ss <= 59)%nat ->
  strptime (pretty y +:+ "-" +:+ zpad 2 (Z.of_nat m) +:+ "-" +:+ zpad 2 (Z.of_nat d)
            +:+ " " +:+ zpad 2 (Z.of_nat hh) +:+ ":" +:+ zpad 2 (Z.of_nat mi)
            +:+ ":" +:+ zpad 2 (Z.of_nat ss))
  = Some (Datetime y (Z.of_nat m) (Z.of_nat d) (Z.of_nat hh) (Z.of_nat mi) (Z.of_nat ss)).
Proof.
  intros Hy Hm Hd Hdim Hh Hmi Hs.
  pose proof (days_in_month_31 y (Z.of_nat m)).
  unfold strptime.
  rewrite year_field_pretty by assumption. cbn [mbind option_bind].
  rewrite append_cons, append_nil_l, expect_same. cbn [mbind option_bind].
  rewrite month_field_zpad by assumption. cbn [mbind option_bind].
  rewrite append_cons, append_nil_l, expect_same. cbn [mbind option_bind].
  rewrite day_field_zpad by lia. cbn [mbind option_bind].
  destruct (hour_field_zpad hh (":" +:+ zpad 2 (Z.of_nat mi) +:+ ":" +:+ zpad 2 (Z.of_nat ss)) Hh)
    as [Hblanks Hhour].
  rewrite Hblanks. cbn [mbind option_bind]. rewrite Hhour. cbn [mbind option_bind].
  rewrite append_cons, append_nil_l, expect_same. cbn [mbind option_bind].
  rewrite minute_field_zpad by assumption. cbn [mbind option_bind].
  rewrite append_cons, append_nil_l, expect_same. cbn [mbind option_bind].
  rewrite <- (append_nil_r (zpad 2 (Z.of_nat ss))), second_field_zpad by assumption.
  cbn [mbind option_bind String.eqb andb].
  destruct (Z.leb_spec 1 y); [|lia].
  destruct (Z.leb_spec (Z.of_nat d) (days_in_month y (Z.of_nat m))); [|lia].
  destruct (Z.leb_spec (Z.of_nat ss) 59); [|lia].
  reflexivity.
Qed.

(** What [strftime] writes, [strptime] reads back. *)
Lemma strptime_strftime dt :
  valid_datetime dt -> 1000 <= year dt ->
  exists s, strftime dt = Ok s /\ strptime s = Some dt.
Proof.
  destruct dt as [y m d hh mi ss]. unfold valid_datetime, strftime.
  cbn [year month day hour minute second].
  intros (Hy & Hm & Hd & Hh & Hmi & Hs) Hy'.
  destruct (Z.ltb_spec y 1000); [lia|]. eexists. split; [reflexivity|].
  destruct (Z_of_nat_complete m) as [m' ->]; [lia|].
  destruct (Z_of_nat_complete d) as [d' ->]; [lia|].
  destruct (Z_of_nat_complete hh) as [hh' ->]; [lia|].
  destruct (Z_of_nat_complete mi) as [mi' ->]; [lia|].
  destruct (Z_of_nat_complete ss) as [ss' ->]; [lia|].
  apply strptime_written; lia.
Qed.

(** ** What [strptime] accepts *)

Lemma is_digit_val (c : ascii) : is_digit c = true -> 0 <= digit_val c <= 9.
Proof. unfold is_digit, digit_val. rewrite andb_true_iff, !Z.leb_le. lia. Qed.

Lemma digits12_Some (two : Z -> Z -> bool) (one : Z -> bool) s v r :
  digits12 two one s = Some (v, r) ->
  (exists a b, 0 <= a <= 9 /\ 0 <= b <= 9 /\ two a b = true /\ v = 10 * a + b)
  \/ (0 <= v <= 9 /\ one v = true).
Proof.
  unfold digits12. destruct s as [|a s]; [discriminate|].
  destruct (is_digit a) eqn:Ha; [|discriminate]. apply is_digit_val in Ha.
  destruct s as [|b s].
  - destruct (one (digit_val a)) eqn:E; [|discriminate]. intros [= <- <-]. now right.
  - destruct (is_digit b) eqn:Hb; cbn [andb].
    + apply is_digit_val in Hb. destruct (two _ _) eqn:E.
      * intros [= <- <-]. left. eauto 10.
      * destruct (one (digit_val a)) eqn:E'; [|discriminate]. intros [= <- <-]. now right.
    + destruct (one (digit_val a)) eqn:E'; [|discriminate]. intros [= <- <-]. now right.
Qed.

Ltac to_arith H :=
  rewrite ?orb_true_iff, ?andb_true_iff, ?Z.leb_le, ?Z.eqb_eq in H.

Lemma month_field_Some s v r : month_field s = Some (v, r) -> 1 <= v <= 12.
Proof.
  intros [(a & b & Ha & Hb & H & ->)|[Hv H]]%digits12_Some; to_arith H; lia.
Qed.

Lemma hour_field_Some s v r : hour_field s = Some (v, r) -> 0 <= v <= 23.
Proof.
  intros [(a & b & Ha & Hb & H & ->)|[Hv H]]%digits12_Some; to_arith H; lia.
Qed.

Lemma minute_field_Some s v r : minute_field s = Some (v, r) -> 0 <= v <= 59.
Proof.
  intros [(a & b & Ha & Hb & H & ->)|[Hv H]]%digits12_Some; to_arith H; lia.
Qed.

Lemma second_field_Some s v r : second_field s = Some (v, r) -> 0 <= v <= 61.
Proof.
  intros [(a & b & Ha & Hb & H & ->)|[Hv H]]%digits12_Some; to_arith H; lia.
Qed.

Lemma day_field_Some s v r : day_field s = Some (v, r) -> 1 <= v <= 31.
Proof.
  assert (Hd : forall s, digits12 (fun a b => ((a =? 3) && (b <=? 1)) || ((1 <=? a) && (a <=? 2))
                           || ((a =? 0) && (1 <=? b)))
               (fun a => 1 <=? a) s = Some (v, r) -> 1 <= v <= 31).
  { intros s' [(a & b & Ha & Hb & H & ->)|[Hv H]]%digits12_Some; to_arith H; lia. }
  destruct s as [|c [|a s]]; [discriminate | |].
  - destruct c as [[] [] [] [] [] [] [] []]; apply Hd.
  - destruct (Ascii.eqb_spec c " ") as [->|Hc].
    + cbn [day_field]. destruct (is_digit a) eqn:Ha; [|discriminate].
      apply is_digit_val in Ha. cbn [andb].
      destruct (Z.leb_spec 1 (digit_val a)); [|discriminate]. intros [= <- <-]. lia.
    + destruct c as [[] [] [] [] [] [] [] []]; try apply Hd. contradiction.
Qed.

Lemma year_field_Some s v r : year_field s = Some (v, r) -> 0 <= v <= 9999.
Proof.
  destruct s as [|a [|b [|c [|d s]]]]; try discriminate. cbn [year_field].
  destruct (is_digit a) eqn:Ha; [|discriminate].
  destruct (is_digit b) eqn:Hb; [|discriminate].
  destruct (is_digit c) eqn:Hc; [|discriminate].
  destruct (is_digit d) eqn:Hd; [|discriminate].
  apply is_digit_val in Ha, Hb, Hc, Hd. intros [= <- <-]. lia.
Qed.

(** The fields [strptime] returns make a date and a time. *)
Lemma strptime_valid s dt : strptime s = Some dt -> valid_datetime dt.
Proof.
  unfold strptime. intros H.
  destruct (year_field s) as [[y s1]|] eqn:Ey; [|discriminate]. cbn [mbind option_bind] in H.
  destruct (expect "-" s1) as [s2|]; [|discriminate]. cbn [mbind option_bind] in H.
  destruct (month_field s2) as [[m s3]|] eqn:Em; [|discriminate]. cbn [mbind option_bind] in H.
  destruct (expect "-" s3) as [s4|]; [|discriminate]. cbn [mbind option_bind] in H.
  destruct (day_field s4) as [[d s5]|] eqn:Ed; [|discriminate]. cbn [mbind option_bind] in H.
  destruct (blanks s5) as [s6|]; [|discriminate]. cbn [mbind option_bind] in H.
  destruct (hour_field s6) as [[hh s7]|] eqn:Eh; [|discriminate]. cbn [mbind option_bind] in H.
  destruct (expect ":" s7) as [s8|]; [|discriminate]. cbn [mbind option_bind] in H.
  destruct (minute_field s8) as [[mi s9]|] eqn:Emi; [|discriminate]. cbn [mbind option_bind] in H.
  destruct (expect ":" s9) as [s10|]; [|discriminate]. cbn [mbind option_bind] in H.
  destruct (second_field s10) as [[ss s11]|] eqn:Es; [|discriminate]. cbn [mbind option_bind] in H.
  destruct (_ && _) eqn:C in H; [|discriminate]. injection H as <-.
  to_arith C. destruct C as (((_ & Hy) & Hd) & Hs).
  apply year_field_Some in Ey. apply month_field_Some in Em. apply day_field_Some in Ed.
  apply hour_field_Some in Eh. apply minute_field_Some in Emi. apply second_field_Some in Es.
  unfold valid_datetime. cbn [year month day hour minute second]. lia.
Qed.

(** X25.  The time of saving is shown as it was saved: what [strftime]
    writes for a date and a time of the calendar (from the year 1000 on),
    [strptime] reads back as the same date and time, and the Date Added cell
    of the dashboard shows the very text. *)
Theorem date_added_is_shown_as_saved dt :
  valid_datetime dt -> 1000 <= year dt ->
  exists now,
    strftime dt = Ok now /\ strptime now = Some dt
    /\ listing_cell 5 (VStr now) = Ok now.
Proof.
  intros Hv Hy. destruct (strptime_strftime dt Hv Hy) as (now & Hw & Hr).
  exists now. split; [assumption|]. split; [assumption|].
  unfold listing_cell, date_added_text. cbn [Nat.eqb andb]. rewrite Hr, Hw.
  now destruct (truthy (VStr now)).
Qed.

(** X26.  The Date Added cell settles at once: the text it shows for a
    stored text is shown as itself; and when the stored text reads as a date
    and a time, however it is spelled, the text shown is what [strftime]
    writes for them and reads as the same date and time. *)
Theorem date_added_text_is_canonical s s' :
  listing_cell 5 (VStr s) = Ok s' ->
  listing_cell 5 (VStr s') = Ok s'
  /\ forall dt, strptime s = Some dt -> strftime dt = Ok s' /\ strptime s' = Some dt.
Proof.
  unfold listing_cell, date_added_text. cbn [Nat.eqb andb str].
  destruct (strptime s) as [dt|] eqn:E.
  - destruct (truthy (VStr s)) eqn:T; [|destruct s; discriminate].
    intros Hw. assert (Hy : 1000 <= year dt).
    { unfold strftime in Hw. destruct (Z.ltb_spec (year dt) 1000); [discriminate | lia]. }
    destruct (strptime_strftime dt (strptime_valid s dt E) Hy) as (s0 & Hw' & Hr).
    assert (s0 = s') as -> by congruence.
    rewrite Hr, Hw. split; [now destruct (truthy (VStr s'))|].
    now intros dt' [= <-].
  - intros H.
    assert (s' = s) as -> by (destruct (truthy (VStr s)); congruence).
    rewrite E. split; [now destruct (truthy (VStr s)) | discriminate].
Qed.

End Dates.

(** * The dashboard after a create *)
Section Refreshing.

Implicit Types (t : invoices) (s : store) (f : form) (r : list value).
Implicit Types (rs : list (list value)) (search : string).

Lemma listed_same_columns t rs q : listed (Table (columns t) rs q) = listed t.
Proof. reflexivity. Qed.



End Refreshing.

(** * The dashboard after an edit *)
Section Edited.

Implicit Types (t : invoices) (f : form) (r row : list value) (search : string).

(** X28.  An edit replaces the date added by the invoice date: after an
    update, the line of the dashboard for the invoice shows under Date Added
    the date the form submitted (today's when the field was blank), when
    that text does not read as a date and a time, as a date alone does
    not; the time the invoice was created is gone. *)
Theorem edit_shows_the_invoice_date_as_date_added
    today now f t t' pdf search shown texts row :
  edit_mode f = true ->
  validation f = None ->
  known t invoices_columns = true ->
  well_formed t ->
  save_invoice today now f (Some t) = Ok (Updated, Some t', pdf) ->
  load_data search (Some t') = Ok shown ->
  In (texts, row) shown ->
  row !! 1%nat = Some (VStr (strip (invoice_number f))) ->
  strptime (submitted_date today f) = None ->
  texts !! 5%nat = Some (submitted_date today f).
Proof.
  intros Hmode Hvalid Hknown Hwf Hsave Hload Hin Hnumber Hdate.
  assert (Hfile : file_name_ok (document_file f) = true).
  { pose proof Hsave as H. rewrite save_invoice_validated, Hmode in H by assumption.
    destruct (file_name_ok _); [reflexivity|].
    destruct (update _ _ _); discriminate. }
  rewrite (save_invoice_updates today now f t Hmode Hvalid Hfile
             (known_written t Hknown today f)) in Hsave.
  injection Hsave as <- _.
  destruct (load_data_line _ _ _ _ _ Hload Hin)
    as (r' & total & added & Hr' & -> & _ & -> & _ & Hadded).
  change (Some (field t "invoice_number" r') = Some (VStr (strip (invoice_number f))))
    in Hnumber.
  injection Hnumber as Hnumber.
  change (Some added = Some (submitted_date today f)). f_equal.
  apply Hadded; [|assumption]. rewrite field_same_columns.
  cbn [rows] in Hr'. apply in_map_iff in Hr' as (r & Er & Hr). unfold number_in in Er.
  destruct (sql_eq (field t "invoice_number" r) _) eqn:E; subst r'.
  - assert (Hcol : forall c, In c invoices_columns -> has_column c t = true)
      by (intros c; now apply known_has_column).
    unfold well_formed in Hwf. rewrite List.Forall_forall in Hwf.
    assert (Hall : Forall (fun b => field t b.1 (assign t (update_bindings today f) r)
                                    = bind_param b.2) (update_bindings today f)).
    { apply field_assign_each; [compute_done | | now apply Hwf].
      unfold update_bindings, payload.
      repeat (apply List.Forall_cons; [apply Hcol; cbn; tauto|]).
      apply List.Forall_nil. }
    rewrite List.Forall_forall in Hall.
    apply (Hall ("date_added", VStr (submitted_date today f))).
    cbn. tauto.
  - rewrite Hnumber in E. cbn [sql_eq] in E. rewrite String.eqb_refl in E. discriminate.
Qed.

End Edited.

(** * The dashboard of the worked invoices *)
Section DashboardWorked.
Import Scenario.

Lemma dashboard_lists_newest_first_witness :
  exists kept,
    snd <$> [bolt_line; acme_line] = listed both <$> kept
    /\ StronglySorted (fun r1 r2 => rowid both r2 <= rowid both r1) kept
    /\ kept ⊆+ rows both
    /\ (strip "" = "" -> kept ≡ₚ rows both)
    /\ Forall (fun line => length line.1 = 6%nat) [bolt_line; acme_line].
Proof.
  apply (dashboard_lists_newest_first "" both [bolt_line; acme_line]).
  vm_compute. reflexivity.
Defined.

Lemma search_finds_what_contains_the_text_witness :
  In (listed both acme_row) (snd <$> [acme_line])
  <-> occurs (lower_string (strip " ACME ")) (lower_string "INV-001")
      \/ occurs (lower_string (strip " ACME ")) (lower_string "Acme Ltd").
Proof.
  apply (search_finds_what_contains_the_text " ACME " both [acme_line] acme_row
           "INV-001" "Acme Ltd");
    try (vm_compute; reflexivity).
  - vm_compute. discriminate.
  - now left.
Defined.

Lemma percent_sign_finds_every_invoice_witness :
  load_data "" (Some both) = Ok [bolt_line; acme_line].
Proof.
  apply (percent_sign_finds_every_invoice "%" both [bolt_line; acme_line]);
    try (vm_compute; reflexivity).
  - vm_compute. discriminate.
  - repeat (constructor; [eexists; reflexivity|]). constructor.
Defined.

Lemma listing_line_shows_the_row_witness :
  exists r total added,
    In r (rows both) /\ bolt_line.2 = listed both r
    /\ format2 (field both "total" r) = Ok total
    /\ bolt_line.1 = [str (field both "id" r); str (field both "invoice_number" r);
                      str (field both "client_name" r); "$" +:+ total;
                      str (field both "email" r); added]
    /\ (field both "date_added" r = VNone -> added = "None")
    /\ (forall text, field both "date_added" r = VStr text -> strptime text = None ->
        added = text).
Proof.
  apply (listing_line_shows_the_row "" both [bolt_line; acme_line]).
  - vm_compute. reflexivity.
  - now left.
Defined.

Lemma nan_total_breaks_the_dashboard_witness :
  load_data "" (Some endless_saved)
  = Raise (if has_column "id" stored then TypeError else OperationalError).
Proof.
  apply (nan_total_breaks_the_dashboard "2025-06-02" "2025-06-02 09:30:00" endless_form
           stored (Some endless_saved) (Some (document "2025-06-02" endless_form)) "");
    vm_compute; reflexivity.
Defined.

Lemma ids_are_not_reused_witness :
  exists r3,
    rows (Table invoices_columns [bolt_row] 2) = rows (Table invoices_columns [] 1) ++ [r3]
    /\ Forall (fun r => rowid stored r < rowid (Table invoices_columns [bolt_row] 2) r3)
         (rows stored).
Proof.
  apply (ids_are_not_reused "2025-06-01" "2025-06-01 10:00:00"
           "2025-06-02" "2025-06-02 09:30:00" acme_form bolt_form fresh stored
           (Table invoices_columns [] 1) (Table invoices_columns [bolt_row] 2)
           (Some (document "2025-06-01" acme_form))
           (Some (document "2025-06-02" bolt_form)) (Some Deleted) 1);
    vm_compute; reflexivity.
Defined.

Lemma date_added_is_shown_as_saved_witness :
  exists now,
    strftime (Datetime 2025 6 1 10 0 0) = Ok now
    /\ strptime now = Some (Datetime 2025 6 1 10 0 0)
    /\ listing_cell 5 (VStr now) = Ok now.
Proof.
  apply (date_added_is_shown_as_saved (Datetime 2025 6 1 10 0 0)).
  - unfold valid_datetime. cbn. lia.
  - cbn. lia.
Defined.

Lemma date_added_text_is_canonical_witness :
  listing_cell 5 (VStr "2025-06-01 09:05:03") = Ok "2025-06-01 09:05:03"
  /\ forall dt, strptime "2025-6-1 9:05:03" = Some dt ->
       strftime dt = Ok "2025-06-01 09:05:03"
       /\ strptime "2025-06-01 09:05:03" = Some dt.
Proof.
  apply (date_added_text_is_canonical "2025-6-1 9:05:03" "2025-06-01 09:05:03").
  vm_compute. reflexivity.
Defined.


Lemma edit_shows_the_invoice_date_as_date_added_witness :
  edited_line.1 !! 5%nat = Some (submitted_date "2025-07-07" acme_edit).
Proof.
  apply (edit_shows_the_invoice_date_as_date_added "2025-07-07" "2025-07-07 09:00:00"
           acme_edit stored edited (Some (document "2025-07-07" acme_edit)) ""
           [edited_line] edited_line.1 edited_line.2);
    try (vm_compute; reflexivity).
  - repeat constructor.
  - now left.
Defined.

End DashboardWorked.

(** * The form of a new invoice *)
Section NewInvoice.

Implicit Types (f : form) (s : store).

(** X29.  The form "New Invoice" opens: the company's three lines are
    filled in, the tax rate reads ["0"], the date is today's, every other
    field is empty and the grid has its five empty rows; the total displayed
    is [$0.00]; and saving the form as it opened is refused with "Missing
    Info", the store left as it was. *)
Theorem new_invoice_form_as_opened today f shown :
  open_new_invoice today = Ok (f, shown) ->
  f = Form false "BuildSmart Construction Inc." "123 Innovation Blvd, Suite 500"
        "Toronto, ON M1X 1A1 | (416) 555-0199 | info@buildsmart.ca"
        "" "" "" "" "" (replicate 5 (None, None, None)) "0" "" today
  /\ shown = "Total: $0.00"
  /\ forall now s, save_invoice today now f s = Ok (MissingInfo, s, None).
Proof.
  unfold open_new_invoice, InvoiceForm_init. cbv zeta.
  change (default ∅ None) with (∅ : gmap string value). unfold get.
  rewrite !lookup_empty. cbn [default str].
  intros H.
  next H Ecn. next H Eca. next H Ecc. next H Enumber. next H Ename.
  next H Eaddr. next H Enum. next H Edesc. next H Etax. next H Eemail.
  next H Edate. next H Etable. next H Eshown. injection H as <- <-.
  apply QLineEdit_text in Ecn, Eca, Ecc, Enumber, Ename, Eaddr, Enum, Etax, Eemail, Edate.
  injection Edesc as <-. injection Etable as <-. subst.
  split; [reflexivity|]. split.
  - unfold update_total in Eshown. rewrite calculate_totals_eq in Eshown.
    cbv zeta in Eshown. rewrite ok_bind in Eshown. injection Eshown as <-.
    vm_compute. reflexivity.
  - intros now s. apply save_invoice_rejected. reflexivity.
Qed.

End NewInvoice.

(** * The form of a new invoice, on 1 June *)
Section NewInvoiceWorked.
Import Scenario.

Lemma new_invoice_form_as_opened_witness :
  opened_form
  = Form false "BuildSmart Construction Inc." "123 Innovation Blvd, Suite 500"
      "Toronto, ON M1X 1A1 | (416) 555-0199 | info@buildsmart.ca"
      "" "" "" "" "" (replicate 5 (None, None, None)) "0" "" "2025-06-01"
  /\ "Total: $0.00" = "Total: $0.00"
  /\ forall now s, save_invoice "2025-06-01" now opened_form s = Ok (MissingInfo, s, None).
Proof.
  apply (new_invoice_form_as_opened "2025-06-01" opened_form "Total: $0.00").
  vm_compute. reflexivity.
Defined.

End NewInvoiceWorked.
